(** * The employee-record cleaning pipeline: validators, row cleaner,
      aggregate analyzer and quality grading

    A shallow embedding of [src/cleaner.py], [src/analyzer.py],
    [src/loader.py], [src/emailer.py] and of the environment check, the
    schema drift handling, the grading step and the retry loop of
    [src/main.py], followed by the properties of the specification that
    concern them and by further properties read off the code.

    Conventions of the embedding.
    - A Python [str] is a [string] whose characters are code points below
      256; [strip], [lower] and the regular-expression classes follow
      Python's behaviour on that range.
    - A Python [float] is an exact rational ([Q]); [nan] is a value of its
      own ([PNaN]) and infinities are not represented. Rounding is thus
      left out of [Grader]; [Binary64] evaluates the same two expressions
      in IEEE 754 double precision, which is what the interpreter does,
      and the runs at the end show where the two differ.
    - A pandas [DataFrame] is a list of named columns over a shared index,
      as pandas stores it; boolean masks are lists of [bool] aligned with
      the index by position.
    - A raised exception is the [Raise] case of [result]; [try]/[except]
      blocks are written out with [match]. *)

From Stdlib Require Import List String Ascii Bool Arith NArith ZArith QArith Lia.
From Stdlib Require Import Floats.SpecFloat.
From Stdlib Require Import Sorting.Sorted.
Import ListNotations.
Close Scope Q_scope.
Open Scope string_scope.

(* ===================================================================== *)
(** * Python runtime: strings *)
(* ===================================================================== *)

Module Py.

(** [str.isspace] on one character: TAB..CR, FS..US, space, NEL, NBSP. *)
Definition isspace (c : ascii) : bool :=
  let n := N_of_ascii c in
  ((9 <=? n) && (n <=? 13) || (28 <=? n) && (n <=? 32)
   || (n =? 133) || (n =? 160))%N.

(** The lowercase mapping of [str.lower] on one character: [A-Z] and the
    Latin-1 capitals U+00C0..U+00DE (without the multiplication sign). *)
Definition lower_char (c : ascii) : ascii :=
  let n := N_of_ascii c in
  if ((65 <=? n) && (n <=? 90)
      || (192 <=? n) && (n <=? 222) && negb (n =? 215))%N
  then ascii_of_N (n + 32) else c.

Fixpoint lower (s : string) : string :=
  match s with
  | EmptyString => EmptyString
  | String c s' => String (lower_char c) (lower s')
  end.

Fixpoint lstrip (s : string) : string :=
  match s with
  | EmptyString => EmptyString
  | String c s' => if isspace c then lstrip s' else s
  end.

Fixpoint rstrip (s : string) : string :=
  match s with
  | EmptyString => EmptyString
  | String c s' =>
      match rstrip s' with
      | EmptyString => if isspace c then EmptyString else String c EmptyString
      | r => String c r
      end
  end.

(** [s.strip()] *)
Definition strip (s : string) : string := rstrip (lstrip s).

(** [s.replace(old, new)] for a one-character [old]. *)
Fixpoint replace_char (old : ascii) (new : string) (s : string) : string :=
  match s with
  | EmptyString => EmptyString
  | String c s' =>
      if Ascii.eqb c old then new ++ replace_char old new s'
      else String c (replace_char old new s')
  end.

Fixpoint filter_chars (p : ascii -> bool) (s : string) : string :=
  match s with
  | EmptyString => EmptyString
  | String c s' => if p c then String c (filter_chars p s') else filter_chars p s'
  end.

Fixpoint all_chars (p : ascii -> bool) (s : string) : bool :=
  match s with
  | EmptyString => true
  | String c s' => p c && all_chars p s'
  end.

Fixpoint count_chars (p : ascii -> bool) (s : string) : nat :=
  match s with
  | EmptyString => 0
  | String c s' => (if p c then 1 else 0) + count_chars p s'
  end.

Definition in_range (lo hi : N) (c : ascii) : bool :=
  let n := N_of_ascii c in ((lo <=? n) && (n <=? hi))%N.

(** The class [\d] of a [str] pattern: the decimal digits. *)
Definition is_decimal (c : ascii) : bool := in_range 48 57 c.

(** [str.isdigit] on one character: the decimal digits and the
    superscripts two, three and one. *)
Definition isdigit_char (c : ascii) : bool :=
  let n := N_of_ascii c in
  (is_decimal c || (n =? 178) || (n =? 179) || (n =? 185))%N.

(** [s.isdigit()]: non-empty and every character a digit. *)
Definition isdigit (s : string) : bool :=
  match s with
  | EmptyString => false
  | _ => all_chars isdigit_char s
  end.

Definition is_upper_az (c : ascii) : bool := in_range 65 90 c.
Definition is_lower_az (c : ascii) : bool := in_range 97 122 c.
Definition is_alpha_az (c : ascii) : bool := is_upper_az c || is_lower_az c.
Definition is_alnum_az (c : ascii) : bool := is_alpha_az c || is_decimal c.

Definition one_of (cs : string) (c : ascii) : bool :=
  negb (all_chars (fun d => negb (Ascii.eqb c d)) cs).

Fixpoint join (sep : string) (l : list string) : string :=
  match l with
  | [] => ""
  | [x] => x
  | x :: rest => x ++ sep ++ join sep rest
  end.

(** [repr] of a [str] without quotes or escapes inside. *)
Definition repr_str (s : string) : string := "'" ++ s ++ "'".
Definition repr_list (l : list string) : string :=
  "[" ++ join ", " (map repr_str l) ++ "]".
(** [repr] of a non-empty [set] of [str]; the elements are listed in the
    order of [l] (Python's order depends on the hashes). *)
Definition repr_set (l : list string) : string :=
  "{" ++ join ", " (map repr_str l) ++ "}".

(** [sorted] on strings (code-point order), by insertion. *)
Fixpoint insert_sorted (x : string) (l : list string) : list string :=
  match l with
  | [] => [x]
  | y :: l' => if String.leb x y then x :: l else y :: insert_sorted x l'
  end.
Definition sorted (l : list string) : list string :=
  fold_right insert_sorted [] l.

Definition mem (x : string) (l : list string) : bool :=
  existsb (String.eqb x) l.

(** [set(a) - set(b)], keeping one copy of each element, in the order of [a]. *)
Definition set_diff (a b : list string) : list string :=
  nodup string_dec (filter (fun x => negb (mem x b)) a).

End Py.

(* ===================================================================== *)
(** * Regular expressions, as far as [re.match] with [^...$] needs them *)
(* ===================================================================== *)

Module Regex.

Inductive re : Type :=
| Void                          (* matches nothing *)
| Eps                           (* the empty string *)
| Class (p : ascii -> bool)     (* one character of a class *)
| Cat (a b : re)
| Alt (a b : re)
| Star (a : re).

(** [r+] and [r{2,}] *)
Definition plus (r : re) : re := Cat r (Star r).
Definition at_least_two (r : re) : re := Cat r (Cat r (Star r)).

Fixpoint nullable (r : re) : bool :=
  match r with
  | Void => false
  | Eps => true
  | Class _ => false
  | Cat a b => nullable a && nullable b
  | Alt a b => nullable a || nullable b
  | Star _ => true
  end.

(** Brzozowski derivative. *)
Fixpoint deriv (c : ascii) (r : re) : re :=
  match r with
  | Void => Void
  | Eps => Void
  | Class p => if p c then Eps else Void
  | Cat a b =>
      if nullable a then Alt (Cat (deriv c a) b) (deriv c b)
      else Cat (deriv c a) b
  | Alt a b => Alt (deriv c a) (deriv c b)
  | Star a => Cat (deriv c a) (Star a)
  end.

Fixpoint fullmatch (r : re) (s : string) : bool :=
  match s with
  | EmptyString => nullable r
  | String c s' => fullmatch (deriv c r) s'
  end.

Fixpoint chop_newline (s : string) : option string :=
  match s with
  | EmptyString => None
  | String c EmptyString => if Ascii.eqb c "010"%char then Some EmptyString else None
  | String c s' => option_map (String c) (chop_newline s')
  end.

(** [bool(re.match("^" r "$", s))]: without [re.MULTILINE], [$] matches
    at the end of the string and also just before a final newline. *)
Definition match_anchored (r : re) (s : string) : bool :=
  fullmatch r s
  || match chop_newline s with
     | Some s' => fullmatch r s'
     | None => false
     end.

End Regex.

(* ===================================================================== *)
(** * Values, exceptions and results *)
(* ===================================================================== *)

(** The Python objects found in a cell of a table. *)
Inductive pyval : Type :=
| PNone                       (* None *)
| PNaN                        (* float("nan") *)
| PStr (s : string)
| PNum (q : Q)                (* an int or a finite float *)
| PTimestamp (t : Z).         (* a pd.Timestamp, as an instant *)

(** [pd.isna(v)] *)
Definition isna (v : pyval) : bool :=
  match v with
  | PNone | PNaN => true
  | _ => false
  end.

Definition is_none {A : Type} (o : option A) : bool :=
  match o with
  | None => true
  | Some _ => false
  end.

(** [src/exceptions.py], and the built-in exceptions the code meets. *)
Inductive exn_class : Type :=
| PipelineError | DataLoadError | CleaningError | AnalysisError
| ReportError | EmailError
| KeyError | ValueError | TypeError | ZeroDivisionError.

(** An exception: its class and [str(exc)]; [ExnFrom] is an exception
    raised [from cause], which becomes its [__cause__]. *)
Inductive exn : Type :=
| Exn (cls : exn_class) (msg : string)
| ExnFrom (cls : exn_class) (msg : string) (cause : exn).

Definition exn_cls (e : exn) : exn_class :=
  match e with Exn c _ | ExnFrom c _ _ => c end.
Definition exn_msg (e : exn) : string :=
  match e with Exn _ m | ExnFrom _ m _ => m end.
Definition exn_cause (e : exn) : option exn :=
  match e with Exn _ _ => None | ExnFrom _ _ c => Some c end.

Inductive result (A : Type) : Type :=
| Ok (a : A)
| Raise (e : exn).
Arguments Ok {A} a.
Arguments Raise {A} e.

Definition bind {A B : Type} (m : result A) (k : A -> result B) : result B :=
  match m with
  | Ok a => k a
  | Raise e => Raise e
  end.

Notation "x <- m ;; k" := (bind m (fun x => k))
  (at level 61, m at next level, right associativity).

(** The result of [float(v)]. *)
Inductive float_result : Type :=
| FloatError                  (* ValueError or TypeError *)
| FloatNaN
| FloatVal (q : Q).

Inductive dtype : Type :=
| DObject | DInt64 | DFloat64 | DBool | DDatetime64.

(** [select_dtypes(include="number")] keeps the integer and float columns. *)
Definition is_number_dtype (d : dtype) : bool :=
  match d with
  | DInt64 | DFloat64 => true
  | _ => false
  end.

Record Series : Type := mkSeries {
  name : string;
  dtype_of : dtype;
  cells : list pyval
}.

(** A table: the index labels and the columns, every column holding one
    cell per index label. *)
Record DataFrame : Type := mkDataFrame {
  index : list nat;
  series : list Series
}.

Inductive agg : Type := Mean | Min | Max | Sum.

(** What pandas and the interpreter compute and this repository does not
    define. *)
Class PyRuntime : Type := {
  (** [float(s)] for a [str] *)
  float_of_str : string -> float_result;
  (** [pd.to_datetime(v, errors="coerce")]; [None] stands for [NaT] *)
  to_datetime : pyval -> option Z;
  (** the dtype pandas infers for the outcome of [Series.apply] *)
  infer_dtype : list pyval -> dtype;
  (** [Series.mean()], [.min()], [.max()], [.sum()] of a numeric column *)
  aggregate : agg -> list pyval -> pyval;
  (** [DataFrame.corr().to_dict()]; [None] when the computation raises *)
  corr : list Series -> option (list (string * list (string * pyval)))
}.

(* ===================================================================== *)
(** * The pandas operations the code uses *)
(* ===================================================================== *)

Module Pandas.
Import Py.

(** [df.columns], [len(df)] and [df.empty] *)
Definition columns (df : DataFrame) : list string := map name (series df).
Definition len (df : DataFrame) : nat := List.length (index df).
Definition empty (df : DataFrame) : bool :=
  (len df =? 0)%nat || (List.length (series df) =? 0)%nat.

(** Boolean indexing: the entries at the positions where the mask holds. *)
Fixpoint select {A : Type} (mask : list bool) (l : list A) : list A :=
  match mask, l with
  | b :: mask', x :: l' => if b then x :: select mask' l' else select mask' l'
  | _, _ => []
  end.

(** [df.loc[mask]] *)
Definition loc (mask : list bool) (df : DataFrame) : DataFrame :=
  mkDataFrame (select mask (index df))
    (map (fun s => mkSeries (name s) (dtype_of s) (select mask (cells s)))
         (series df)).

(** [df[col]]; a missing column raises [KeyError(col)]. *)
Definition getitem (df : DataFrame) (col : string) : result Series :=
  match find (fun s => String.eqb (name s) col) (series df) with
  | Some s => Ok s
  | None => Raise (Exn KeyError (repr_str col))
  end.

(** [df[col] = values]: replaces the column, or appends a new one. *)
Definition setitem (df : DataFrame) (col : string) (d : dtype)
    (values : list pyval) : DataFrame :=
  if mem col (columns df)
  then mkDataFrame (index df)
         (map (fun s => if String.eqb (name s) col
                        then mkSeries col d values else s) (series df))
  else mkDataFrame (index df) (series df ++ [mkSeries col d values])%list.

(** [df[cols]] for a list of names that all exist. *)
Definition getitems (df : DataFrame) (cols : list string) : DataFrame :=
  mkDataFrame (index df)
    (flat_map (fun c => filter (fun s => String.eqb (name s) c) (series df))
              cols).

(** [df.select_dtypes(include="number")] *)
Definition select_dtypes_number (df : DataFrame) : DataFrame :=
  mkDataFrame (index df)
    (filter (fun s => is_number_dtype (dtype_of s)) (series df)).

(** The row at a position, one cell per column. *)
Definition row_at (df : DataFrame) (i : nat) : list pyval :=
  map (fun s => nth i (cells s) PNone) (series df).
Definition rows (df : DataFrame) : list (list pyval) :=
  map (row_at df) (seq 0 (len df)).

(** Equality of two cells as [duplicated] sees it: missing values are
    equal to each other, other values by their own equality. *)
Definition cell_eqb (a b : pyval) : bool :=
  match a, b with
  | PStr s, PStr t => String.eqb s t
  | PNum x, PNum y => Qeq_bool x y
  | PTimestamp s, PTimestamp t => Z.eqb s t
  | _, _ => isna a && isna b
  end.

Fixpoint row_eqb (r1 r2 : list pyval) : bool :=
  match r1, r2 with
  | [], [] => true
  | a :: r1', b :: r2' => cell_eqb a b && row_eqb r1' r2'
  | _, _ => false
  end.

(** [df.duplicated()]: a row is marked when an earlier row equals it. *)
Fixpoint duplicated_from (seen rest : list (list pyval)) : list bool :=
  match rest with
  | [] => []
  | r :: rest' => existsb (row_eqb r) seen :: duplicated_from (r :: seen) rest'
  end.
Definition duplicated (df : DataFrame) : list bool :=
  duplicated_from [] (rows df).

(** [df.drop_duplicates()] *)
Definition drop_duplicates (df : DataFrame) : DataFrame :=
  loc (map negb (duplicated df)) df.

(** [series.apply(f)] and [.isna()] of the outcome. *)
Definition apply {A : Type} (f : pyval -> option A) (s : Series)
  : list (option A) := map f (cells s).
Definition isna_mask {A : Type} (l : list (option A)) : list bool :=
  map is_none l.

(** [int(mask.sum())] *)
Definition mask_sum (mask : list bool) : nat := count_occ bool_dec mask true.

(** [a | b] and [~a] on masks over the same index. *)
Definition mask_or (a b : list bool) : list bool :=
  map (fun p => fst p || snd p) (combine a b).
Definition mask_not (a : list bool) : list bool := map negb a.

(** The cells an applied function leaves in the column. *)
Definition cell_of {A : Type} (inj : A -> pyval) (o : option A) : pyval :=
  match o with
  | Some a => inj a
  | None => PNone
  end.

End Pandas.

(* ===================================================================== *)
(** * [src/cleaner.py] *)
(* ===================================================================== *)

Module Cleaner.
Import Py Regex Pandas.

Definition CLEANING_VERSION : string := "4.6".

(** [[A-Za-z0-9._%+-]+@[A-Za-z0-9.-]+\.[A-Za-z]{2,}] *)
Definition email_pattern : re :=
  Cat (plus (Class (fun c => is_alnum_az c || one_of "._%+-" c)))
 (Cat (Class (Ascii.eqb "@"%char))
 (Cat (plus (Class (fun c => is_alnum_az c || one_of ".-" c)))
 (Cat (Class (Ascii.eqb "."%char))
      (at_least_two (Class is_alpha_az))))).

Definition validate_email (email : pyval) : bool :=
  match email with
  | PStr email =>
      let email := lower (strip email) in
      match_anchored email_pattern email
  | _ => false
  end.

(** [re.sub(r"[^\d+]", "", s)] *)
Definition keep_digits_plus (s : string) : string :=
  filter_chars (fun c => is_decimal c || Ascii.eqb c "+"%char) s.

(** [phone[1:] if phone.startswith("+") else phone] *)
Definition drop_leading_plus (phone : string) : string :=
  match phone with
  | String c rest => if Ascii.eqb c "+"%char then rest else phone
  | EmptyString => phone
  end.

Definition validate_phone (phone : pyval) : bool :=
  match phone with
  | PStr phone =>
      let phone := keep_digits_plus (strip phone) in
      let digits := drop_leading_plus phone in
      isdigit digits && (7 <=? String.length digits)%nat && (String.length digits <=? 15)%nat
  | _ => false
  end.

Definition fix_email (email : pyval) : option string :=
  match email with
  | PStr email =>
      let email := lower (strip email) in
      if validate_email (PStr email) then Some email else None
  | _ => None
  end.

Definition normalize_phone (phone : pyval) : option string :=
  match phone with
  | PStr phone =>
      let phone := keep_digits_plus (strip phone) in
      let digits := drop_leading_plus phone in
      if isdigit digits && (7 <=? String.length digits)%nat && (String.length digits <=? 15)%nat
      then Some phone else None
  | _ => None
  end.

Section WithRuntime.
Context {rt : PyRuntime}.

(** [float(value)] *)
Definition py_float (value : pyval) : float_result :=
  match value with
  | PStr s => float_of_str s
  | PNum q => FloatVal q
  | PNaN => FloatNaN
  | PNone | PTimestamp _ => FloatError
  end.

Definition clean_numeric (value : pyval) : option Q :=
  if isna value then None
  else
    let value :=
      match value with
      | PStr s => PStr (strip (replace_char "$" "" (replace_char "," "" s)))
      | _ => value
      end in
    match py_float value with
    | FloatVal num => if Qle_bool 0%Q num then Some num else None
    | FloatNaN => None
    | FloatError => None
    end.

Definition clean_date (value : pyval) : option Z := to_datetime value.

End WithRuntime.

Definition clean_text (value : pyval) : option string :=
  match value with
  | PStr value =>
      let value := strip value in
      match value with
      | EmptyString => None
      | _ => Some value
      end
  | _ => None
  end.

Definition REQUIRED_COLUMNS : list string :=
  ["id"; "name"; "email"; "phone"; "salary"; "date_joined"].
Definition OPTIONAL_COLUMNS : list string :=
  ["department"; "notes"; "position"; "location"; "status";
   "manager"; "dob"; "gender"; "contract_type"; "last_updated"].

Record CleaningReport : Type := mkReport {
  original_rows : nat;
  final_rows : nat;
  duplicates_dropped : nat;
  invalid_emails_dropped : nat;
  invalid_phones_dropped : nat;
  invalid_numbers_dropped : nat;
  invalid_dates_dropped : nat;
  missing_required_columns : list string;
  extra_columns : list string;
  cleaning_version : string
}.

(** The report of the [df.empty] branch. *)
Definition empty_report : CleaningReport :=
  mkReport 0 0 0 0 0 0 0 [] [] CLEANING_VERSION.

(** [df.columns.str.strip().str.lower().str.replace(" ", "_")] *)
Definition normalize_column (c : string) : string :=
  replace_char " " "_" (lower (strip c)).
Definition normalize_columns (df : DataFrame) : DataFrame :=
  mkDataFrame (index df)
    (map (fun s => mkSeries (normalize_column (name s)) (dtype_of s) (cells s))
         (series df)).

(** [required_columns or REQUIRED_COLUMNS] *)
Definition required_or_default (required_columns : option (list string))
  : list string :=
  match required_columns with
  | Some (c :: l) => c :: l
  | _ => REQUIRED_COLUMNS
  end.

(** [except (ValueError, TypeError, KeyError) as exc:
       raise CleaningError(str(exc)) from exc] *)
Definition except_cleaning {A : Type} (body : result A) : result A :=
  match body with
  | Ok a => Ok a
  | Raise exc =>
      match exn_cls exc with
      | ValueError | TypeError | KeyError =>
          Raise (ExnFrom CleaningError (exn_msg exc) exc)
      | _ => Raise exc
      end
  end.

Section WithRuntime.
Context {rt : PyRuntime}.

(** [df[col] = df[col].apply(f)] with the cells [f] leaves. *)
Definition assign_applied {A : Type} (df : DataFrame) (col : string)
    (inj : A -> pyval) (applied : list (option A)) : DataFrame :=
  let values := map (cell_of inj) applied in
  setitem df col (infer_dtype values) values.

(** The loop over [OPTIONAL_COLUMNS]. *)
Fixpoint clean_optional (cols : list string) (df : DataFrame)
  : result DataFrame :=
  match cols with
  | [] => Ok df
  | col :: rest =>
      if mem col (columns df)
      then s <- getitem df col ;;
           clean_optional rest (assign_applied df col PStr (apply clean_text s))
      else clean_optional rest df
  end.

Definition clean_data (df : DataFrame) (drop_duplicates_flag : bool)
    (required_columns : option (list string))
  : result (DataFrame * CleaningReport) :=
  if empty df then Ok (df, empty_report)
  else except_cleaning (
    let original := len df in
    let df := normalize_columns df in
    let required := required_or_default required_columns in
    let missing := sorted (set_diff required (columns df)) in
    match missing with
    | _ :: _ =>
        Raise (Exn CleaningError
                 ("Missing required columns: " ++ repr_list missing))
    | [] =>
        let extra :=
          sorted (set_diff (set_diff (columns df) required) OPTIONAL_COLUMNS) in
        let before := len df in
        let df := if drop_duplicates_flag then drop_duplicates df else df in
        let dups := if drop_duplicates_flag then before - len df else 0 in
        let invalid_mask := repeat false (len df) in

        email <- getitem df "email" ;;
        let email_invalid := isna_mask (apply fix_email email) in
        let df := assign_applied df "email" PStr (apply fix_email email) in
        let invalid_mask := mask_or invalid_mask email_invalid in

        phone <- getitem df "phone" ;;
        let phone_invalid := isna_mask (apply normalize_phone phone) in
        let df := assign_applied df "phone" PStr (apply normalize_phone phone) in
        let invalid_mask := mask_or invalid_mask phone_invalid in

        salary <- getitem df "salary" ;;
        let salary_invalid := isna_mask (apply clean_numeric salary) in
        let df := assign_applied df "salary" PNum (apply clean_numeric salary) in
        let invalid_mask := mask_or invalid_mask salary_invalid in

        date <- getitem df "date_joined" ;;
        let date_invalid := isna_mask (apply clean_date date) in
        let df :=
          assign_applied df "date_joined" PTimestamp (apply clean_date date) in
        let invalid_mask := mask_or invalid_mask date_invalid in

        let df := loc (mask_not invalid_mask) df in
        df <- clean_optional OPTIONAL_COLUMNS df ;;
        Ok (df,
            mkReport original (len df) dups
              (mask_sum email_invalid) (mask_sum phone_invalid)
              (mask_sum salary_invalid) (mask_sum date_invalid)
              [] extra CLEANING_VERSION)
    end).

End WithRuntime.

End Cleaner.

(* ===================================================================== *)
(** * [src/analyzer.py] *)
(* ===================================================================== *)

Module Analyzer.
Import Py Pandas.

(** The ["meta"] entry of the result. *)
Record Meta : Type := mkMeta {
  row_count : nat;
  column_count : nat;
  numeric_columns : list string;
  missing_values : list (string * nat);
  analysis_version : string
}.

(** The ["statistics"] entry: one dictionary per aggregate. *)
Record Statistics : Type := mkStatistics {
  stat_mean : list (string * pyval);
  stat_min : list (string * pyval);
  stat_max : list (string * pyval);
  stat_sum : list (string * pyval)
}.

(** The dictionary [analyze_data] returns; an absent key is [None]. *)
Record Analysis : Type := mkAnalysis {
  meta : option Meta;
  statistics : option Statistics;
  correlation : option (list (string * list (string * pyval)))
}.

(** [{}] *)
Definition empty_analysis : Analysis := mkAnalysis None None None.

(** [except Exception as e: raise AnalysisError("Analysis stage failed") from e] *)
Definition except_analysis {A : Type} (body : result A) : result A :=
  match body with
  | Ok a => Ok a
  | Raise e => Raise (ExnFrom AnalysisError "Analysis stage failed" e)
  end.

(** [df.isna().sum()] restricted to the positive counts, as a dictionary. *)
Definition isna_counts (df : DataFrame) : list (string * nat) :=
  filter (fun p => (0 <? snd p)%nat)
    (map (fun s => (name s, List.length (filter isna (cells s)))) (series df)).

Section WithRuntime.
Context {rt : PyRuntime}.

(** [numeric_df.mean().to_dict()] and its siblings. *)
Definition aggregate_dict (a : agg) (numeric_df : DataFrame)
  : list (string * pyval) :=
  map (fun s => (name s, aggregate a (cells s))) (series numeric_df).

Definition analyze_data (df : DataFrame) (numeric_columns : option (list string))
  : result Analysis :=
  if empty df then Ok empty_analysis
  else except_analysis (
    numeric_df <-
      match numeric_columns with
      | Some (c :: l) =>
          let missing := set_diff (c :: l) (columns df) in
          match missing with
          | _ :: _ =>
              Raise (Exn AnalysisError
                       ("Missing numeric columns: " ++ repr_set missing))
          | [] => Ok (select_dtypes_number (getitems df (c :: l)))
          end
      | _ => Ok (select_dtypes_number df)
      end ;;
    let missing := isna_counts df in
    let m :=
      mkMeta (len df) (List.length (columns df)) (columns numeric_df)
             missing "1.0" in
    if negb (empty numeric_df)
    then
      let stats :=
        mkStatistics (aggregate_dict Mean numeric_df)
                     (aggregate_dict Min numeric_df)
                     (aggregate_dict Max numeric_df)
                     (aggregate_dict Sum numeric_df) in
      let n := List.length (series numeric_df) in
      if (2 <=? n)%nat && (n <=? 10)%nat
      then Ok (mkAnalysis (Some m) (Some stats) (corr (series numeric_df)))
      else Ok (mkAnalysis (Some m) (Some stats) None)
    else Ok (mkAnalysis (Some m) None None)).

End WithRuntime.

End Analyzer.

(* ===================================================================== *)
(** * The grading step of [run_pipeline_async] in [src/main.py] *)
(* ===================================================================== *)

Module Grader.
Import Cleaner Analyzer Pandas.

(** [a < b] *)
Definition Qltb (a b : Q) : bool := negb (Qle_bool b a).

(** [a / b] on two [int]s. *)
Definition truediv (a b : nat) : result Q :=
  match b with
  | O => Raise (Exn ZeroDivisionError "division by zero")
  | S _ => Ok (Z.of_nat a # Pos.of_nat b)%Q
  end.

(** [1 - (cleaning_report["final_rows"] / cleaning_report["original_rows"])] *)
Definition drop_rate (cleaning_report : CleaningReport) : result Q :=
  q <- truediv (final_rows cleaning_report) (original_rows cleaning_report) ;;
  Ok (1 - q)%Q.

(** The [if]/[elif]/[else] on the drop rate, the literals [0.10] and
    [0.30] read as 1/10 and 3/10. The third string ends with a space and
    the warning sign U+26A0 U+FE0F, here in UTF-8. *)
Definition severity (drop_rate : Q) : string :=
  if Qltb drop_rate (1 # 10)%Q then "LOW"
  else if Qle_bool drop_rate (3 # 10)%Q then "MEDIUM"
  else "HIGH ⚠️".

(** [write_analysis_to_excel] of [src/excel_writer.py]: the guard at its
    head, then [render], which stands for the writing of the workbook and
    returns its path or raises. The writer adds keys to the report and
    leaves its row counts as they are. *)
Definition write_analysis_to_excel
    (render : Analysis -> DataFrame -> CleaningReport -> result string)
    (results : Analysis) (clean_df : DataFrame)
    (cleaning_report : CleaningReport) : result string :=
  match meta results, statistics results, correlation results with
  | None, None, None => Raise (Exn ReportError "No analysis results to write.")
  | _, _, _ => render results clean_df cleaning_report
  end.

Section WithRuntime.
Context {rt : PyRuntime}.
Variable render : Analysis -> DataFrame -> CleaningReport -> result string.

(** [run_pipeline_async] from the cleaning stage up to the severity: the
    drop rate and severity it computes, or the exception that ends the
    run. The check that the written file exists is part of [render]. *)
Definition run_to_grading (df : DataFrame) : result (Q * string) :=
  cleaned <- clean_data df true None ;;
  let (clean_df, cleaning_report) := cleaned in
  results <- analyze_data clean_df None ;;
  _ <- write_analysis_to_excel render results clean_df cleaning_report ;;
  drop_rate <- drop_rate cleaning_report ;;
  Ok (drop_rate, severity drop_rate).

End WithRuntime.

End Grader.

(* ===================================================================== *)
(** * The grading step in double precision *)
(* ===================================================================== *)

Module Binary64.
Import Cleaner.

(** [float(n)] for an [int] (exact below 2^53). *)
Definition of_int (n : nat) : spec_float :=
  binary_normalize 53 1024 (Z.of_nat n) 0 false.

(** The literals [0.10] and [0.30]: the doubles [0x3FB999999999999A] and
    [0x3FD3333333333333]. *)
Definition literal_0_10 : spec_float :=
  S754_finite false 7205759403792794 (-56).
Definition literal_0_30 : spec_float :=
  S754_finite false 5404319552844595 (-54).

(** [a / b] on two [int]s below 2^53: the quotient, rounded once. *)
Definition truediv (a b : nat) : result spec_float :=
  match b with
  | O => Raise (Exn ZeroDivisionError "division by zero")
  | S _ => Ok (SFdiv 53 1024 (of_int a) (of_int b))
  end.

(** [1 - (cleaning_report["final_rows"] / cleaning_report["original_rows"])] *)
Definition drop_rate (cleaning_report : CleaningReport) : result spec_float :=
  q <- truediv (final_rows cleaning_report) (original_rows cleaning_report) ;;
  Ok (SFsub 53 1024 (of_int 1) q).

Definition severity (drop_rate : spec_float) : string :=
  if SFltb drop_rate literal_0_10 then "LOW"
  else if SFleb drop_rate literal_0_30 then "MEDIUM"
  else "HIGH ⚠️".

(** The severity of a report with the given row counts. *)
Definition graded (original final : nat) : result string :=
  d <- drop_rate (mkReport original final 0 0 0 0 0 [] [] CLEANING_VERSION) ;;
  Ok (severity d).

End Binary64.

(* ===================================================================== *)
(** * A small runtime and sample tables, to run the code on *)
(* ===================================================================== *)

Module Sample.
Import Py Pandas Cleaner Analyzer Grader.

Fixpoint decimal_value (acc : Z) (s : string) : option Z :=
  match s with
  | EmptyString => Some acc
  | String c s' =>
      if is_decimal c
      then decimal_value (10 * acc + Z.of_N (N_of_ascii c) - 48)%Z s'
      else None
  end.

(** [float] on the literals the samples use: [nan] and the integers
    written in decimal digits, with or without a minus sign. *)
Definition sample_float (s : string) : float_result :=
  if String.eqb s "nan" then FloatNaN
  else
    match s with
    | EmptyString => FloatError
    | String c s' =>
        if Ascii.eqb c "-"%char
        then match s' with
             | EmptyString => FloatError
             | _ => match decimal_value 0 s' with
                    | Some z => FloatVal (- z # 1)%Q
                    | None => FloatError
                    end
             end
        else match decimal_value 0 s with
             | Some z => FloatVal (z # 1)%Q
             | None => FloatError
             end
    end.

(** [to_datetime] on the literals the samples use: eight digits
    [YYYYMMDD], read as one number, and timestamps themselves. *)
Definition sample_datetime (v : pyval) : option Z :=
  match v with
  | PTimestamp t => Some t
  | PStr s => if (String.length s =? 8)%nat then decimal_value 0 s else None
  | _ => None
  end.

Definition sample_dtype (l : list pyval) : dtype :=
  if forallb (fun v => match v with PNum _ | PNaN => true | _ => false end) l
  then DFloat64
  else if forallb (fun v => match v with PTimestamp _ => true | _ => false end) l
  then DDatetime64
  else DObject.

Definition numbers (l : list pyval) : list Q :=
  flat_map (fun v => match v with PNum q => [q] | _ => [] end) l.

Definition sample_aggregate (a : agg) (l : list pyval) : pyval :=
  match numbers l with
  | [] => PNaN
  | q :: qs =>
      match a with
      | Sum => PNum (fold_left Qplus qs q)
      | Mean => PNum (fold_left Qplus qs q / inject_Z (Z.of_nat (S (List.length qs))))%Q
      | Min => PNum (fold_left (fun m x => if Qle_bool x m then x else m) qs q)
      | Max => PNum (fold_left (fun m x => if Qle_bool m x then x else m) qs q)
      end
  end.

(** A correlation that fails on a column without numbers and otherwise
    returns the diagonal. *)
Definition sample_corr (cols : list Series)
  : option (list (string * list (string * pyval))) :=
  if forallb (fun s => negb (List.length (numbers (cells s)) =? 0)%nat) cols
  then Some (map (fun s => (name s, [(name s, PNum 1%Q)])) cols)
  else None.

#[export] Instance sample_runtime : PyRuntime := {|
  float_of_str := sample_float;
  to_datetime := sample_datetime;
  infer_dtype := sample_dtype;
  aggregate := sample_aggregate;
  corr := sample_corr
|}.

Definition str_cells (l : list string) : list pyval := map PStr l.

(** Ten employees: row 3 has the salary ["-5"], row 6 the email ["bad"]. *)
Definition ten_rows : DataFrame :=
  mkDataFrame (seq 0 10)
    [ mkSeries "id" DInt64
        (map (fun n => PNum (Z.of_nat n # 1)%Q) (seq 1 10));
      mkSeries "name" DObject
        (str_cells ["Ann"; "Bob"; "Cy"; "Di"; "Ed"; "Flo"; "Gus"; "Hal"; "Ida"; "Jo"]);
      mkSeries "email" DObject
        (str_cells ["ann@corp.io"; " Bob@Corp.IO "; "cy@corp.io"; "di@corp.io";
                    "ed@corp.io"; "flo@corp.io"; "bad"; "hal@corp.io";
                    "ida@corp.io"; "jo@corp.io"]);
      mkSeries "phone" DObject
        (str_cells ["+1 555 010 0001"; "(555) 010-0002"; "5550100003";
                    "5550100004"; "5550100005"; "5550100006"; "5550100007";
                    "5550100008"; "5550100009"; "5550100010"]);
      mkSeries "salary" DObject
        (str_cells ["$1,000"; "2000"; "3000"; "-5"; "5000"; "6000"; "7000";
                    "8000"; "9000"; "10000"]);
      mkSeries "date_joined" DObject
        (str_cells ["20200101"; "20200102"; "20200103"; "20200104"; "20200105";
                    "20200106"; "20200107"; "20200108"; "20200109"; "20200110"]) ].

(** Four rows: row 1 repeats row 0, row 2 has two bad fields (email and
    phone), row 3 differs from row 0 only by the case of its email. *)
Definition four_rows : DataFrame :=
  mkDataFrame (seq 0 4)
    [ mkSeries " ID" DInt64 [PNum 1; PNum 1; PNum 2; PNum 1]%Q;
      mkSeries "Name" DObject (str_cells ["Ann"; "Ann"; "Bob"; "Ann"]);
      mkSeries "email" DObject
        (str_cells ["ann@corp.io"; "ann@corp.io"; "bob at corp"; "ANN@corp.io"]);
      mkSeries "phone" DObject
        (str_cells ["5550100001"; "5550100001"; "12+34"; "5550100001"]);
      mkSeries "salary" DFloat64 [PNum 10; PNum 10; PNum 20; PNum 10]%Q;
      mkSeries "Date Joined" DObject
        (str_cells ["20200101"; "20200101"; "20200102"; "20200101"]) ].

(** A table without rows and without the required columns. *)
Definition no_rows : DataFrame :=
  mkDataFrame [] [mkSeries "comment" DObject []].

(** A cleaned table with two numeric columns. *)
Definition two_numeric : DataFrame :=
  mkDataFrame [0; 1]
    [ mkSeries "id" DInt64 [PNum 1; PNum 2]%Q;
      mkSeries "name" DObject (str_cells ["Ann"; "Bob"]);
      mkSeries "salary" DFloat64 [PNum 10; PNum 20]%Q ].

(** The report of a run, when it returned. *)
Definition report_of (r : result (DataFrame * CleaningReport))
  : option CleaningReport :=
  match r with
  | Ok (_, report) => Some report
  | Raise _ => None
  end.

(** The index labels of the cleaned table of a run, when it returned. *)
Definition labels_of (r : result (DataFrame * CleaningReport))
  : option (list nat) :=
  match r with
  | Ok (df, _) => Some (index df)
  | Raise _ => None
  end.

End Sample.

(* ===================================================================== *)
(** * The notions the specification words its properties with *)
(* ===================================================================== *)

Module Spec.
Import Py Pandas Cleaner.

(** The phone rule as the specification words it: keep the digits, and a
    [+] only when it is the first character kept. *)
Definition spec_strip_phone (s : string) : string :=
  match keep_digits_plus (strip s) with
  | String c rest =>
      if Ascii.eqb c "+"%char then String c (filter_chars is_decimal rest)
      else filter_chars is_decimal (String c rest)
  | EmptyString => EmptyString
  end.

(** ... and accept when 7 to 15 digits remain, a leading [+] not counted. *)
Definition spec_validate_phone (v : pyval) : bool :=
  match v with
  | PStr s =>
      let digits := drop_leading_plus (spec_strip_phone s) in
      (7 <=? String.length digits)%nat && (String.length digits <=? 15)%nat
  | _ => false
  end.

(** Every column holds one cell per index label. *)
Definition aligned (df : DataFrame) : Prop :=
  Forall (fun s => List.length (cells s) = len df) (series df).

(** The column names stay distinct once normalized. *)
Definition distinct_columns (df : DataFrame) : Prop :=
  NoDup (columns (normalize_columns df)).

(** The required-column check of [clean_data] finds nothing missing. *)
Definition passes_required_check (df : DataFrame) : Prop :=
  sorted (set_diff REQUIRED_COLUMNS (columns (normalize_columns df))) = [].

(** The table the validators see: column names normalized, duplicates
    dropped when asked for. *)
Definition deduplicated (drop_duplicates_flag : bool) (df : DataFrame)
  : DataFrame :=
  if drop_duplicates_flag then drop_duplicates (normalize_columns df)
  else normalize_columns df.

(** The cell of column [col] in the row at position [i]. *)
Definition cell (df : DataFrame) (col : string) (i : nat) : pyval :=
  match getitem df col with
  | Ok s => nth i (cells s) PNone
  | Raise _ => PNone
  end.

Section WithRuntime.
Context {rt : PyRuntime}.

Definition email_fails (df : DataFrame) (i : nat) : bool :=
  is_none (fix_email (cell df "email" i)).
Definition phone_fails (df : DataFrame) (i : nat) : bool :=
  is_none (normalize_phone (cell df "phone" i)).
Definition salary_fails (df : DataFrame) (i : nat) : bool :=
  is_none (clean_numeric (cell df "salary" i)).
Definition date_fails (df : DataFrame) (i : nat) : bool :=
  is_none (clean_date (cell df "date_joined" i)).

(** At least one of the four validated fields of row [i] fails. *)
Definition row_invalid (df : DataFrame) (i : nat) : bool :=
  email_fails df i || phone_fails df i || salary_fails df i || date_fails df i.

End WithRuntime.

(** The number of rows of [df] that satisfy [p]. *)
Definition count_rows (p : nat -> bool) (df : DataFrame) : nat :=
  List.length (filter p (seq 0 (len df))).

(** Row [i] equals, on all columns, a row at an earlier position. *)
Definition duplicates_earlier (df : DataFrame) (i : nat) : Prop :=
  exists j, j < i /\ row_eqb (row_at df i) (row_at df j) = true.

(** The positions at which a mask holds, in increasing order. *)
Definition kept (mask : list bool) : list nat :=
  filter (fun i => nth i mask false) (seq 0 (List.length mask)).

(** The row with the given index label is in the table. *)
Definition retained (label : nat) (df : DataFrame) : Prop :=
  In label (index df).

(** The names of a non-empty allowlist that the table does not have. *)
Definition missing_numeric (df : DataFrame)
    (numeric_columns : option (list string)) : list string :=
  match numeric_columns with
  | Some (c :: l) => set_diff (c :: l) (columns df)
  | _ => []
  end.

(** The numeric columns the analysis is restricted to: those of the
    allowlist when one is given, those of the table otherwise. *)
Definition numeric_frame (df : DataFrame)
    (numeric_columns : option (list string)) : DataFrame :=
  match numeric_columns with
  | Some (c :: l) => select_dtypes_number (getitems df (c :: l))
  | _ => select_dtypes_number df
  end.

End Spec.

(* ===================================================================== *)
(** * What a regular expression denotes *)
(* ===================================================================== *)

Module RegexSem.
Import Regex.

(** The strings of the language of a regular expression. *)
Inductive Matches : re -> string -> Prop :=
| MEps : Matches Eps ""
| MClass (p : ascii -> bool) (c : ascii) :
    p c = true -> Matches (Class p) (String c "")
| MCat (a b : re) (s1 s2 : string) :
    Matches a s1 -> Matches b s2 -> Matches (Cat a b) (s1 ++ s2)
| MAltL (a b : re) (s : string) : Matches a s -> Matches (Alt a b) s
| MAltR (a b : re) (s : string) : Matches b s -> Matches (Alt a b) s
| MStarNil (a : re) : Matches (Star a) ""
| MStarCons (a : re) (s1 s2 : string) :
    Matches a s1 -> Matches (Star a) s2 -> Matches (Star a) (s1 ++ s2).

(** The three character classes of the email pattern. *)
Definition local_char (c : ascii) : bool :=
  Py.is_alnum_az c || Py.one_of "._%+-" c.
Definition domain_char (c : ascii) : bool :=
  Py.is_alnum_az c || Py.one_of ".-" c.
Definition tld_char (c : ascii) : bool := Py.is_alpha_az c.

End RegexSem.

(* ===================================================================== *)
(** * [src/exceptions.py]: the text of a pipeline error *)
(* ===================================================================== *)

Module Exceptions.

(** [PipelineError.__str__]: the message, behind the error code in
    brackets when there is one, and followed by the context when it is
    not empty ([context] is the [repr] of a non-empty dictionary). *)
Definition error_str (message : string) (error_code : option string)
    (context : option string) : string :=
  let base := message in
  let base :=
    match error_code with
    | Some code => "[" ++ code ++ "] " ++ base
    | None => base
    end in
  match context with
  | Some c => base ++ " | Context: " ++ c
  | None => base
  end.

End Exceptions.

(* ===================================================================== *)
(** * The environment *)
(* ===================================================================== *)

Module Env.

(** [os.environ]: [os.getenv(key)] is [env key]. *)
Definition environ : Type := string -> option string.

(** [not os.getenv(key)]: the variable is unset or empty. *)
Definition unset (env : environ) (key : string) : bool :=
  match env key with
  | None | Some EmptyString => true
  | Some _ => false
  end.

(** [os.getenv(key, default)] *)
Definition getenv_default (env : environ) (key default : string) : string :=
  match env key with
  | Some v => v
  | None => default
  end.

End Env.

(* ===================================================================== *)
(** * [src/loader.py] *)
(* ===================================================================== *)

Module Loader.
Import Py Pandas Exceptions Env.

Definition LOADER_VERSION : string := "1.5".

Definition COLUMN_ALIASES : list (string * list string) :=
  [ ("id", ["id"; "ID"]);
    ("name", ["name"; "Name"]);
    ("email", ["email"; "Email"]);
    ("phone", ["phone"; "Phone"]);
    ("salary", ["salary"; "Salary"]);
    ("date_joined", ["date_joined"; "Date"; "JoinDate"; "JoiningDate"]);
    ("department", ["department"; "Dept"; "Division"]);
    ("notes", ["notes"; "Remarks"; "Comments"]) ].

(** A [dict] from [str] to [str]: [d[k] = v] and [d.get(k)]. *)
Definition dict_set (k v : string) (d : list (string * string))
  : list (string * string) :=
  (k, v) :: filter (fun p => negb (String.eqb (fst p) k)) d.
Definition dict_get (k : string) (d : list (string * string)) : option string :=
  option_map snd (find (fun p => String.eqb (fst p) k) d).

(** The two loops that fill [rename_map]. *)
Definition rename_map (cols : list string) : list (string * string) :=
  fold_left
    (fun m entry =>
       fold_left
         (fun m alias =>
            if mem (lower alias) cols then dict_set (lower alias) (fst entry) m
            else m)
         (snd entry) m)
    COLUMN_ALIASES [].

Definition set_columns (f : string -> string) (df : DataFrame) : DataFrame :=
  mkDataFrame (index df)
    (map (fun s => mkSeries (f (name s)) (dtype_of s) (cells s)) (series df)).

(** [df.rename(columns=rename_map)] *)
Definition rename (rename_map : list (string * string)) (df : DataFrame)
  : DataFrame :=
  set_columns (fun c => match dict_get c rename_map with
                        | Some expected => expected
                        | None => c
                        end) df.

Definition normalize_columns (df : DataFrame) : DataFrame :=
  let df := set_columns (fun c => lower (strip c)) df in
  rename (rename_map (columns df)) df.

(** [s.split(",")] *)
Fixpoint split_comma (s : string) : list string :=
  match s with
  | EmptyString => [EmptyString]
  | String c s' =>
      if Ascii.eqb c ","%char then EmptyString :: split_comma s'
      else match split_comma s' with
           | x :: rest => String c x :: rest
           | [] => [String c EmptyString]
           end
  end.

(** [[c.strip().lower() for c in os.getenv("REQUIRED_COLUMNS", "").split(",")
      if c.strip()]] *)
Definition required_from_env (env : environ) : list string :=
  map (fun c => lower (strip c))
    (filter (fun c => negb (String.eqb (strip c) ""))
            (split_comma (getenv_default env "REQUIRED_COLUMNS" ""))).

(** [except Exception as e:
       raise DataLoadError(f"Failed to load CSV file {filepath}",
                           error_code="LOAD_GENERIC_ERROR") from e] *)
Definition except_load {A : Type} (filepath : string) (body : result A)
  : result A :=
  match body with
  | Ok a => Ok a
  | Raise e =>
      Raise (ExnFrom DataLoadError
               (error_str ("Failed to load CSV file " ++ filepath)
                          (Some "LOAD_GENERIC_ERROR") None) e)
  end.

(** [load_csv]. [path_exists] is [path.exists()]; [read_csv] is the
    outcome of reading the file, the retry after a decoding error
    included. *)
Definition load_csv (env : environ) (path_exists : bool)
    (read_csv : result DataFrame) (filepath : string) : result DataFrame :=
  if negb path_exists
  then Raise (Exn DataLoadError
                (error_str ("CSV file not found: " ++ filepath)
                           (Some "LOAD_FILE_NOT_FOUND") None))
  else except_load filepath (
    df <- read_csv ;;
    let df := normalize_columns df in
    let required_columns := required_from_env env in
    match required_columns with
    | _ :: _ =>
        let missing := set_diff required_columns (columns df) in
        match missing with
        | _ :: _ =>
            Raise (Exn DataLoadError
                     (error_str ("Missing required columns: " ++ repr_set missing)
                        (Some "LOAD_MISSING_COLUMNS")
                        (Some ("{'required_columns': "
                               ++ repr_list required_columns ++ "}"))))
        | [] => Ok df
        end
    | [] => Ok df
    end).

End Loader.

(* ===================================================================== *)
(** * [src/emailer.py] *)
(* ===================================================================== *)

Module Emailer.
Import Py Env.

Definition REQUIRED_ENV_VARS : list string :=
  ["SMTP_SERVER"; "SMTP_PORT"; "SMTP_USER"; "SMTP_PASSWORD"; "SENDER_EMAIL"].

Definition _validate_email_config (env : environ) : result unit :=
  let missing := filter (unset env) REQUIRED_ENV_VARS in
  match missing with
  | _ :: _ =>
      Raise (Exn EmailError
               ("Missing email configuration variables: " ++ repr_list missing))
  | [] => Ok tt
  end.

(** ["@" in s] *)
Definition has_at (s : string) : bool := one_of s "@"%char.

(** [except EmailError: raise
     except Exception as e: raise EmailError("Email delivery failed") from e] *)
Definition except_email {A : Type} (body : result A) : result A :=
  match body with
  | Ok a => Ok a
  | Raise e =>
      match exn_cls e with
      | EmailError => Raise e
      | _ => Raise (ExnFrom EmailError "Email delivery failed" e)
      end
  end.

Section WithSystem.
(** The variables, the files ([path.exists()], [path.stat().st_size],
    reading a file), [int(s)] and the SMTP session, each with the
    exception it may raise. *)
Variable env : environ.
Variable path_exists : string -> bool.
Variable st_size : string -> nat.
Variable read_bytes : string -> result unit.
Variable int_of_str : string -> option Z.
Variable smtp_session : Z -> string -> string -> string -> result unit.

Definition send_email (recipient subject body : string)
    (attachment_path : option string) (attachment_required : bool)
  : result unit :=
  if String.eqb recipient "" || negb (has_at recipient)
  then Raise (Exn EmailError
                ("Invalid recipient email address: " ++ recipient))
  else
    _ <- _validate_email_config env ;;
    except_email (
      _ <-
        match attachment_path with
        | Some (String c p) =>
            let attachment_path := String c p in
            if negb (path_exists attachment_path)
            then Raise (Exn EmailError
                          ("Attachment not found: " ++ attachment_path))
            else if (st_size attachment_path =? 0)%nat
            then Raise (Exn EmailError
                          ("Attachment is empty: " ++ attachment_path))
            else read_bytes attachment_path
        | _ =>
            if attachment_required
            then Raise (Exn EmailError "Attachment required but not provided.")
            else Ok tt
        end ;;
      let port_text := getenv_default env "SMTP_PORT" "" in
      smtp_port <-
        match int_of_str port_text with
        | Some n => Ok n
        | None =>
            Raise (Exn ValueError
                     ("invalid literal for int() with base 10: "
                      ++ repr_str port_text))
        end ;;
      smtp_session smtp_port recipient subject body).

End WithSystem.

End Emailer.

(* ===================================================================== *)
(** * [src/main.py]: subject, schema drift, environment, retries *)
(* ===================================================================== *)

Module Main.
Import Py Pandas Env.


Definition validate_env (env : environ) : result unit :=
  let required :=
    ["SMTP_SERVER"; "SMTP_PORT"; "SMTP_USER"; "SMTP_PASSWORD";
     "RECIPIENT_EMAIL"; "DATA_FILE"] in
  let missing := filter (unset env) required in
  match missing with
  | _ :: _ =>
      Raise (Exn PipelineError
               ("Missing environment variables: " ++ repr_list missing))
  | [] => Ok tt
  end.

Definition REQUIRED_COLUMNS : list string :=
  ["id"; "name"; "email"; "phone"; "salary"; "date_joined"].
Definition OPTIONAL_COLUMNS : list string :=
  ["department"; "notes"; "position"; "location"; "status";
   "manager"; "dob"; "gender"; "contract_type"; "last_updated"].
Definition EXPECTED_COLUMNS : list string :=
  (REQUIRED_COLUMNS ++ OPTIONAL_COLUMNS)%list.

(** [df[col] = None]: a column of [None], of dtype object. *)
Definition add_none_column (df : DataFrame) (col : string) : DataFrame :=
  setitem df col DObject (repeat PNone (len df)).

Definition handle_schema_drift (df : DataFrame) : DataFrame :=
  let missing_required := set_diff REQUIRED_COLUMNS (columns df) in
  let df := fold_left add_none_column missing_required df in
  let df :=
    fold_left
      (fun df col => if negb (mem col (columns df))
                     then add_none_column df col else df)
      OPTIONAL_COLUMNS df in
  getitems df (filter (fun col => mem col (columns df)) EXPECTED_COLUMNS).

(** How a call of [send_with_backoff] ends, the calls of [send_email] it
    made and the seconds it slept between them. *)
Inductive backoff_end : Type :=
| Returned                    (* the function returns *)
| Raised (e : exn)            (* an exception of [send_email] leaves it *)
| IndexError.                 (* [delays[attempt]] is out of range *)

Record backoff_run : Type := mkRun {
  ending : backoff_end;
  calls : nat;
  sleeps : list nat
}.

Definition delays : list nat := [1; 5; 10].

(** The [for attempt in range(max_retries)] loop over the attempts that
    are left; [send attempt] is the outcome of [emailer.send_email] at
    that attempt. *)
Fixpoint backoff_loop (send : nat -> result unit) (max_retries : nat)
    (attempts : list nat) : backoff_run :=
  match attempts with
  | [] => mkRun Returned 0 []
  | attempt :: rest =>
      match send attempt with
      | Ok _ => mkRun Returned 1 []
      | Raise exc =>
          match exn_cls exc with
          | EmailError =>
              if (attempt =? max_retries - 1)%nat
              then mkRun (Raised exc) 1 []
              else
                match nth_error delays attempt with
                | None => mkRun IndexError 1 []
                | Some wait =>
                    let r := backoff_loop send max_retries rest in
                    mkRun (ending r) (S (calls r)) (wait :: sleeps r)
                end
          | _ => mkRun (Raised exc) 1 []
          end
      end
  end.

Definition send_with_backoff (send : nat -> result unit) (max_retries : nat)
  : backoff_run :=
  backoff_loop send max_retries (seq 0 max_retries).

End Main.

(* ===================================================================== *)
(** * Notions for the cells and the errors of the row cleaner *)
(* ===================================================================== *)

Module CleanerSpec.
Import Py Pandas Cleaner Spec.

(** The columns [clean_data] reads by name, in the order it reads them. *)
Definition validated_columns : list string :=
  ["email"; "phone"; "salary"; "date_joined"].


Section WithRuntime.
Context {rt : PyRuntime}.

(** What [clean_data] makes of a cell of the given column. *)
Definition clean_cell (col : string) (v : pyval) : pyval :=
  if String.eqb col "email" then cell_of PStr (fix_email v)
  else if String.eqb col "phone" then cell_of PStr (normalize_phone v)
  else if String.eqb col "salary" then cell_of PNum (clean_numeric v)
  else if String.eqb col "date_joined" then cell_of PTimestamp (clean_date v)
  else if mem col OPTIONAL_COLUMNS then cell_of PStr (clean_text v)
  else v.

(** The positions of the rows without a failing field, in order. *)
Definition valid_positions (df : DataFrame) : list nat :=
  filter (fun i => negb (row_invalid df i)) (seq 0 (len df)).

End WithRuntime.


End CleanerSpec.

(* ===================================================================== *)
(** * Notions for the column names of the loader *)
(* ===================================================================== *)

Module LoaderSpec.
Import Py Loader.

(** The expected name of a column: that of the first entry of
    [COLUMN_ALIASES] with an alias that, in lower case, is the name; the
    name itself when there is none. *)
Definition expected_name (c : string) : string :=
  match find (fun entry => mem c (map lower (snd entry))) COLUMN_ALIASES with
  | Some entry => fst entry
  | None => c
  end.

(** The name [normalize_columns] gives a column. *)
Definition loaded_name (c : string) : string :=
  expected_name (lower (strip c)).

End LoaderSpec.

(* ===================================================================== *)
(** * Sample environments, runs and senders *)
(* ===================================================================== *)

Module Scenario.
Import Py Pandas Cleaner Analyzer Env Sample.

(** The variables [validate_env] of [main.py] asks for. *)
Definition smtp_env : environ := fun key =>
  if String.eqb key "SMTP_SERVER" then Some "smtp.corp.io"
  else if String.eqb key "SMTP_PORT" then Some "587"
  else if String.eqb key "SMTP_USER" then Some "etl"
  else if String.eqb key "SMTP_PASSWORD" then Some "secret"
  else if String.eqb key "RECIPIENT_EMAIL" then Some "ops@corp.io"
  else if String.eqb key "DATA_FILE" then Some "data/raw/staff.csv"
  else None.

(** The same with a sender and a list of required columns. *)
Definition full_env : environ := fun key =>
  if String.eqb key "SENDER_EMAIL" then Some "etl@corp.io"
  else if String.eqb key "REQUIRED_COLUMNS" then Some "id, Bonus"
  else smtp_env key.

(** What [clean_data] returns on the four rows. *)
Definition four_rows_cleaned : DataFrame * CleaningReport :=
  Eval vm_compute in
  match clean_data four_rows true None with
  | Ok p => p
  | Raise _ => (no_rows, empty_report)
  end.

(** What [analyze_data] returns on the table with two numeric columns. *)
Definition two_numeric_analysis : Analysis :=
  Eval vm_compute in
  match analyze_data two_numeric None with
  | Ok r => r
  | Raise _ => empty_analysis
  end.

(** A sender that fails once, and one that always fails. *)
Definition flaky_send (attempt : nat) : result unit :=
  if (attempt =? 1)%nat then Ok tt
  else Raise (Exn EmailError "Email delivery failed").
Definition failing_send (attempt : nat) : result unit :=
  Raise (Exn EmailError "Email delivery failed").

End Scenario.

(* ===================================================================== *)
(** * Properties of the string operations *)
(* ===================================================================== *)

Section StringFacts.
Import Py.

Ltac each_char c := destruct c as [[] [] [] [] [] [] [] []]; reflexivity.

Lemma isspace_lower_char (c : ascii) : isspace (lower_char c) = isspace c.
Proof. each_char c. Qed.

Lemma lower_char_idem (c : ascii) : lower_char (lower_char c) = lower_char c.
Proof. each_char c. Qed.

Lemma space_not_decimal (c : ascii) : isspace c = true -> is_decimal c = false.
Proof. destruct c as [[] [] [] [] [] [] [] []]; (reflexivity || discriminate). Qed.

Lemma decimal_isdigit (c : ascii) : is_decimal c = true -> isdigit_char c = true.
Proof. unfold isdigit_char. intros ->. reflexivity. Qed.

Lemma isdigit_kept_decimal (c : ascii) :
  (is_decimal c || Ascii.eqb c "+"%char) = true ->
  isdigit_char c = true -> is_decimal c = true.
Proof. destruct c as [[] [] [] [] [] [] [] []]; (reflexivity || discriminate). Qed.

Lemma lower_idem (s : string) : lower (lower s) = lower s.
Proof.
  induction s as [|c s IH]; simpl; [reflexivity|].
  now rewrite lower_char_idem, IH.
Qed.

Lemma lstrip_lower (s : string) : lstrip (lower s) = lower (lstrip s).
Proof.
  induction s as [|c s IH]; simpl; [reflexivity|].
  rewrite isspace_lower_char. destruct (isspace c); [exact IH | reflexivity].
Qed.

Lemma rstrip_lower (s : string) : rstrip (lower s) = lower (rstrip s).
Proof.
  induction s as [|c s IH]; simpl; [reflexivity|].
  rewrite IH, isspace_lower_char.
  destruct (rstrip s); simpl; [destruct (isspace c)|]; reflexivity.
Qed.

Lemma strip_lower (s : string) : strip (lower s) = lower (strip s).
Proof. unfold strip. now rewrite lstrip_lower, rstrip_lower. Qed.

Lemma rstrip_idem (s : string) : rstrip (rstrip s) = rstrip s.
Proof.
  induction s as [|c s IH]; simpl; [reflexivity|].
  destruct (rstrip s) as [|c' r] eqn:E.
  - destruct (isspace c) eqn:Ec; simpl; [reflexivity|]. now rewrite Ec.
  - simpl in *. now rewrite IH.
Qed.

(** A string that starts with a visible character keeps it under [rstrip]. *)
Lemma rstrip_head (c : ascii) (s : string) :
  isspace c = false -> exists r, rstrip (String c s) = String c r.
Proof.
  intros Hc. simpl. destruct (rstrip s) as [|c' r].
  - rewrite Hc. now exists EmptyString.
  - now exists (String c' r).
Qed.

Lemma lstrip_head (s : string) :
  lstrip s = EmptyString \/
  exists c r, lstrip s = String c r /\ isspace c = false.
Proof.
  induction s as [|c s IH]; simpl; [now left|].
  destruct (isspace c) eqn:Ec; [exact IH|].
  right. now exists c, s.
Qed.

Lemma strip_idem (s : string) : strip (strip s) = strip s.
Proof.
  unfold strip.
  destruct (lstrip_head s) as [E | (c & r & E & Hc)]; rewrite E.
  - reflexivity.
  - destruct (rstrip_head c r Hc) as [r' E']. rewrite E'.
    simpl lstrip. rewrite Hc. rewrite <- E'. apply rstrip_idem.
Qed.

Lemma count_lstrip (p : ascii -> bool) (s : string) :
  (forall c, isspace c = true -> p c = false) ->
  count_chars p (lstrip s) = count_chars p s.
Proof.
  intros Hp. induction s as [|c s IH]; simpl; [reflexivity|].
  destruct (isspace c) eqn:Ec; [|reflexivity].
  now rewrite IH, (Hp c Ec).
Qed.

Lemma count_rstrip (p : ascii -> bool) (s : string) :
  (forall c, isspace c = true -> p c = false) ->
  count_chars p (rstrip s) = count_chars p s.
Proof.
  intros Hp. induction s as [|c s IH]; simpl; [reflexivity|].
  rewrite <- IH. destruct (rstrip s); simpl; [|reflexivity].
  destruct (isspace c) eqn:Ec; simpl; [|reflexivity].
  now rewrite (Hp c Ec).
Qed.

Lemma count_strip (p : ascii -> bool) (s : string) :
  (forall c, isspace c = true -> p c = false) ->
  count_chars p (strip s) = count_chars p s.
Proof.
  intros Hp. unfold strip. now rewrite count_rstrip, count_lstrip.
Qed.

Lemma all_chars_filter (p : ascii -> bool) (s : string) :
  all_chars p (filter_chars p s) = true.
Proof.
  induction s as [|c s IH]; simpl; [reflexivity|].
  destruct (p c) eqn:E; simpl; [now rewrite E|exact IH].
Qed.

Lemma filter_chars_all (p : ascii -> bool) (s : string) :
  all_chars p s = true -> filter_chars p s = s.
Proof.
  induction s as [|c s IH]; simpl; [reflexivity|].
  intros H. apply andb_prop in H as [Hc Hs]. now rewrite Hc, IH.
Qed.

Lemma filter_chars_fixed (p : ascii -> bool) (s : string) :
  filter_chars p s = s -> all_chars p s = true.
Proof. intros E. rewrite <- E. apply all_chars_filter. Qed.

End StringFacts.

(* ===================================================================== *)
(** * The field validators *)
(* ===================================================================== *)

Section ValidatorFacts.
Import Py Cleaner Spec.

(** C9. An email the validator accepts is turned by [fix_email] into a
    string the validator accepts again, and which [fix_email] leaves as it
    is: normalization followed by validation is idempotent. *)
Theorem fix_email_valid_idempotent (e : pyval) :
  validate_email e = true ->
  exists s, fix_email e = Some s
            /\ validate_email (PStr s) = true
            /\ fix_email (PStr s) = Some s.
Proof.
  destruct e as [| |e| |]; simpl; try discriminate.
  intros H. exists (lower (strip e)).
  assert (E : lower (strip (lower (strip e))) = lower (strip e))
    by now rewrite strip_lower, strip_idem, lower_idem.
  repeat rewrite E. rewrite H. repeat split; reflexivity.
Qed.

Lemma fix_email_valid_idempotent_witness :
  validate_email (PStr "  Alice@Example.COM ") = true
  /\ exists s, fix_email (PStr "  Alice@Example.COM ") = Some s
               /\ validate_email (PStr s) = true
               /\ fix_email (PStr s) = Some s.
Proof.
  split; [reflexivity|].
  apply (fix_email_valid_idempotent (PStr "  Alice@Example.COM ")).
  reflexivity.
Defined.


Lemma normalize_phone_none (v : pyval) :
  is_none (normalize_phone v) = negb (validate_phone v).
Proof.
  destruct v as [| |p| |]; simpl; try reflexivity.
  now destruct (isdigit _ && _ && _).
Qed.

Lemma keep_digits_plus_all (s : string) :
  all_chars (fun c => is_decimal c || Ascii.eqb c "+"%char)
            (keep_digits_plus s) = true.
Proof. apply all_chars_filter. Qed.

(** What is left of a phone after the substitution is made of digits
    exactly when [isdigit] says so. *)
Lemma isdigit_kept (s : string) :
  all_chars (fun c => is_decimal c || Ascii.eqb c "+"%char) s = true ->
  all_chars isdigit_char s = all_chars is_decimal s.
Proof.
  induction s as [|c s IH]; simpl; [reflexivity|].
  intros H. apply andb_prop in H as [Hc Hs]. rewrite (IH Hs). f_equal.
  pose proof (isdigit_kept_decimal c Hc) as K.
  pose proof (decimal_isdigit c) as K'.
  destruct (is_decimal c), (isdigit_char c); auto; symmetry; auto.
Qed.

Lemma all_decimal_dec (s : string) :
  all_chars is_decimal s = true <-> filter_chars is_decimal s = s.
Proof. split; [apply filter_chars_all | apply filter_chars_fixed]. Qed.

Lemma decimal_not_plus (c : ascii) :
  is_decimal c = true -> Ascii.eqb c "+"%char = false.
Proof. destruct c as [[] [] [] [] [] [] [] []]; (reflexivity || discriminate). Qed.

Lemma drop_leading_plus_decimal (d : string) :
  all_chars is_decimal d = true -> drop_leading_plus d = d.
Proof.
  destruct d as [|c d]; simpl; [reflexivity|].
  intros H. apply andb_prop in H as [Hc _].
  now rewrite (decimal_not_plus c Hc).
Qed.

(** The test of [validate_phone] on what follows the leading [+]. *)
Lemma digits_test (d : string) :
  all_chars (fun c => is_decimal c || Ascii.eqb c "+"%char) d = true ->
  isdigit d && (7 <=? String.length d)%nat && (String.length d <=? 15)%nat = true
  <->
  (7 <=? String.length (filter_chars is_decimal d))%nat
  && (String.length (filter_chars is_decimal d) <=? 15)%nat = true
  /\ filter_chars is_decimal d = d.
Proof.
  intros Hk. split.
  - intros H. apply andb_prop in H as [H H15]. apply andb_prop in H as [Hd H7].
    assert (Hdec : all_chars is_decimal d = true).
    { rewrite <- (isdigit_kept d Hk). destruct d; [discriminate | exact Hd]. }
    rewrite (filter_chars_all _ _ Hdec). now rewrite H7, H15.
  - intros [H E]. rewrite E in H. apply andb_prop in H as [H7 H15].
    rewrite H7, H15, !andb_true_r.
    apply filter_chars_fixed in E. rewrite <- (isdigit_kept d Hk) in E.
    destruct d; [discriminate | exact E].
Qed.

(** C5, as the code has it. A value is accepted exactly when it is a
    string, 7 to 15 digits remain once everything but digits and [+] is
    removed, and no [+] remained anywhere but in first position: the
    substitution keeps every [+], and [isdigit] rejects the value when
    one of them is not the leading one. Every non-string is rejected. *)
Theorem validate_phone_iff (v : pyval) :
  validate_phone v = true <->
  exists s, v = PStr s
            /\ spec_validate_phone (PStr s) = true
            /\ keep_digits_plus (strip s) = spec_strip_phone s.
Proof.
  destruct v as [| |s| |];
    try (simpl; split; [discriminate | intros (s & E & _); discriminate]).
  assert (K : validate_phone (PStr s) = true <->
              spec_validate_phone (PStr s) = true
              /\ keep_digits_plus (strip s) = spec_strip_phone s).
  { unfold validate_phone, spec_validate_phone, spec_strip_phone.
    pose proof (keep_digits_plus_all (strip s)) as Hall.
    destruct (keep_digits_plus (strip s)) as [|c rest].
    - simpl. split; [discriminate | intros [H _]; discriminate].
    - simpl in Hall. apply andb_prop in Hall as [Hc Hrest].
      assert (Hall : all_chars (fun c => is_decimal c || Ascii.eqb c "+"%char)
                       (String c rest) = true)
        by (simpl; now rewrite Hc, Hrest).
      unfold drop_leading_plus at 1 2 3.
      destruct (Ascii.eqb c "+") eqn:Ec.
      + unfold drop_leading_plus. rewrite Ec.
        rewrite (digits_test rest Hrest).
        split; intros [H E]; (split; [exact H|]).
        * now rewrite E.
        * now injection E.
      + rewrite (digits_test (String c rest) Hall).
        rewrite (drop_leading_plus_decimal
                   (filter_chars is_decimal (String c rest)))
          by apply all_chars_filter.
        split; intros [H E]; (split; [exact H | now symmetry]). }
  rewrite K. split.
  - intros H. now exists s.
  - intros (s' & E & H). now injection E as <-.
Qed.

Lemma length_filter_chars (p : ascii -> bool) (s : string) :
  String.length (filter_chars p s) = count_chars p s.
Proof.
  induction s as [|c s IH]; simpl; [reflexivity|].
  destruct (p c); simpl; now rewrite IH.
Qed.

Lemma count_filter_chars (p q : ascii -> bool) (s : string) :
  (forall c, p c = true -> q c = true) ->
  count_chars p (filter_chars q s) = count_chars p s.
Proof.
  intros Hpq. induction s as [|c s IH]; simpl; [reflexivity|].
  destruct (q c) eqn:Eq; simpl; rewrite IH; [reflexivity|].
  destruct (p c) eqn:Ep; [|reflexivity].
  rewrite (Hpq c Ep) in Eq. discriminate.
Qed.

(** What the worded rule counts is the number of digits of the value. *)
Lemma spec_digits_count (s : string) :
  String.length (drop_leading_plus (spec_strip_phone s))
  = count_chars is_decimal s.
Proof.
  rewrite <- (count_strip is_decimal s space_not_decimal).
  rewrite <- (count_filter_chars is_decimal
                (fun c => is_decimal c || Ascii.eqb c "+"%char) (strip s))
    by (intros c ->; reflexivity).
  fold (keep_digits_plus (strip s)). unfold spec_strip_phone.
  destruct (keep_digits_plus (strip s)) as [|c rest]; [reflexivity|].
  destruct (Ascii.eqb c "+") eqn:Ec.
  - unfold drop_leading_plus. rewrite Ec. rewrite length_filter_chars.
    cbn [count_chars]. apply Ascii.eqb_eq in Ec. subst c. reflexivity.
  - rewrite drop_leading_plus_decimal by apply all_chars_filter.
    apply length_filter_chars.
Qed.

(** C5, as worded: the digit count alone does not decide. Seven digits
    followed by a [+] are rejected by the code and accepted by the rule
    that strips every [+] but a leading one. *)
Lemma validate_phone_trailing_plus :
  validate_phone (PStr "1234567+") = false
  /\ spec_validate_phone (PStr "1234567+") = true
  /\ count_chars is_decimal "1234567+" = 7.
Proof. repeat split; reflexivity. Qed.

End ValidatorFacts.

(* ===================================================================== *)
(** * The grading step *)
(* ===================================================================== *)

Section GraderFacts.
Import Cleaner Grader.
Open Scope Q_scope.




Lemma truediv_pos (a b : nat) :
  b <> 0%nat ->
  exists q, truediv a b = Ok q
            /\ q == inject_Z (Z.of_nat a) / inject_Z (Z.of_nat b).
Proof.
  intros Hb. destruct b as [|b]; [congruence|].
  eexists. split; [reflexivity|].
  rewrite Qmake_Qdiv, <- Pos.of_nat_succ. reflexivity.
Qed.

(** The quotient of two row counts, the first not above the second. *)
Lemma truediv_unit (a b : nat) :
  b <> 0%nat -> (a <= b)%nat ->
  exists q, truediv a b = Ok q
            /\ q == inject_Z (Z.of_nat a) / inject_Z (Z.of_nat b)
            /\ 0 <= q <= 1.
Proof.
  intros Hb Hle. destruct (truediv_pos a b Hb) as (q & Eq & Hq).
  exists q. split; [exact Eq|]. split; [exact Hq|].
  unfold truediv in Eq. destruct b as [|b]; [congruence|].
  assert (Eq' : q = (Z.of_nat a # Pos.of_nat (S b))) by congruence.
  rewrite Eq', <- Pos.of_nat_succ.
  unfold Qle. cbn [Qnum Qden].
  rewrite Znat.Zpos_P_of_succ_nat. split; lia.
Qed.






(** The boundaries: 0.10 and 0.30 are both ["MEDIUM"]. *)
Example severity_boundaries :
  severity (1 # 10) = "MEDIUM"%string /\ severity (3 # 10) = "MEDIUM"%string.
Proof. split; reflexivity. Qed.

End GraderFacts.

(* ===================================================================== *)
(** * The aggregate analyzer *)
(* ===================================================================== *)

Section AnalyzerFacts.
Import Py Pandas Analyzer Spec.
Context {rt : PyRuntime}.

Lemma empty_false (df : DataFrame) :
  empty df = false -> len df <> 0 /\ List.length (series df) <> 0.
Proof.
  unfold empty. intros H. apply orb_false_iff in H as [H1 H2].
  apply Nat.eqb_neq in H1, H2. now split.
Qed.

Lemma empty_numeric_frame (df : DataFrame) (nc : option (list string)) :
  empty df = false ->
  empty (numeric_frame df nc)
  = (List.length (series (numeric_frame df nc)) =? 0)%nat.
Proof.
  intros H. apply empty_false in H as [Hl _].
  unfold empty at 1.
  replace (len (numeric_frame df nc)) with (len df)
    by (unfold numeric_frame; destruct nc as [[|c l]|]; reflexivity).
  apply Nat.eqb_neq in Hl. now rewrite Hl.
Qed.

(** The run of [analyze_data] on a table with rows and columns, once the
    allowlist check has passed. *)
Lemma analyze_data_nonempty (df : DataFrame) (nc : option (list string)) :
  empty df = false ->
  missing_numeric df nc = [] ->
  let numeric_df := numeric_frame df nc in
  let n := List.length (series numeric_df) in
  let m := mkMeta (len df) (List.length (columns df)) (columns numeric_df)
                  (isna_counts df) "1.0" in
  let stats := mkStatistics (aggregate_dict Mean numeric_df)
                            (aggregate_dict Min numeric_df)
                            (aggregate_dict Max numeric_df)
                            (aggregate_dict Sum numeric_df) in
  analyze_data df nc =
  Ok (if (n =? 0)%nat then mkAnalysis (Some m) None None
      else if (2 <=? n)%nat && (n <=? 10)%nat
           then mkAnalysis (Some m) (Some stats) (corr (series numeric_df))
           else mkAnalysis (Some m) (Some stats) None).
Proof.
  intros He Hm. cbv zeta. unfold analyze_data. rewrite He.
  pose proof (empty_numeric_frame df nc He) as En.
  destruct nc as [[|c l]|]; cbn [missing_numeric numeric_frame] in *.
  - cbn [bind except_analysis]. rewrite En.
    destruct (_ =? 0)%nat; cbn [negb]; [reflexivity|].
    now destruct (_ && _).
  - rewrite Hm. cbn [bind except_analysis]. rewrite En.
    destruct (_ =? 0)%nat; cbn [negb]; [reflexivity|].
    now destruct (_ && _).
  - cbn [bind except_analysis]. rewrite En.
    destruct (_ =? 0)%nat; cbn [negb]; [reflexivity|].
    now destruct (_ && _).
Qed.

(** C6. For a table with rows and columns whose allowlist, if any, names
    existing columns, [analyze_data] returns a result, and the result has
    a correlation entry exactly when there are 2 to 10 numeric columns and
    the correlation computation does not fail; otherwise the entry is
    absent and the result is still returned. *)
Theorem correlation_present_iff (df : DataFrame) (nc : option (list string)) :
  empty df = false ->
  missing_numeric df nc = [] ->
  exists r m,
    analyze_data df nc = Ok r
    /\ meta r = Some m
    /\ numeric_columns m = columns (numeric_frame df nc)
    /\ (correlation r <> None <->
        2 <= List.length (numeric_columns m) <= 10
        /\ corr (series (numeric_frame df nc)) <> None).
Proof.
  intros He Hm. rewrite (analyze_data_nonempty df nc He Hm).
  set (numeric_df := numeric_frame df nc).
  assert (El : List.length (columns numeric_df) = List.length (series numeric_df))
    by apply length_map.
  destruct (List.length (series numeric_df) =? 0)%nat eqn:E0;
    [|destruct ((2 <=? _)%nat && (_ <=? 10)%nat) eqn:E];
    (eexists; eexists; split; [reflexivity|]);
    (split; [reflexivity|]); (split; [reflexivity|]);
    cbn [meta correlation numeric_columns]; rewrite El.
  - apply Nat.eqb_eq in E0. split; [congruence|]. intros [H _]. lia.
  - apply andb_prop in E as [E2 E10]. apply Nat.leb_le in E2, E10.
    split; [intros H; split; [lia | exact H] | intros [_ H]; exact H].
  - split; [congruence|]. intros [[H2 H10] _].
    apply Nat.leb_le in H2, H10. rewrite H2, H10 in E. discriminate.
Qed.

(** An allowlist with an unknown name: the error that names the missing
    columns is raised inside the [try] block, so the handler at its end
    replaces it by the generic analysis error and keeps it as the cause. *)
Lemma analyze_data_missing_allowlist (df : DataFrame) (nc : option (list string)) :
  empty df = false ->
  missing_numeric df nc <> [] ->
  analyze_data df nc =
  Raise (ExnFrom AnalysisError "Analysis stage failed"
           (Exn AnalysisError
              ("Missing numeric columns: " ++ repr_set (missing_numeric df nc)))).
Proof.
  intros He Hm. unfold analyze_data. rewrite He.
  destruct nc as [[|c l]|]; cbn [missing_numeric] in *; try congruence.
  destruct (set_diff (c :: l) (columns df)); [congruence | reflexivity].
Qed.

(** C7. With a non-empty allowlist that lists a column the table does not
    have, the error that leaves [analyze_data] is an analysis error whose
    text is ["Analysis stage failed"]; the error that names the missing
    columns is its cause. *)
Theorem unknown_column_error (df : DataFrame) (nc : option (list string)) :
  empty df = false ->
  missing_numeric df nc <> [] ->
  exists e,
    analyze_data df nc = Raise e
    /\ exn_cls e = AnalysisError
    /\ exn_msg e = "Analysis stage failed"
    /\ exn_cause e
       = Some (Exn AnalysisError
                 ("Missing numeric columns: "
                  ++ repr_set (missing_numeric df nc))).
Proof.
  intros He Hm. rewrite (analyze_data_missing_allowlist df nc He Hm).
  eexists. repeat split.
Qed.

(** With every listed column present the analysis returns, restricted to
    the listed columns that are numeric. *)
Lemma analyze_data_allowlist_ok (df : DataFrame) (nc : option (list string)) :
  empty df = false ->
  missing_numeric df nc = [] ->
  exists r m, analyze_data df nc = Ok r
              /\ meta r = Some m
              /\ numeric_columns m = columns (numeric_frame df nc).
Proof.
  intros He Hm. rewrite (analyze_data_nonempty df nc He Hm).
  destruct (_ =? 0)%nat; [|destruct (_ && _)];
    (eexists; eexists; repeat split; reflexivity).
Qed.

(** C8, as the code has it. The result for a table with rows and columns
    carries the version tag ["1.0"] in its metadata. *)
Theorem analysis_version_tagged (df : DataFrame) (nc : option (list string))
    (r : Analysis) :
  empty df = false ->
  analyze_data df nc = Ok r ->
  exists m, meta r = Some m /\ analysis_version m = "1.0".
Proof.
  intros He Hr.
  destruct (missing_numeric df nc) as [|x xs] eqn:Em.
  - rewrite (analyze_data_nonempty df nc He Em) in Hr.
    injection Hr as <-.
    destruct (_ =? 0)%nat; [|destruct (_ && _)];
      (eexists; split; reflexivity).
  - rewrite (analyze_data_missing_allowlist df nc He) in Hr by congruence.
    discriminate.
Qed.

(** The result for an empty table is the empty dictionary. *)
Lemma analyze_data_empty (df : DataFrame) (nc : option (list string)) :
  empty df = true -> analyze_data df nc = Ok empty_analysis.
Proof. intros He. unfold analyze_data. now rewrite He. Qed.

End AnalyzerFacts.

Section AnalyzerRuns.
Import Py Pandas Analyzer Spec Sample.

Lemma correlation_present_iff_witness :
  exists r m,
    analyze_data two_numeric None = Ok r
    /\ meta r = Some m
    /\ numeric_columns m = columns (numeric_frame two_numeric None)
    /\ (correlation r <> None <->
        2 <= List.length (numeric_columns m) <= 10
        /\ corr (series (numeric_frame two_numeric None)) <> None).
Proof.
  apply (correlation_present_iff (rt := sample_runtime) two_numeric None);
    reflexivity.
Defined.

(** Two numeric columns: the correlation is there. One: it is not. Two
    columns of which one holds no number, so that the computation fails:
    it is not, and the result is returned all the same. *)
Example correlation_runs :
  (exists r, analyze_data two_numeric None = Ok r /\ correlation r <> None)
  /\ (exists r, analyze_data two_numeric (Some ["salary"]) = Ok r
                /\ correlation r = None)
  /\ (exists r,
        analyze_data
          (mkDataFrame [0] [mkSeries "a" DFloat64 [PNaN];
                            mkSeries "b" DFloat64 [PNum 1%Q]]) None = Ok r
        /\ option_map (fun m => List.length (numeric_columns m)) (meta r) = Some 2
        /\ correlation r = None).
Proof.
  repeat split; eexists; repeat split; discriminate.
Qed.

(** On a table with the columns [id], [name] and [salary] and the
    allowlist [["bonus"]]. *)
Lemma unknown_column_error_witness :
  exists e,
    analyze_data two_numeric (Some ["bonus"]) = Raise e
    /\ exn_cls e = AnalysisError
    /\ exn_msg e = "Analysis stage failed"
    /\ exn_cause e
       = Some (Exn AnalysisError "Missing numeric columns: {'bonus'}").
Proof.
  apply (unknown_column_error (rt := sample_runtime)
           two_numeric (Some ["bonus"])).
  - reflexivity.
  - discriminate.
Defined.

Example analyze_data_unknown_column :
  analyze_data two_numeric (Some ["bonus"]) =
  Raise (ExnFrom AnalysisError "Analysis stage failed"
           (Exn AnalysisError "Missing numeric columns: {'bonus'}")).
Proof. reflexivity. Qed.

Lemma analysis_version_tagged_witness :
  exists m, meta (mkAnalysis
                    (Some (mkMeta 2 3 ["salary"] [] "1.0"))
                    (Some (mkStatistics [("salary", PNum (30 # 2)%Q)]
                                        [("salary", PNum 10%Q)]
                                        [("salary", PNum 20%Q)]
                                        [("salary", PNum 30%Q)]))
                    None) = Some m
            /\ analysis_version m = "1.0".
Proof.
  apply (analysis_version_tagged (rt := sample_runtime)
           two_numeric (Some ["salary"])); reflexivity.
Defined.

(** C8, as worded: the result for an empty table has no metadata, hence
    no version tag. *)
Lemma analysis_version_empty_table :
  empty no_rows = true
  /\ analyze_data no_rows None = Ok empty_analysis
  /\ meta empty_analysis = None.
Proof. repeat split. Qed.

End AnalyzerRuns.

(* ===================================================================== *)
(** * Masks and boolean indexing *)
(* ===================================================================== *)

Section MaskFacts.
Import Pandas.
Context {A B : Type}.

Lemma select_map_mask (p : A -> bool) (l : list A) :
  select (map p l) l = filter p l.
Proof.
  induction l as [|x l IH]; simpl; [reflexivity|].
  rewrite IH. reflexivity.
Qed.

Lemma select_map (f : A -> B) (m : list bool) (l : list A) :
  select m (map f l) = map f (select m l).
Proof.
  revert l. induction m as [|b m IH]; intros [|x l]; simpl; try reflexivity.
  rewrite IH. now destruct b.
Qed.

Lemma length_select_le (m : list bool) (l : list A) :
  List.length (select m l) <= List.length l.
Proof.
  revert l. induction m as [|b m IH]; intros [|x l]; simpl; try lia.
  specialize (IH l). destruct b; simpl; lia.
Qed.

Lemma length_select (m : list bool) (l : list A) :
  List.length m = List.length l -> List.length (select m l) = mask_sum m.
Proof.
  unfold mask_sum. revert l.
  induction m as [|b m IH]; intros [|x l]; simpl; try discriminate;
    [reflexivity|].
  intros H. injection H as H. specialize (IH l H).
  destruct b; simpl; [now rewrite IH|].
  destruct (bool_dec false true); [discriminate | exact IH].
Qed.

Lemma mask_sum_map (p : A -> bool) (l : list A) :
  mask_sum (map p l) = List.length (filter p l).
Proof.
  unfold mask_sum. induction l as [|x l IH]; simpl; [reflexivity|].
  destruct (p x); simpl.
  - now rewrite IH.
  - destruct (bool_dec false true); [discriminate | exact IH].
Qed.

Lemma mask_or_map (f g : A -> bool) (l : list A) :
  mask_or (map f l) (map g l) = map (fun x => f x || g x) l.
Proof.
  unfold mask_or. induction l as [|x l IH]; simpl; [reflexivity|].
  now rewrite IH.
Qed.

Lemma repeat_false_map (l : list A) :
  repeat false (List.length l) = map (fun _ => false) l.
Proof. induction l as [|x l IH]; simpl; [reflexivity | now rewrite IH]. Qed.

Lemma length_filter_negb (p : A -> bool) (l : list A) :
  List.length (filter (fun x => negb (p x)) l) + List.length (filter p l)
  = List.length l.
Proof.
  induction l as [|x l IH]; simpl; [reflexivity|].
  destruct (p x); simpl; lia.
Qed.

(** A list, read position by position. *)
Lemma map_nth_seq (l : list A) (d : A) :
  map (fun i => nth i l d) (seq 0 (List.length l)) = l.
Proof.
  apply nth_ext with (d := d) (d' := d).
  - now rewrite length_map, length_seq.
  - intros n Hn. rewrite length_map, length_seq in Hn.
    rewrite (nth_indep _ d (nth 0 l d))
      by now rewrite length_map, length_seq.
    rewrite (map_nth (fun i => nth i l d)).
    rewrite seq_nth by exact Hn. simpl.
    apply nth_indep.
    reflexivity || lia.
Qed.

Lemma map_by_position (f : A -> B) (l : list A) (d : A) :
  map f l = map (fun i => f (nth i l d)) (seq 0 (List.length l)).
Proof.
  rewrite <- (map_map (fun i => nth i l d) f). now rewrite map_nth_seq.
Qed.

End MaskFacts.

Section PositionFacts.
Import Pandas Spec.
Context {A : Type}.

Lemma select_shifted (m : list bool) (l : list A) (d : A) (a : nat) :
  List.length m = List.length l ->
  select m l =
  map (fun i => nth (i - a) l d)
      (filter (fun i => nth (i - a) m false) (seq a (List.length l))).
Proof.
  revert l a. induction m as [|b m IH]; intros [|x l] a H;
    simpl in H; try discriminate; [reflexivity|].
  injection H as H. cbn [List.length seq filter select].
  rewrite Nat.sub_diag. change (nth 0 (b :: m) false) with b.
  assert (E : map (fun i => nth (i - a) (x :: l) d)
                (filter (fun i => nth (i - a) (b :: m) false)
                        (seq (S a) (List.length l)))
              = select m l).
  { rewrite (IH l (S a) H).
    rewrite (filter_ext_in (fun i => nth (i - a) (b :: m) false)
                           (fun i => nth (i - S a) m false)).
    - apply map_ext_in. intros i Hi. apply filter_In in Hi as [Hi _].
      apply in_seq in Hi. replace (i - a) with (S (i - S a)) by lia.
      reflexivity.
    - intros i Hi. apply in_seq in Hi.
      replace (i - a) with (S (i - S a)) by lia. reflexivity. }
  destruct b; cbn [map]; rewrite ?Nat.sub_diag; now rewrite E.
Qed.

(** Boolean indexing reads the list at the kept positions. *)
Lemma select_kept (m : list bool) (l : list A) (d : A) :
  List.length m = List.length l ->
  select m l = map (fun i => nth i l d) (kept m).
Proof.
  intros H. rewrite (select_shifted m l d 0 H). unfold kept. rewrite H.
  rewrite (filter_ext (fun i => nth (i - 0) m false) (fun i => nth i m false))
    by (intros i; now rewrite Nat.sub_0_r).
  apply map_ext. intros i. now rewrite Nat.sub_0_r.
Qed.

Lemma kept_lt (m : list bool) (i : nat) :
  In i (kept m) <-> i < List.length m /\ nth i m false = true.
Proof.
  unfold kept. rewrite filter_In, in_seq. intuition lia.
Qed.

End PositionFacts.

(* ===================================================================== *)
(** * Tables: columns, alignment, duplicates *)
(* ===================================================================== *)

Section FrameFacts.
Import Py Pandas Cleaner Spec.

Lemma mem_columns (c : string) (d : DataFrame) :
  mem c (columns d) = existsb (fun s => String.eqb (name s) c) (series d).
Proof.
  unfold mem, columns. induction (series d) as [|s l IH]; simpl; [reflexivity|].
  now rewrite IH, String.eqb_sym.
Qed.

Lemma mem_getitem (c : string) (d : DataFrame) :
  mem c (columns d) = true ->
  exists s, getitem d c = Ok s /\ In s (series d) /\ name s = c.
Proof.
  rewrite mem_columns. unfold getitem.
  induction (series d) as [|s l IH]; simpl; [discriminate|].
  destruct (String.eqb (name s) c) eqn:E.
  - intros _. exists s. apply String.eqb_eq in E. auto.
  - intros H. destruct (IH H) as (s' & H1 & H2 & H3).
    exists s'. auto.
Qed.

Lemma getitem_mem (c : string) (d : DataFrame) (s : Series) :
  getitem d c = Ok s ->
  mem c (columns d) = true /\ In s (series d) /\ name s = c.
Proof.
  rewrite mem_columns. unfold getitem.
  induction (series d) as [|s' l IH]; simpl; [discriminate|].
  destruct (String.eqb (name s') c) eqn:E.
  - intros H. injection H as <-. apply String.eqb_eq in E. auto.
  - intros H. destruct (IH H) as (H1 & H2 & H3). auto.
Qed.

Lemma getitem_loc (m : list bool) (d : DataFrame) (c : string) :
  getitem (loc m d) c =
  match getitem d c with
  | Ok s => Ok (mkSeries (name s) (dtype_of s) (select m (cells s)))
  | Raise e => Raise e
  end.
Proof.
  unfold getitem, loc. cbn [series].
  induction (series d) as [|s l IH]; simpl; [reflexivity|].
  destruct (String.eqb (name s) c); [reflexivity | exact IH].
Qed.

Lemma columns_loc (m : list bool) (d : DataFrame) :
  columns (loc m d) = columns d.
Proof. unfold columns, loc. cbn [series]. now rewrite map_map. Qed.

Lemma columns_setitem (d : DataFrame) (c : string) (dt : dtype)
    (v : list pyval) :
  mem c (columns d) = true -> columns (setitem d c dt v) = columns d.
Proof.
  intros H. unfold setitem. rewrite H. unfold columns. cbn [series].
  rewrite map_map. apply map_ext. intros s.
  destruct (String.eqb (name s) c) eqn:E; [|reflexivity].
  apply String.eqb_eq in E. now rewrite E.
Qed.

Lemma index_setitem (d : DataFrame) (c : string) (dt : dtype)
    (v : list pyval) :
  index (setitem d c dt v) = index d.
Proof. unfold setitem. now destruct (mem c (columns d)). Qed.

Lemma getitem_setitem_other (d : DataFrame) (c c' : string) (dt : dtype)
    (v : list pyval) :
  c <> c' -> mem c (columns d) = true ->
  getitem (setitem d c dt v) c' = getitem d c'.
Proof.
  intros Hne H. unfold setitem. rewrite H. unfold getitem. cbn [series].
  induction (series d) as [|s l IH]; simpl; [reflexivity|].
  destruct (String.eqb (name s) c) eqn:E.
  - apply String.eqb_eq in E. cbn [name]. rewrite E.
    apply String.eqb_neq in Hne. now rewrite Hne.
  - destruct (String.eqb (name s) c'); [reflexivity | exact IH].
Qed.

Lemma length_duplicated_from (seen rest : list (list pyval)) :
  List.length (duplicated_from seen rest) = List.length rest.
Proof.
  revert seen. induction rest as [|r rest IH]; intros seen; simpl;
    [reflexivity | now rewrite IH].
Qed.

Lemma length_duplicated (d : DataFrame) :
  List.length (duplicated d) = len d.
Proof.
  unfold duplicated, rows.
  now rewrite length_duplicated_from, length_map, length_seq.
Qed.

Lemma aligned_getitem (d : DataFrame) (c : string) (s : Series) :
  aligned d -> getitem d c = Ok s -> List.length (cells s) = len d.
Proof.
  intros Ha H. apply getitem_mem in H as (_ & Hin & _).
  unfold aligned in Ha. rewrite Forall_forall in Ha. now apply Ha.
Qed.

Lemma aligned_normalize (d : DataFrame) :
  aligned d -> aligned (normalize_columns d).
Proof.
  unfold aligned, normalize_columns, len. cbn [series index].
  intros H. apply Forall_map. cbn [cells]. exact H.
Qed.

Lemma aligned_loc (m : list bool) (d : DataFrame) :
  aligned d -> List.length m = len d -> aligned (loc m d).
Proof.
  unfold aligned, loc, len. cbn [series index]. intros H Hm.
  apply Forall_map. cbn [cells].
  rewrite (length_select m (index d) Hm).
  eapply Forall_impl; [|exact H]. cbn. intros s Hs.
  apply length_select. congruence.
Qed.

Lemma aligned_deduplicated (flag : bool) (d : DataFrame) :
  aligned d -> aligned (deduplicated flag d).
Proof.
  intros H. apply aligned_normalize in H. unfold deduplicated.
  destruct flag; [|exact H].
  apply aligned_loc; [exact H|].
  now rewrite length_map, length_duplicated.
Qed.

Lemma columns_deduplicated (flag : bool) (d : DataFrame) :
  columns (deduplicated flag d) = columns (normalize_columns d).
Proof.
  unfold deduplicated. destruct flag; [apply columns_loc | reflexivity].
Qed.

Lemma len_deduplicated_le (flag : bool) (d : DataFrame) :
  len (deduplicated flag d) <= len d.
Proof.
  unfold deduplicated. destruct flag; [|reflexivity].
  unfold drop_duplicates, loc, len. cbn [index]. apply length_select_le.
Qed.

(** The mask a validator leaves on a column, read row by row. *)
Lemma column_mask {A : Type} (f : pyval -> option A) (d : DataFrame)
    (c : string) (s : Series) :
  aligned d -> getitem d c = Ok s ->
  isna_mask (apply f s)
  = map (fun i => is_none (f (cell d c i))) (seq 0 (len d)).
Proof.
  intros Ha H. unfold isna_mask, apply. rewrite map_map.
  rewrite (map_by_position _ (cells s) PNone).
  rewrite (aligned_getitem d c s Ha H).
  apply map_ext. intros i. unfold cell. now rewrite H.
Qed.

End FrameFacts.

(* ===================================================================== *)
(** * The row cleaner *)
(* ===================================================================== *)

Section CleanerFacts.
Import Py Pandas Cleaner Spec.
Context {rt : PyRuntime}.

Lemma sorted_nil (l : list string) : sorted l = [] -> l = [].
Proof.
  destruct l as [|x l]; [reflexivity|]. simpl.
  destruct (sorted l) as [|y l']; simpl; [discriminate|].
  destruct (String.leb x y); discriminate.
Qed.

Lemma set_diff_nil (a b : list string) (x : string) :
  set_diff a b = [] -> In x a -> mem x b = true.
Proof.
  unfold set_diff. intros H Hin.
  destruct (mem x b) eqn:E; [reflexivity|].
  assert (Hx : In x (nodup string_dec (filter (fun x => negb (mem x b)) a))).
  { apply nodup_In, filter_In. split; [exact Hin | now rewrite E]. }
  rewrite H in Hx. destruct Hx.
Qed.

(** A table that passes the default check has the four validated columns. *)
Lemma passes_has_validated (df : DataFrame) (c : string) :
  passes_required_check df ->
  In c ["email"; "phone"; "salary"; "date_joined"] ->
  mem c (columns (normalize_columns df)) = true.
Proof.
  intros H Hin. apply sorted_nil in H.
  apply (set_diff_nil REQUIRED_COLUMNS _ c H).
  unfold REQUIRED_COLUMNS. simpl in *. intuition.
Qed.

Lemma index_assign_applied {A : Type} (d : DataFrame) (c : string)
    (inj : A -> pyval) (l : list (option A)) :
  index (assign_applied d c inj l) = index d.
Proof. apply index_setitem. Qed.

Lemma columns_assign_applied {A : Type} (d : DataFrame) (c : string)
    (inj : A -> pyval) (l : list (option A)) :
  mem c (columns d) = true -> columns (assign_applied d c inj l) = columns d.
Proof. apply columns_setitem. Qed.

Lemma getitem_assign_other {A : Type} (d : DataFrame) (c c' : string)
    (inj : A -> pyval) (l : list (option A)) :
  c <> c' -> mem c (columns d) = true ->
  getitem (assign_applied d c inj l) c' = getitem d c'.
Proof. apply getitem_setitem_other. Qed.

(** The loop over the optional columns returns, and keeps the rows. *)
Lemma clean_optional_index (cols : list string) (d : DataFrame) :
  exists d', clean_optional cols d = Ok d' /\ index d' = index d.
Proof.
  revert d. induction cols as [|col cols IH]; intros d; simpl.
  - now exists d.
  - destruct (mem col (columns d)) eqn:E; [|apply IH].
    destruct (mem_getitem col d E) as (s & Hs & _). rewrite Hs. cbn [bind].
    destruct (IH (assign_applied d col PStr (apply clean_text s)))
      as (d' & H1 & H2).
    exists d'. split; [exact H1|]. now rewrite H2, index_assign_applied.
Qed.

(** The run of [clean_data] on a table with rows and columns that has the
    columns asked for and the four validated ones. *)
Lemma clean_data_run (df : DataFrame) (flag : bool)
    (rc : option (list string)) :
  empty df = false ->
  aligned df ->
  sorted (set_diff (required_or_default rc) (columns (normalize_columns df)))
  = [] ->
  (forall c, In c ["email"; "phone"; "salary"; "date_joined"] ->
             mem c (columns (normalize_columns df)) = true) ->
  let d1 := deduplicated flag df in
  exists out,
    clean_data df flag rc =
    Ok (out,
        mkReport (len df) (len out) (len df - len d1)
          (count_rows (email_fails d1) d1) (count_rows (phone_fails d1) d1)
          (count_rows (salary_fails d1) d1) (count_rows (date_fails d1) d1)
          []
          (sorted (set_diff (set_diff (columns (normalize_columns df))
                                      (required_or_default rc))
                            OPTIONAL_COLUMNS))
          CLEANING_VERSION)
    /\ index out
       = select (map (fun i => negb (row_invalid d1 i)) (seq 0 (len d1)))
                (index d1).
Proof.
  intros He Ha Hmiss Hcols d1.
  assert (Ha1 : aligned d1) by now apply aligned_deduplicated.
  assert (Hm : forall c, In c ["email"; "phone"; "salary"; "date_joined"] ->
                         mem c (columns d1) = true).
  { intros c Hc. unfold d1. rewrite columns_deduplicated. now apply Hcols. }
  destruct (mem_getitem "email" d1) as (e & He1 & _);
    [apply Hm; simpl; tauto|].
  destruct (mem_getitem "phone" d1) as (p & Hp1 & _);
    [apply Hm; simpl; tauto|].
  destruct (mem_getitem "salary" d1) as (s & Hs1 & _);
    [apply Hm; simpl; tauto|].
  destruct (mem_getitem "date_joined" d1) as (t & Ht1 & _);
    [apply Hm; simpl; tauto|].
  unfold clean_data. rewrite He, Hmiss. cbv zeta.
  change (if flag then drop_duplicates (normalize_columns df)
          else normalize_columns df) with d1.
  rewrite He1. cbn [bind].
  rewrite getitem_assign_other, Hp1; [|discriminate|apply Hm; simpl; tauto].
  cbn [bind].
  rewrite getitem_assign_other;
    [|discriminate
     |rewrite columns_assign_applied; apply Hm; simpl; tauto].
  rewrite getitem_assign_other, Hs1; [|discriminate|apply Hm; simpl; tauto].
  cbn [bind].
  rewrite getitem_assign_other;
    [|discriminate
     |rewrite !columns_assign_applied;
      try rewrite !columns_assign_applied; apply Hm; simpl; tauto].
  rewrite getitem_assign_other;
    [|discriminate
     |rewrite columns_assign_applied; apply Hm; simpl; tauto].
  rewrite getitem_assign_other, Ht1; [|discriminate|apply Hm; simpl; tauto].
  cbn [bind].
  match goal with
  | |- context [clean_optional OPTIONAL_COLUMNS ?d] =>
      destruct (clean_optional_index OPTIONAL_COLUMNS d) as (out & Eo & Hi);
      rewrite Eo
  end.
  cbn [bind except_cleaning].
  pose proof (column_mask fix_email d1 "email" e Ha1 He1) as M1.
  pose proof (column_mask normalize_phone d1 "phone" p Ha1 Hp1) as M2.
  pose proof (column_mask clean_numeric d1 "salary" s Ha1 Hs1) as M3.
  pose proof (column_mask clean_date d1 "date_joined" t Ha1 Ht1) as M4.
  exists out. split.
  - rewrite M1, M2, M3, M4.
    f_equal. f_equal. unfold count_rows. rewrite !mask_sum_map.
    f_equal.
    unfold d1, deduplicated. destruct flag; [reflexivity|].
    change (len (normalize_columns df)) with (len df). lia.
  - rewrite Hi. unfold loc. cbn [index]. rewrite !index_assign_applied.
    f_equal. unfold mask_not, len.
    rewrite (repeat_false_map (index d1)).
    rewrite (map_by_position (fun _ => false) (index d1) 0).
    rewrite M1, M2, M3, M4. unfold len.
    rewrite !mask_or_map, map_map. apply map_ext. intros i.
    reflexivity.
Qed.

(** C10. A table without rows comes back as it is, with the all-zero
    report, whatever its columns: the required-column check is not
    reached, no error is raised and the list of missing columns is empty. *)
Theorem clean_data_no_rows (df : DataFrame) (flag : bool)
    (rc : option (list string)) :
  len df = 0 ->
  clean_data df flag rc
  = Ok (df, mkReport 0 0 0 0 0 0 0 [] [] CLEANING_VERSION).
Proof.
  intros H. unfold clean_data, empty. rewrite H. reflexivity.
Qed.

(** The valid rows of the table the validators see, each once and in
    order, are what [clean_data] returns. *)
Lemma select_valid_rows (q : nat -> bool) (l : list nat) :
  select (map q (seq 0 (List.length l))) l
  = map (fun i => nth i l 0) (filter q (seq 0 (List.length l))).
Proof.
  rewrite <- (map_nth_seq l 0) at 2.
  now rewrite select_map, select_map_mask.
Qed.

(** C3. On a table with rows and columns that passes the required-column
    check, [clean_data] returns, and in its report: the final row count is
    the original count less the duplicates dropped less the number of
    rows, after duplicate removal, with at least one failing field among
    email, phone, salary and date_joined; each of the four counters is the
    number of those rows that fail that one field; the cleaned table holds
    exactly the rows without a failing field, each once. *)
Theorem clean_data_counts (df : DataFrame) (flag : bool) :
  empty df = false ->
  aligned df ->
  distinct_columns df ->
  passes_required_check df ->
  let d1 := deduplicated flag df in
  exists out rep,
    clean_data df flag None = Ok (out, rep)
    /\ original_rows rep = len df
    /\ duplicates_dropped rep = len df - len d1
    /\ final_rows rep
       = original_rows rep - duplicates_dropped rep
         - count_rows (row_invalid d1) d1
    /\ original_rows rep
       = final_rows rep + duplicates_dropped rep
         + count_rows (row_invalid d1) d1
    /\ invalid_emails_dropped rep = count_rows (email_fails d1) d1
    /\ invalid_phones_dropped rep = count_rows (phone_fails d1) d1
    /\ invalid_numbers_dropped rep = count_rows (salary_fails d1) d1
    /\ invalid_dates_dropped rep = count_rows (date_fails d1) d1
    /\ len out = final_rows rep
    /\ index out
       = map (fun i => nth i (index d1) 0)
             (filter (fun i => negb (row_invalid d1 i)) (seq 0 (len d1))).
Proof.
  intros He Ha _ Hp d1.
  destruct (clean_data_run df flag None He Ha Hp
              (fun c => passes_has_validated df c Hp))
    as (out & Hrun & Hidx).
  fold d1 in Hrun, Hidx.
  rewrite (select_valid_rows (fun i => negb (row_invalid d1 i)) (index d1))
    in Hidx.
  fold (len d1) in Hidx.
  assert (Hlen : len out + count_rows (row_invalid d1) d1 = len d1).
  { unfold len at 1. rewrite Hidx, length_map. unfold count_rows.
    rewrite (length_filter_negb (row_invalid d1) (seq 0 (len d1))).
    apply length_seq. }
  pose proof (len_deduplicated_le flag df) as Hle. fold d1 in Hle.
  eexists. eexists. split; [exact Hrun|].
  cbn [original_rows duplicates_dropped final_rows invalid_emails_dropped
       invalid_phones_dropped invalid_numbers_dropped invalid_dates_dropped].
  repeat split; try reflexivity; try lia. exact Hidx.
Qed.

End CleanerFacts.

Section DuplicateFacts.
Import Pandas Spec.

Lemma in_firstn_nth {A : Type} (l : list A) (d x : A) (i : nat) :
  i <= List.length l ->
  (In x (firstn i l) <-> exists j, j < i /\ nth j l d = x).
Proof.
  revert i. induction l as [|y l IH]; intros i Hi; simpl in Hi.
  - assert (i = 0) by lia. subst. simpl. split; [tauto|].
    intros (j & Hj & _). lia.
  - destruct i as [|i]; simpl.
    + split; [tauto|]. intros (j & Hj & _). lia.
    + rewrite (IH i) by lia. split.
      * intros [<- | (j & Hj & E)]; [exists 0 | exists (S j)]; split;
          auto; lia.
      * intros ([|j] & Hj & E); [now left|].
        right. exists j. split; [lia | exact E].
Qed.

Lemma duplicated_from_nth (seen rest : list (list pyval)) (i : nat) :
  i < List.length rest ->
  nth i (duplicated_from seen rest) false
  = existsb (row_eqb (nth i rest [])) (rev (firstn i rest) ++ seen)%list.
Proof.
  revert seen i. induction rest as [|r rest IH]; intros seen i Hi;
    simpl in Hi; [lia|].
  destruct i as [|i]; simpl; [reflexivity|].
  rewrite IH by lia. now rewrite <- app_assoc.
Qed.

Lemma rows_nth (d : DataFrame) (j : nat) :
  j < len d -> nth j (rows d) [] = row_at d j.
Proof.
  intros Hj. unfold rows.
  rewrite (nth_indep _ [] (row_at d 0)) by now rewrite length_map, length_seq.
  rewrite (map_nth (row_at d)). now rewrite seq_nth.
Qed.

(** [duplicated] marks the rows that equal an earlier row. *)
Lemma duplicated_iff (d : DataFrame) (i : nat) :
  i < len d ->
  (nth i (duplicated d) false = true <-> duplicates_earlier d i).
Proof.
  intros Hi. unfold duplicated, duplicates_earlier.
  assert (Hr : List.length (rows d) = len d)
    by (unfold rows; now rewrite length_map, length_seq).
  rewrite duplicated_from_nth by lia.
  rewrite app_nil_r, existsb_exists, rows_nth by exact Hi.
  split.
  - intros (x & Hx & E). apply in_rev in Hx.
    apply (in_firstn_nth (rows d) [] x i) in Hx; [|lia].
    destruct Hx as (j & Hj & <-). exists j. split; [exact Hj|].
    rewrite rows_nth in E by lia. exact E.
  - intros (j & Hj & E). exists (row_at d j). split; [|exact E].
    apply -> in_rev. apply (in_firstn_nth (rows d) [] _ i); [lia|].
    exists j. split; [exact Hj | apply rows_nth; lia].
Qed.

End DuplicateFacts.

Section CleanerRows.
Import Py Pandas Cleaner Spec.
Context {rt : PyRuntime}.

(** A cell of the filtered table is the cell of the row it came from. *)
Lemma cell_loc (m : list bool) (d : DataFrame) (c : string) (k : nat) :
  aligned d -> List.length m = len d -> k < List.length (kept m) ->
  cell (loc m d) c k = cell d c (nth k (kept m) 0).
Proof.
  intros Ha Hm Hk. unfold cell. rewrite getitem_loc.
  destruct (getitem d c) as [s|] eqn:E; [|reflexivity]. cbn [cells].
  rewrite (select_kept m (cells s) PNone)
    by (rewrite (aligned_getitem d c s Ha E); exact Hm).
  rewrite (nth_indep _ PNone (nth 0 (cells s) PNone))
    by now rewrite length_map.
  now rewrite (map_nth (fun i => nth i (cells s) PNone)).
Qed.

Lemma row_invalid_loc (m : list bool) (d : DataFrame) (k : nat) :
  aligned d -> List.length m = len d -> k < List.length (kept m) ->
  row_invalid (loc m d) k = row_invalid d (nth k (kept m) 0).
Proof.
  intros Ha Hm Hk.
  unfold row_invalid, email_fails, phone_fails, salary_fails, date_fails.
  now rewrite !cell_loc.
Qed.

(** Filtering the valid rows of a filtered table, by original position. *)
Lemma valid_rows_of_loc (m : list bool) (d : DataFrame) :
  aligned d -> List.length m = len d ->
  select (map (fun k => negb (row_invalid (loc m d) k))
              (seq 0 (len (loc m d))))
         (index (loc m d))
  = map (fun i => nth i (index d) 0)
        (filter (fun i => negb (row_invalid d i)) (kept m)).
Proof.
  intros Ha Hm.
  assert (Ei : index (loc m d) = map (fun i => nth i (index d) 0) (kept m))
    by (unfold loc; cbn [index]; now apply select_kept).
  unfold len at 1. rewrite Ei, length_map.
  rewrite (map_ext_in _ (fun k => negb (row_invalid d (nth k (kept m) 0)))).
  - rewrite <- (map_by_position (fun i => negb (row_invalid d i)) (kept m) 0).
    now rewrite select_map, select_map_mask.
  - intros k Hk. apply in_seq in Hk. rewrite row_invalid_loc; auto. lia.
Qed.

(** C4. On a table with rows and columns that passes the required-column
    check, a row is in the cleaned table exactly when no earlier row
    equals it on all columns and none of its email, phone, salary and
    date_joined fails validation. Rows are compared as they come in,
    before any field is validated or normalized. *)
Theorem retained_iff (df : DataFrame) :
  empty df = false ->
  aligned df ->
  distinct_columns df ->
  passes_required_check df ->
  NoDup (index df) ->
  let d0 := normalize_columns df in
  exists out rep,
    clean_data df true None = Ok (out, rep)
    /\ forall i, i < len df ->
         (retained (nth i (index df) 0) out <->
          ~ duplicates_earlier d0 i /\ row_invalid d0 i = false).
Proof.
  intros He Ha _ Hp Hnd d0.
  destruct (clean_data_run df true None He Ha Hp
              (fun c => passes_has_validated df c Hp))
    as (out & Hrun & Hidx).
  eexists. eexists. split; [exact Hrun|].
  intros i Hi. unfold retained. rewrite Hidx.
  unfold deduplicated, drop_duplicates. fold d0.
  assert (Ha0 : aligned d0) by now apply aligned_normalize.
  assert (Hm : List.length (map negb (duplicated d0)) = len d0)
    by now rewrite length_map, length_duplicated.
  rewrite (valid_rows_of_loc _ d0 Ha0 Hm).
  change (index d0) with (index df). change (len d0) with (len df) in Hm.
  assert (Hk : In i (kept (map negb (duplicated d0)))
               <-> ~ duplicates_earlier d0 i).
  { rewrite kept_lt, Hm.
    rewrite (nth_indep _ false (negb true)) by (rewrite Hm; exact Hi).
    rewrite (map_nth negb), negb_true_iff.
    rewrite <- (duplicated_iff d0 i Hi).
    rewrite (nth_indep _ true false) by (rewrite length_duplicated; exact Hi).
    split; [intros [_ H]; congruence|].
    intros H. split; [exact Hi|]. now destruct (nth i (duplicated d0) false). }
  rewrite in_map_iff. split.
  - intros (j & Ej & Hj). apply filter_In in Hj as [Hj Hv].
    assert (j = i).
    { apply kept_lt in Hj as [Hj _]. rewrite Hm in Hj.
      apply (proj1 (NoDup_nth (index df) 0) Hnd); auto. }
    subst j. split; [now apply Hk | now apply negb_true_iff].
  - intros [Hd Hv]. exists i. split; [reflexivity|].
    apply filter_In. split; [now apply Hk | now rewrite Hv].
Qed.

(** Without duplicate removal, only the validators decide. *)
Lemma retained_iff_keep_duplicates (df : DataFrame) :
  empty df = false ->
  aligned df ->
  passes_required_check df ->
  NoDup (index df) ->
  exists out rep,
    clean_data df false None = Ok (out, rep)
    /\ forall i, i < len df ->
         (retained (nth i (index df) 0) out <->
          row_invalid (normalize_columns df) i = false).
Proof.
  intros He Ha Hp Hnd.
  destruct (clean_data_run df false None He Ha Hp
              (fun c => passes_has_validated df c Hp))
    as (out & Hrun & Hidx).
  eexists. eexists. split; [exact Hrun|].
  intros i Hi. unfold retained. rewrite Hidx.
  unfold deduplicated.
  change (index (normalize_columns df)) with (index df).
  change (len (normalize_columns df)) with (List.length (index df)).
  rewrite select_valid_rows, in_map_iff. split.
  - intros (j & Ej & Hj). apply filter_In in Hj as [Hj Hv].
    apply in_seq in Hj.
    assert (j = i)
      by (apply (proj1 (NoDup_nth (index df) 0) Hnd); auto; lia).
    subst j. now apply negb_true_iff.
  - intros Hv. exists i. split; [reflexivity|].
    apply filter_In. split; [apply in_seq; unfold len in Hi; lia|].
    now rewrite Hv.
Qed.

End CleanerRows.

(* ===================================================================== *)
(** * From the cleaning stage to the grading step *)
(* ===================================================================== *)

Section PipelineFacts.
Import Py Pandas Cleaner Analyzer Grader Spec.
Context {rt : PyRuntime}.
Variable render : Analysis -> DataFrame -> CleaningReport -> result string.

Lemma except_cleaning_ok {A : Type} (body : result A) (a : A) :
  except_cleaning body = Ok a -> body = Ok a.
Proof.
  destruct body as [x|e]; simpl; [congruence|].
  destruct (exn_cls e); discriminate.
Qed.

(** Whatever the columns asked for, a report [clean_data] returns for a
    table with rows counts the rows of the input and of the output. *)
Lemma clean_data_report_rows (df : DataFrame) (flag : bool)
    (rc : option (list string)) (out : DataFrame) (rep : CleaningReport) :
  empty df = false ->
  clean_data df flag rc = Ok (out, rep) ->
  original_rows rep = len df /\ final_rows rep = len out /\ len out <= len df.
Proof.
  intros He H. unfold clean_data in H. rewrite He in H.
  apply except_cleaning_ok in H.
  destruct (sorted _) in H; [|discriminate]. cbv zeta in H.
  set (d1 := if flag then drop_duplicates (normalize_columns df)
             else normalize_columns df) in H.
  assert (Hd1 : len d1 <= len df).
  { change d1 with (deduplicated flag df). apply len_deduplicated_le. }
  destruct (getitem d1 "email") in H; [|discriminate]. cbn [bind] in H.
  destruct (getitem _ "phone") in H; [|discriminate]. cbn [bind] in H.
  destruct (getitem _ "salary") in H; [|discriminate]. cbn [bind] in H.
  destruct (getitem _ "date_joined") in H; [|discriminate]. cbn [bind] in H.
  match type of H with
  | context [clean_optional OPTIONAL_COLUMNS ?d] =>
      destruct (clean_optional_index OPTIONAL_COLUMNS d) as (o & Eo & Hi);
      rewrite Eo in H
  end.
  cbn [bind] in H. injection H as <- <-.
  cbn [original_rows final_rows]. repeat split.
  unfold len at 1. rewrite Hi. unfold loc. cbn [index].
  rewrite !index_assign_applied.
  etransitivity; [apply length_select_le | exact Hd1].
Qed.

(** A run that gets as far as the grading step has a report with original
    rows, so that the drop rate is computed, within bounds: an empty
    table, or one that is empty once cleaned, ends the run before, when
    the workbook is written. *)
Lemma grading_step_reached (df clean_df : DataFrame) (rep : CleaningReport)
    (results : Analysis) (path : string) :
  clean_data df true None = Ok (clean_df, rep) ->
  analyze_data clean_df None = Ok results ->
  write_analysis_to_excel render results clean_df rep = Ok path ->
  original_rows rep <> 0
  /\ exists d, run_to_grading render df = Ok (d, severity d)
               /\ drop_rate rep = Ok d /\ (0 <= d <= 1)%Q.
Proof.
  intros Hc Ha Hw.
  assert (Hne : empty df = false).
  { destruct (empty df) eqn:He; [|reflexivity].
    unfold clean_data in Hc. rewrite He in Hc. injection Hc as <- <-.
    rewrite (analyze_data_empty df None He) in Ha. injection Ha as <-.
    discriminate. }
  destruct (clean_data_report_rows df true None clean_df rep Hne Hc)
    as (Ho & Hf & Hle).
  assert (Ho' : original_rows rep <> 0).
  { rewrite Ho. now apply empty_false in Hne. }
  split; [exact Ho'|].
  destruct (truediv_unit (final_rows rep) (original_rows rep) Ho')
    as (q & Eq & _ & Hq0 & Hq1); [lia|].
  assert (Hd : drop_rate rep = Ok (1 - q)%Q)
    by (unfold drop_rate; now rewrite Eq).
  exists (1 - q)%Q. split; [|split; [exact Hd|]].
  - unfold run_to_grading. rewrite Hc. cbn [bind]. rewrite Ha. cbn [bind].
    rewrite Hw. cbn [bind]. rewrite Hd. reflexivity.
  - split.
    + apply (Qplus_le_l _ _ q). ring_simplify. exact Hq1.
    + apply (Qplus_le_l _ _ q). ring_simplify.
      rewrite <- (Qplus_0_l 1) at 1. apply Qplus_le_l. exact Hq0.
Qed.

(** On a table without rows the run ends with the report error. *)
Lemma run_to_grading_no_rows (df : DataFrame) :
  len df = 0 ->
  run_to_grading render df
  = Raise (Exn ReportError "No analysis results to write.").
Proof.
  intros H.
  assert (He : empty df = true) by (unfold empty; now rewrite H).
  unfold run_to_grading, clean_data. rewrite He. cbn [bind].
  now rewrite (analyze_data_empty df None He).
Qed.

End PipelineFacts.

(* ===================================================================== *)
(** * Runs on the sample tables *)
(* ===================================================================== *)

Section CleanerRuns.
Import Py Pandas Cleaner Analyzer Grader Spec Sample.

Lemma NoDup_strings (l : list string) : nodup string_dec l = l -> NoDup l.
Proof. intros <-. apply NoDup_nodup. Qed.

Lemma NoDup_labels (l : list nat) : nodup Nat.eq_dec l = l -> NoDup l.
Proof. intros <-. apply NoDup_nodup. Qed.

Lemma aligned_ten_rows : aligned ten_rows.
Proof. repeat constructor. Qed.

Lemma aligned_four_rows : aligned four_rows.
Proof. repeat constructor. Qed.

(** The scenario of the specification: ten rows, one with the salary
    ["-5"], another with the email ["bad"]. *)
Example ten_rows_report :
  report_of (clean_data ten_rows true None)
  = Some (mkReport 10 8 0 1 0 1 0 [] [] "4.6")
  /\ labels_of (clean_data ten_rows true None) = Some [0; 1; 2; 4; 5; 7; 8; 9].
Proof. split; vm_compute; reflexivity. Qed.

(** A repeated row, a row with a bad email and a bad phone, and a row
    that equals the first one only once its email is lowercased: the
    repeated row counts as the one duplicate, the bad row counts in both
    counters and leaves once, the last row stays. *)
Example four_rows_report :
  report_of (clean_data four_rows true None)
  = Some (mkReport 4 2 1 1 1 0 0 [] [] "4.6")
  /\ labels_of (clean_data four_rows true None) = Some [0; 3]
  /\ report_of (clean_data four_rows false None)
     = Some (mkReport 4 3 0 1 1 0 0 [] [] "4.6").
Proof. repeat split; vm_compute; reflexivity. Qed.

(** A missing required column, and a validated column that the caller's
    own list of required columns does not ask for. *)
Example missing_columns_raise :
  clean_data two_numeric true None
  = Raise (Exn CleaningError
             "Missing required columns: ['date_joined', 'email', 'phone']")
  /\ clean_data two_numeric true (Some ["id"])
     = Raise (ExnFrom CleaningError "'email'" (Exn KeyError "'email'")).
Proof. split; vm_compute; reflexivity. Qed.

Lemma clean_data_no_rows_witness :
  len no_rows = 0
  /\ set_diff REQUIRED_COLUMNS (columns (normalize_columns no_rows))
     = REQUIRED_COLUMNS
  /\ clean_data no_rows true None
     = Ok (no_rows, mkReport 0 0 0 0 0 0 0 [] [] CLEANING_VERSION).
Proof.
  split; [reflexivity|]. split; [reflexivity|].
  apply (clean_data_no_rows (rt := sample_runtime) no_rows true None).
  reflexivity.
Defined.

Lemma clean_data_counts_witness :
  let d1 := deduplicated true four_rows in
  exists out rep,
    clean_data four_rows true None = Ok (out, rep)
    /\ original_rows rep = len four_rows
    /\ duplicates_dropped rep = len four_rows - len d1
    /\ final_rows rep
       = original_rows rep - duplicates_dropped rep
         - count_rows (row_invalid d1) d1
    /\ original_rows rep
       = final_rows rep + duplicates_dropped rep
         + count_rows (row_invalid d1) d1
    /\ invalid_emails_dropped rep = count_rows (email_fails d1) d1
    /\ invalid_phones_dropped rep = count_rows (phone_fails d1) d1
    /\ invalid_numbers_dropped rep = count_rows (salary_fails d1) d1
    /\ invalid_dates_dropped rep = count_rows (date_fails d1) d1
    /\ len out = final_rows rep
    /\ index out
       = map (fun i => nth i (index d1) 0)
             (filter (fun i => negb (row_invalid d1 i)) (seq 0 (len d1))).
Proof.
  apply (clean_data_counts (rt := sample_runtime) four_rows true).
  - reflexivity.
  - exact aligned_four_rows.
  - apply NoDup_strings. reflexivity.
  - reflexivity.
Defined.

Lemma retained_iff_witness :
  let d0 := normalize_columns four_rows in
  exists out rep,
    clean_data four_rows true None = Ok (out, rep)
    /\ forall i, i < len four_rows ->
         (retained (nth i (index four_rows) 0) out <->
          ~ duplicates_earlier d0 i /\ row_invalid d0 i = false).
Proof.
  apply (retained_iff (rt := sample_runtime) four_rows).
  - reflexivity.
  - exact aligned_four_rows.
  - apply NoDup_strings. reflexivity.
  - reflexivity.
  - apply NoDup_labels. reflexivity.
Defined.

(** The run up to the grading step on the ten rows of the scenario. *)
Example ten_rows_graded :
  run_to_grading (fun _ _ _ => Ok "analysis_report.xlsx") ten_rows
  = Ok ((1 - (8 # 10))%Q, "MEDIUM").
Proof. vm_compute. reflexivity. Qed.

End CleanerRuns.

(* ===================================================================== *)
(** * Rounding at the tier boundaries *)
(* ===================================================================== *)

Section RoundingRuns.
Import Cleaner.

(** The two literals are the doubles nearest to 1/10 and 3/10, and each
    is graded ["MEDIUM"]. *)
Example literals_graded_medium :
  SFdiv 53 1024 (Binary64.of_int 1) (Binary64.of_int 10) = Binary64.literal_0_10
  /\ SFdiv 53 1024 (Binary64.of_int 3) (Binary64.of_int 10) = Binary64.literal_0_30
  /\ Binary64.severity Binary64.literal_0_10 = "MEDIUM"
  /\ Binary64.severity Binary64.literal_0_30 = "MEDIUM".
Proof. repeat split; vm_compute; reflexivity. Qed.

(** Nine rows left of ten: the rate is 1/10 and the tier ["MEDIUM"] in
    exact arithmetic; in double precision [1 - 9/10] falls just below the
    literal [0.10] and the tier is ["LOW"]. Seven rows left of ten:
    [1 - 7/10] falls just above the literal [0.30] and the tier is the
    high one, where exact arithmetic gives ["MEDIUM"]. *)
Example boundary_rates_rounded :
  Binary64.graded 10 9 = Ok "LOW"
  /\ Binary64.graded 10 7 = Ok "HIGH ⚠️"
  /\ Binary64.graded 10 8 = Ok "MEDIUM"
  /\ Binary64.graded 0 0 = Raise (Exn ZeroDivisionError "division by zero").
Proof. repeat split; vm_compute; reflexivity. Qed.

End RoundingRuns.

(* ===================================================================== *)
(** * The matcher and the language of a pattern *)
(* ===================================================================== *)

Section RegexFacts.
Import Py Regex RegexSem.

Lemma append_nil_r (s : string) : s ++ "" = s.
Proof. induction s as [|c s IH]; simpl; [reflexivity | now rewrite IH]. Qed.

Lemma append_assoc (s t u : string) : (s ++ t) ++ u = s ++ (t ++ u).
Proof. induction s as [|c s IH]; simpl; [reflexivity | now rewrite IH]. Qed.

Lemma append_eq_nil (s t : string) : s ++ t = "" -> s = "" /\ t = "".
Proof. destruct s; simpl; [auto | discriminate]. Qed.

Lemma nullable_matches (r : re) : nullable r = true <-> Matches r "".
Proof.
  split.
  - induction r as [| |p|a IHa b IHb|a IHa b IHb|a IHa]; simpl; intros H;
      try discriminate.
    + constructor.
    + apply andb_prop in H as [Ha Hb].
      change "" with ("" ++ ""). constructor; auto.
    + apply orb_prop in H as [H|H]; [apply MAltL | apply MAltR]; auto.
    + constructor.
  - intros H. remember "" as s eqn:Es.
    induction H as [|p c Hc|a b s1 s2 H1 IH1 H2 IH2|a b s H IH|a b s H IH
                    |a|a s1 s2 H1 IH1 H2 IH2]; simpl; try reflexivity.
    + discriminate.
    + apply append_eq_nil in Es as [E1 E2]. now rewrite IH1, IH2.
    + now rewrite IH.
    + rewrite IH by assumption. apply orb_true_r.
Qed.

(** A match of [Star a] on a string that starts with [c] starts with a
    match of [a] that starts with [c]. *)
Lemma star_cons_inv (a : re) (c : ascii) (s : string) :
  Matches (Star a) (String c s) ->
  exists s1 s2, s = s1 ++ s2 /\ Matches a (String c s1) /\ Matches (Star a) s2.
Proof.
  intros H. remember (Star a) as r eqn:Er. remember (String c s) as t eqn:Et.
  revert s Et.
  induction H as [|p c' Hc|a' b s1 s2 H1 IH1 H2 IH2|a' b s' H IH|a' b s' H IH
                  |a'|a' s1 s2 H1 IH1 H2 IH2]; intros s Et; try discriminate.
  injection Er as ->.
  destruct s1 as [|c1 s1].
  - simpl in Et. apply IH2; [reflexivity | exact Et].
  - simpl in Et. injection Et as E1 E2. subst c1 s. exists s1, s2. auto.
Qed.

Lemma deriv_matches (r : re) (c : ascii) (s : string) :
  Matches (deriv c r) s <-> Matches r (String c s).
Proof.
  revert s. induction r as [| |p|a IHa b IHb|a IHa b IHb|a IHa]; intros s; simpl.
  - split; intros H; inversion H.
  - split; intros H; inversion H.
  - destruct (p c) eqn:Ep; split; intros H.
    + inversion H; subst. now constructor.
    + inversion H; subst. constructor.
    + inversion H.
    + inversion H; subst. congruence.
  - assert (Hcat : Matches (Cat (deriv c a) b) s ->
                   Matches (Cat a b) (String c s)).
    { intros H. inversion H as [| |a' b' s1 s2 H1 H2| | | |]; subst.
      change (String c (s1 ++ s2)) with (String c s1 ++ s2).
      constructor; [now apply IHa | exact H2]. }
    assert (Hinv : Matches (Cat a b) (String c s) ->
                   Matches (Cat (deriv c a) b) s
                   \/ (Matches a "" /\ Matches (deriv c b) s)).
    { intros H. inversion H as [| |a' b' s1 s2 H1 H2 E1 E2| | | |]; subst.
      destruct s1 as [|c1 s1]; simpl in E2.
      - right. split; [exact H1|]. apply IHb. now rewrite <- E2.
      - injection E2 as Ec Es. subst c1 s. left.
        constructor; [now apply IHa | exact H2]. }
    destruct (nullable a) eqn:En.
    + split.
      * intros H. inversion H; subst; [now apply Hcat|].
        change (String c s) with ("" ++ String c s).
        constructor; [now apply nullable_matches | now apply IHb].
      * intros H. destruct (Hinv H) as [H'|[_ H']];
          [now apply MAltL | now apply MAltR].
    + split; [exact Hcat|].
      intros H. destruct (Hinv H) as [H'|[H' _]]; [exact H'|].
      apply nullable_matches in H'. congruence.
  - split; intros H; inversion H; subst;
      try (apply MAltL; now apply IHa); apply MAltR; now apply IHb.
  - split.
    + intros H. inversion H as [| |a' b' s1 s2 H1 H2| | | |]; subst.
      change (String c (s1 ++ s2)) with (String c s1 ++ s2).
      constructor; [now apply IHa | exact H2].
    + intros H. apply star_cons_inv in H as (s1 & s2 & -> & H1 & H2).
      constructor; [now apply IHa | exact H2].
Qed.

(** The matcher decides membership in the language. *)
Lemma fullmatch_matches (r : re) (s : string) :
  fullmatch r s = true <-> Matches r s.
Proof.
  revert r. induction s as [|c s IH]; intros r; simpl.
  - apply nullable_matches.
  - rewrite IH. apply deriv_matches.
Qed.

End RegexFacts.

(* ===================================================================== *)
(** * The shape of an accepted email *)
(* ===================================================================== *)

Section EmailShape.
Import Py Regex RegexSem Cleaner.

Lemma class_matches (p : ascii -> bool) (s : string) :
  Matches (Class p) s <-> exists c, s = String c "" /\ p c = true.
Proof.
  split.
  - intros H. inversion H; subst. eauto.
  - intros (c & -> & H). now constructor.
Qed.

Lemma star_class_matches (p : ascii -> bool) (s : string) :
  Matches (Star (Class p)) s <-> all_chars p s = true.
Proof.
  split.
  - intros H. remember (Star (Class p)) as r eqn:Er.
    induction H as [|q c Hc|a b s1 s2 H1 IH1 H2 IH2|a b s H IH|a b s H IH
                    |a|a s1 s2 H1 IH1 H2 IH2]; try discriminate.
    + reflexivity.
    + injection Er as ->. apply class_matches in H1 as (c & -> & Hc).
      simpl. now rewrite Hc, IH2.
  - induction s as [|c s IH]; simpl; intros H; [constructor|].
    apply andb_prop in H as [Hc Hs].
    change (String c s) with (String c "" ++ s).
    constructor; [now constructor | now apply IH].
Qed.

Lemma plus_class_matches (p : ascii -> bool) (s : string) :
  Matches (plus (Class p)) s <-> s <> "" /\ all_chars p s = true.
Proof.
  unfold plus. split.
  - intros H. inversion H as [| |a b s1 s2 H1 H2| | | |]; subst.
    apply class_matches in H1 as (c & -> & Hc).
    apply star_class_matches in H2. simpl. rewrite Hc, H2.
    split; [discriminate | reflexivity].
  - intros [Hne H]. destruct s as [|c s]; [congruence|].
    simpl in H. apply andb_prop in H as [Hc Hs].
    change (String c s) with (String c "" ++ s).
    constructor; [now constructor | now apply star_class_matches].
Qed.

Lemma at_least_two_class_matches (p : ascii -> bool) (s : string) :
  Matches (at_least_two (Class p)) s
  <-> 2 <= String.length s /\ all_chars p s = true.
Proof.
  unfold at_least_two. split.
  - intros H. inversion H as [| |a b s1 s2 H1 H2| | | |]; subst.
    inversion H2 as [| |a b s3 s4 H3 H4| | | |]; subst.
    apply class_matches in H1 as (c & -> & Hc).
    apply class_matches in H3 as (c' & -> & Hc').
    apply star_class_matches in H4. simpl. rewrite Hc, Hc', H4.
    split; [lia | reflexivity].
  - intros [Hlen H]. destruct s as [|c [|c' s]]; simpl in Hlen; try lia.
    simpl in H. apply andb_prop in H as [Hc H]. apply andb_prop in H as [Hc' Hs].
    change (String c (String c' s)) with (String c "" ++ (String c' "" ++ s)).
    repeat constructor; auto. now apply star_class_matches.
Qed.

Lemma char_matches (c0 : ascii) (s : string) :
  Matches (Class (Ascii.eqb c0)) s <-> s = String c0 "".
Proof.
  rewrite class_matches. split.
  - intros (c & -> & H). apply Ascii.eqb_eq in H. now subst.
  - intros ->. exists c0. split; [reflexivity | apply Ascii.eqb_refl].
Qed.

(** The language of the email pattern. *)
Lemma email_pattern_matches (s : string) :
  Matches email_pattern s <->
  exists local domain tld,
    s = local ++ "@" ++ domain ++ "." ++ tld
    /\ local <> "" /\ all_chars local_char local = true
    /\ domain <> "" /\ all_chars domain_char domain = true
    /\ 2 <= String.length tld /\ all_chars tld_char tld = true.
Proof.
  unfold email_pattern. split.
  - intros H.
    inversion H as [| |a1 b1 l r1 Hl H1| | | |]; subst.
    inversion H1 as [| |a2 b2 at_ r2 Hat H2| | | |]; subst.
    inversion H2 as [| |a3 b3 d r3 Hd H3| | | |]; subst.
    inversion H3 as [| |a4 b4 dot t Hdot Ht| | | |]; subst.
    apply plus_class_matches in Hl as [Hl1 Hl2].
    apply char_matches in Hat as ->.
    apply plus_class_matches in Hd as [Hd1 Hd2].
    apply char_matches in Hdot as ->.
    apply at_least_two_class_matches in Ht as [Ht1 Ht2].
    exists l, d, t. repeat split; assumption.
  - intros (l & d & t & -> & Hl1 & Hl2 & Hd1 & Hd2 & Ht1 & Ht2).
    constructor; [now apply plus_class_matches|].
    constructor; [now apply char_matches|].
    constructor; [now apply plus_class_matches|].
    constructor; [now apply char_matches|].
    now apply at_least_two_class_matches.
Qed.

Lemma chop_newline_rstrip (s : string) : chop_newline (rstrip s) = None.
Proof.
  induction s as [|c s IH]; simpl; [reflexivity|].
  destruct (rstrip s) as [|c' r] eqn:E.
  - destruct (isspace c) eqn:Ec; [reflexivity|]. simpl.
    destruct (Ascii.eqb c "010") eqn:En; [|reflexivity].
    apply Ascii.eqb_eq in En. subst c. discriminate.
  - change (chop_newline (String c (String c' r)))
      with (option_map (String c) (chop_newline (String c' r))).
    now rewrite IH.
Qed.

(** On a trimmed string [$] can only match at the very end. *)
Lemma validate_email_fullmatch (e : string) :
  validate_email (PStr e) = fullmatch email_pattern (lower (strip e)).
Proof.
  simpl. unfold match_anchored.
  rewrite <- strip_lower. unfold strip at 2.
  rewrite chop_newline_rstrip. apply orb_false_r.
Qed.

(** X1. An email is accepted exactly when, trimmed and lowercased, it reads
    [local@domain.tld] with a non-empty local part of letters, digits
    and [._%+-], a non-empty domain of letters, digits, dots and hyphens,
    and a last label of at least two letters. *)
Theorem validate_email_shape (v : pyval) :
  validate_email v = true <->
  exists e local domain tld,
    v = PStr e
    /\ lower (strip e) = local ++ "@" ++ domain ++ "." ++ tld
    /\ local <> "" /\ all_chars local_char local = true
    /\ domain <> "" /\ all_chars domain_char domain = true
    /\ 2 <= String.length tld /\ all_chars tld_char tld = true.
Proof.
  destruct v as [| |e| |];
    try (simpl; split;
         [discriminate | intros (? & ? & ? & ? & E & _); discriminate E]).
  rewrite validate_email_fullmatch, fullmatch_matches, email_pattern_matches.
  split.
  - intros (l & d & t & H). now exists e, l, d, t.
  - intros (e' & l & d & t & E & H). injection E as <-. now exists l, d, t.
Qed.

End EmailShape.

(* ===================================================================== *)
(** * More on the field validators *)
(* ===================================================================== *)

Section ValidatorNormalForms.
Import Py Cleaner.

Lemma kept_not_space (c : ascii) :
  (is_decimal c || Ascii.eqb c "+"%char) = true -> isspace c = false.
Proof. destruct c as [[] [] [] [] [] [] [] []]; (reflexivity || discriminate). Qed.

Lemma rstrip_no_space (s : string) :
  all_chars (fun c => negb (isspace c)) s = true -> rstrip s = s.
Proof.
  induction s as [|c s IH]; simpl; [reflexivity|].
  intros H. apply andb_prop in H as [Hc Hs]. rewrite (IH Hs).
  apply negb_true_iff in Hc. rewrite Hc. now destruct s.
Qed.

Lemma lstrip_no_space (s : string) :
  all_chars (fun c => negb (isspace c)) s = true -> lstrip s = s.
Proof.
  destruct s as [|c s]; simpl; [reflexivity|].
  intros H. apply andb_prop in H as [Hc _].
  apply negb_true_iff in Hc. now rewrite Hc.
Qed.

Lemma strip_no_space (s : string) :
  all_chars (fun c => negb (isspace c)) s = true -> strip s = s.
Proof.
  intros H. unfold strip. now rewrite (lstrip_no_space s H), rstrip_no_space.
Qed.

Lemma all_chars_impl (p q : ascii -> bool) (s : string) :
  (forall c, p c = true -> q c = true) ->
  all_chars p s = true -> all_chars q s = true.
Proof.
  intros Hpq. induction s as [|c s IH]; simpl; [reflexivity|].
  intros H. apply andb_prop in H as [Hc Hs]. now rewrite (Hpq c Hc), IH.
Qed.

(** X2. What [normalize_phone] returns is a phone in normal form: the
    validator accepts it and normalizing it again changes nothing. *)
Theorem normalize_phone_round_trip (v : pyval) (p : string) :
  normalize_phone v = Some p ->
  validate_phone (PStr p) = true /\ normalize_phone (PStr p) = Some p.
Proof.
  destruct v as [| |s| |]; simpl; try discriminate.
  set (k := keep_digits_plus (strip s)).
  destruct (isdigit (drop_leading_plus k) && _ && _) eqn:T; [|discriminate].
  intros E. injection E as <-.
  assert (Hs : strip k = k).
  { apply strip_no_space.
    apply (all_chars_impl (fun c => is_decimal c || Ascii.eqb c "+"%char)).
    - intros c Hc. now rewrite (kept_not_space c Hc).
    - apply keep_digits_plus_all. }
  assert (Hk : keep_digits_plus (strip k) = k).
  { rewrite Hs. apply filter_chars_all. apply keep_digits_plus_all. }
  rewrite Hk, T. split; reflexivity.
Qed.

Lemma normalize_phone_round_trip_witness :
  normalize_phone (PStr " +1 (555) 010-0001 ") = Some "+15550100001"
  /\ validate_phone (PStr "+15550100001") = true
  /\ normalize_phone (PStr "+15550100001") = Some "+15550100001".
Proof.
  split; [reflexivity|].
  apply (normalize_phone_round_trip (PStr " +1 (555) 010-0001 ")).
  reflexivity.
Defined.

(** X3. What [clean_text] returns is not empty and is trimmed, and cleaning
    it again changes nothing; a text of whitespace only, like a value
    that is not a string, becomes absent. *)
Theorem clean_text_normal_form (v : pyval) :
  (forall t, clean_text v = Some t ->
             t <> "" /\ strip t = t /\ clean_text (PStr t) = Some t)
  /\ (clean_text v = None <->
      forall s, v = PStr s -> strip s = "").
Proof.
  split.
  - intros t. destruct v as [| |s| |]; simpl; try discriminate.
    destruct (strip s) as [|c r] eqn:E; [discriminate|].
    intros H. injection H as <-. rewrite <- E, strip_idem, E.
    repeat split. discriminate.
  - destruct v as [| |s| |]; simpl;
      try (split; [intros _ s' E; discriminate E | reflexivity]).
    destruct (strip s) as [|c r] eqn:E.
    + split; [|reflexivity]. intros _ s' E'. injection E' as <-. exact E.
    + split; [discriminate|]. intros H. specialize (H s eq_refl).
      congruence.
Qed.

End ValidatorNormalForms.

Section NumericFacts.
Import Py Cleaner.
Context {rt : PyRuntime}.

Lemma replace_char_empty (old : ascii) (s : string) :
  replace_char old "" s = filter_chars (fun c => negb (Ascii.eqb c old)) s.
Proof.
  induction s as [|c s IH]; simpl; [reflexivity|].
  destruct (Ascii.eqb c old); simpl; now rewrite IH.
Qed.

Lemma filter_chars_twice (p q : ascii -> bool) (s : string) :
  filter_chars p (filter_chars q s) = filter_chars (fun c => q c && p c) s.
Proof.
  induction s as [|c s IH]; simpl; [reflexivity|].
  destruct (q c); simpl; [destruct (p c)|]; now rewrite IH.
Qed.

Lemma filter_chars_idem (p : ascii -> bool) (s : string) :
  filter_chars p (filter_chars p s) = filter_chars p s.
Proof. apply filter_chars_all, all_chars_filter. Qed.

(** X4. A salary that comes out of [clean_numeric] is a number that is not
    negative, and the value it came from was not missing. *)
Theorem clean_numeric_nonnegative (v : pyval) (q : Q) :
  clean_numeric v = Some q -> (0 <= q)%Q /\ isna v = false.
Proof.
  unfold clean_numeric. destruct (isna v) eqn:En; [discriminate|].
  destruct (py_float _) as [| |x]; try discriminate.
  destruct (Qle_bool 0 x) eqn:E; [|discriminate].
  intros H. injection H as <-. split; [|reflexivity].
  now apply Qle_bool_iff.
Qed.

(** X5. Commas and dollar signs are removed wherever they stand in a salary
    text: the text and the text without them are cleaned alike. *)
Theorem clean_numeric_ignores_separators (s : string) :
  clean_numeric (PStr s)
  = clean_numeric
      (PStr (filter_chars
               (fun c => negb (Ascii.eqb c ","%char)
                         && negb (Ascii.eqb c "$"%char)) s)).
Proof.
  unfold clean_numeric. cbn [isna].
  rewrite !replace_char_empty, !filter_chars_twice.
  set (sep := fun c => negb (Ascii.eqb c ","%char) && negb (Ascii.eqb c "$"%char)).
  assert (E : filter_chars (fun c => sep c && sep c) s = filter_chars sep s)
    by (rewrite <- filter_chars_twice; apply filter_chars_idem).
  unfold sep in E. now rewrite E.
Qed.

End NumericFacts.

(* ===================================================================== *)
(** * The errors of the row cleaner *)
(* ===================================================================== *)

Section SetFacts.
Import Py.

Lemma mem_In (x : string) (l : list string) : mem x l = true <-> In x l.
Proof.
  unfold mem. rewrite existsb_exists. split.
  - intros (y & Hy & E). apply String.eqb_eq in E. now subst.
  - intros H. exists x. split; [exact H | apply String.eqb_refl].
Qed.

Lemma mem_false (x : string) (l : list string) : mem x l = false <-> ~ In x l.
Proof.
  rewrite <- mem_In. destruct (mem x l); split; congruence.
Qed.

Lemma set_diff_In (a b : list string) (x : string) :
  In x (set_diff a b) <-> In x a /\ ~ In x b.
Proof.
  unfold set_diff. rewrite nodup_In, filter_In, negb_true_iff, mem_false.
  reflexivity.
Qed.

Lemma set_diff_NoDup (a b : list string) : NoDup (set_diff a b).
Proof. apply NoDup_nodup. Qed.

Lemma insert_sorted_In (x y : string) (l : list string) :
  In y (insert_sorted x l) <-> y = x \/ In y l.
Proof.
  induction l as [|z l IH]; simpl; [intuition|].
  destruct (String.leb x z); simpl; [intuition|].
  rewrite IH. intuition.
Qed.

Lemma sorted_In (x : string) (l : list string) : In x (sorted l) <-> In x l.
Proof.
  induction l as [|y l IH]; simpl; [reflexivity|].
  rewrite insert_sorted_In, IH. intuition.
Qed.

Lemma length_insert_sorted (x : string) (l : list string) :
  List.length (insert_sorted x l) = S (List.length l).
Proof.
  induction l as [|z l IH]; simpl; [reflexivity|].
  destruct (String.leb x z); simpl; [reflexivity | now rewrite IH].
Qed.

Lemma length_sorted (l : list string) :
  List.length (sorted l) = List.length l.
Proof.
  induction l as [|y l IH]; simpl; [reflexivity|].
  now rewrite length_insert_sorted, IH.
Qed.

Lemma compare_refl (x : string) : String.compare x x = Eq.
Proof.
  induction x as [|a x IH]; simpl; [reflexivity|].
  unfold Ascii.compare. now rewrite N.compare_refl.
Qed.

Lemma compare_lt_trans (x y z : string) :
  String.compare x y = Lt -> String.compare y z = Lt ->
  String.compare x z = Lt.
Proof.
  revert y z. induction x as [|a x IH]; intros [|b y] [|c z];
    simpl; try discriminate; try reflexivity.
  destruct (Ascii.compare a b) eqn:Cab; try discriminate;
    destruct (Ascii.compare b c) eqn:Cbc; try discriminate; intros E1 E2.
  - apply Ascii.compare_eq_iff in Cab, Cbc. subst b c.
    unfold Ascii.compare. rewrite N.compare_refl. eapply IH; eauto.
  - apply Ascii.compare_eq_iff in Cab. subst b. now rewrite Cbc.
  - apply Ascii.compare_eq_iff in Cbc. subst c. now rewrite Cab.
  - unfold Ascii.compare in *. rewrite N.compare_lt_iff in Cab, Cbc.
    assert (H : (N_of_ascii a < N_of_ascii c)%N) by lia.
    apply N.compare_lt_iff in H. now rewrite H.
Qed.

Lemma leb_trans (x y z : string) :
  String.leb x y = true -> String.leb y z = true -> String.leb x z = true.
Proof.
  unfold String.leb. intros Hxy Hyz.
  destruct (String.compare x y) eqn:E1; try discriminate;
    destruct (String.compare y z) eqn:E2; try discriminate.
  - apply String.compare_eq_iff in E1, E2. subst y z.
    now rewrite compare_refl.
  - apply String.compare_eq_iff in E1. subst y. now rewrite E2.
  - apply String.compare_eq_iff in E2. subst z. now rewrite E1.
  - now rewrite (compare_lt_trans x y z E1 E2).
Qed.

Lemma insert_sorted_Sorted (x : string) (l : list string) :
  StronglySorted (fun a b => String.leb a b = true) l ->
  StronglySorted (fun a b => String.leb a b = true) (insert_sorted x l).
Proof.
  induction 1 as [|z l Hl IH Hz]; simpl.
  - repeat constructor.
  - destruct (String.leb x z) eqn:E.
    + constructor; [now constructor|].
      constructor; [exact E|].
      rewrite Forall_forall in *. intros y Hy.
      apply (leb_trans x z y E). now apply Hz.
    + constructor; [exact IH|].
      rewrite Forall_forall in *. intros y Hy.
      apply insert_sorted_In in Hy as [->|Hy]; [|now apply Hz].
      destruct (String.leb_total x z) as [H|H]; congruence.
Qed.

Lemma sorted_Sorted (l : list string) :
  StronglySorted (fun a b => String.leb a b = true) (sorted l).
Proof.
  induction l as [|y l IH]; simpl; [constructor|].
  now apply insert_sorted_Sorted.
Qed.

End SetFacts.

(** Closes a goal saying that a column is still there after assignments. *)
Ltac present :=
  first [assumption | rewrite columns_assign_applied; present].

Section CleanerErrors.
Import Py Pandas Cleaner Spec CleanerSpec.
Context {rt : PyRuntime}.

Lemma insert_sorted_NoDup (x : string) (l : list string) :
  ~ In x l -> NoDup l -> NoDup (insert_sorted x l).
Proof.
  induction l as [|z l IH]; simpl; intros Hx Hl.
  - constructor; [tauto | constructor].
  - destruct (String.leb x z).
    + constructor; [exact Hx | exact Hl].
    + inversion Hl as [|z' l' Hz Hl']; subst.
      constructor; [|apply IH; tauto].
      rewrite insert_sorted_In. intros [->|H]; tauto.
Qed.

Lemma sorted_NoDup (l : list string) : NoDup l -> NoDup (sorted l).
Proof.
  induction 1 as [|x l Hx Hl IH]; simpl; [constructor|].
  apply insert_sorted_NoDup; [now rewrite sorted_In | exact IH].
Qed.

Lemma getitem_absent (d : DataFrame) (c : string) :
  mem c (columns d) = false -> getitem d c = Raise (Exn KeyError (repr_str c)).
Proof.
  rewrite mem_columns. unfold getitem.
  induction (series d) as [|s l IH]; simpl; [reflexivity|].
  destruct (String.eqb (name s) c); [discriminate | exact IH].
Qed.

(** X6. On a table with rows and columns that lacks a required column,
    [clean_data] raises a cleaning error, as it is and not wrapped, whose
    text lists the required columns the table lacks once its column names
    are normalized: each of them once, in sorted order, and no other. *)
Theorem clean_data_missing_required (df : DataFrame) (flag : bool)
    (rc : option (list string)) :
  empty df = false ->
  set_diff (required_or_default rc) (columns (normalize_columns df)) <> [] ->
  exists missing,
    clean_data df flag rc
    = Raise (Exn CleaningError
               ("Missing required columns: " ++ repr_list missing))
    /\ missing <> []
    /\ NoDup missing
    /\ StronglySorted (fun a b => String.leb a b = true) missing
    /\ forall c, In c missing <->
                 In c (required_or_default rc)
                 /\ ~ In c (columns (normalize_columns df)).
Proof.
  intros He Hm.
  set (missing := sorted (set_diff (required_or_default rc)
                                   (columns (normalize_columns df)))).
  assert (Hne : missing <> []).
  { intros E. apply sorted_nil in E. contradiction. }
  exists missing. split; [|split; [exact Hne|split; [|split]]].
  - unfold clean_data. rewrite He. fold missing.
    destruct missing; [congruence | reflexivity].
  - apply sorted_NoDup, set_diff_NoDup.
  - apply sorted_Sorted.
  - intros c. unfold missing. now rewrite sorted_In, set_diff_In.
Qed.


End CleanerErrors.

(* ===================================================================== *)
(** * The cells of the cleaned table *)
(* ===================================================================== *)

Section CleanedCells.
Import Py Pandas Cleaner Spec CleanerSpec.
Context {rt : PyRuntime}.

Lemma getitem_setitem_same (d : DataFrame) (c : string) (dt : dtype)
    (v : list pyval) :
  mem c (columns d) = true ->
  getitem (setitem d c dt v) c = Ok (mkSeries c dt v).
Proof.
  intros H. unfold setitem. rewrite H. rewrite mem_columns in H.
  unfold getitem. cbn [series].
  induction (series d) as [|s l IH]; simpl in *; [discriminate|].
  destruct (String.eqb (name s) c) eqn:E.
  - cbn [name]. now rewrite String.eqb_refl.
  - rewrite E. apply IH. exact H.
Qed.

Lemma getitem_assign_same {A : Type} (d : DataFrame) (c : string)
    (inj : A -> pyval) (l : list (option A)) :
  mem c (columns d) = true ->
  exists dt, getitem (assign_applied d c inj l) c
             = Ok (mkSeries c dt (map (cell_of inj) l)).
Proof.
  intros H. eexists. unfold assign_applied. now apply getitem_setitem_same.
Qed.

(** The loop over the optional columns, column by column. *)
Lemma clean_optional_spec (cols : list string) (d : DataFrame) :
  NoDup cols ->
  exists d',
    clean_optional cols d = Ok d'
    /\ index d' = index d
    /\ columns d' = columns d
    /\ forall c,
         (mem c cols = false -> getitem d' c = getitem d c)
         /\ (mem c cols = true -> forall s, getitem d c = Ok s ->
             exists dt, getitem d' c
                        = Ok (mkSeries c dt
                                (map (cell_of PStr) (apply clean_text s)))).
Proof.
  intros Hnd. revert d. induction Hnd as [|col rest Hcol Hrest IH]; intros d.
  - exists d. repeat split; try reflexivity. discriminate.
  - cbn [clean_optional].
    assert (Hmem : forall c, mem c (col :: rest)
                             = String.eqb c col || mem c rest)
      by reflexivity.
    apply mem_false in Hcol.
    destruct (mem col (columns d)) eqn:E.
    + destruct (mem_getitem col d E) as (s0 & Hs0 & _). rewrite Hs0.
      cbn [bind].
      destruct (IH (assign_applied d col PStr (apply clean_text s0)))
        as (d' & H1 & H2 & H3 & H4).
      exists d'. split; [exact H1|].
      split; [now rewrite H2, index_assign_applied|].
      split; [now rewrite H3, columns_assign_applied|].
      intros c. rewrite Hmem. destruct (String.eqb c col) eqn:Ec.
      * apply String.eqb_eq in Ec. subst c. split; [discriminate|].
        intros _ s Hs. rewrite (proj1 (H4 col) Hcol).
        assert (s = s0) by congruence. subst s.
        now apply getitem_assign_same.
      * apply String.eqb_neq in Ec. cbn [orb].
        destruct (H4 c) as [H4a H4b].
        rewrite getitem_assign_other in H4a, H4b by auto.
        split; [exact H4a | exact H4b].
    + destruct (IH d) as (d' & H1 & H2 & H3 & H4).
      exists d'. repeat split; try assumption.
      * rewrite Hmem. intros Hc. apply orb_false_iff in Hc as [_ Hc].
        now apply H4.
      * rewrite Hmem. destruct (String.eqb c col) eqn:Ec.
        -- apply String.eqb_eq in Ec. subst c. intros _ s Hs.
           rewrite (getitem_absent d col E) in Hs. discriminate.
        -- cbn [orb]. now apply H4.
Qed.

Lemma kept_map_seq (q : nat -> bool) (n : nat) :
  kept (map q (seq 0 n)) = filter q (seq 0 n).
Proof.
  unfold kept. rewrite length_map, length_seq.
  apply filter_ext_in. intros i Hi. apply in_seq in Hi.
  rewrite (nth_indep _ false (q 0)) by (rewrite length_map, length_seq; lia).
  rewrite (map_nth q). now rewrite seq_nth by lia.
Qed.

Lemma NoDup_OPTIONAL_COLUMNS : NoDup OPTIONAL_COLUMNS.
Proof.
  change OPTIONAL_COLUMNS with (nodup string_dec OPTIONAL_COLUMNS).
  apply NoDup_nodup.
Qed.

(** [clean_data], up to the loop over the optional columns. *)
Lemma clean_data_unfold (df : DataFrame) (flag : bool)
    (rc : option (list string)) :
  empty df = false ->
  aligned df ->
  sorted (set_diff (required_or_default rc) (columns (normalize_columns df)))
  = [] ->
  (forall c, In c validated_columns ->
             mem c (columns (normalize_columns df)) = true) ->
  let d1 := deduplicated flag df in
  exists e p s t,
    getitem d1 "email" = Ok e /\ getitem d1 "phone" = Ok p
    /\ getitem d1 "salary" = Ok s /\ getitem d1 "date_joined" = Ok t
    /\ forall out,
         clean_optional OPTIONAL_COLUMNS
           (loc (map (fun i => negb (row_invalid d1 i)) (seq 0 (len d1)))
                (assign_applied
                   (assign_applied
                      (assign_applied
                         (assign_applied d1 "email" PStr (apply fix_email e))
                         "phone" PStr (apply normalize_phone p))
                      "salary" PNum (apply clean_numeric s))
                   "date_joined" PTimestamp (apply clean_date t)))
         = Ok out ->
         exists rep, clean_data df flag rc = Ok (out, rep).
Proof.
  intros He Ha Hmiss Hcols d1.
  assert (Ha1 : aligned d1) by now apply aligned_deduplicated.
  assert (Hm : forall c, In c validated_columns -> mem c (columns d1) = true).
  { intros c Hc. unfold d1. rewrite columns_deduplicated. now apply Hcols. }
  assert (M1 : mem "email" (columns d1) = true) by (apply Hm; simpl; tauto).
  assert (M2 : mem "phone" (columns d1) = true) by (apply Hm; simpl; tauto).
  assert (M3 : mem "salary" (columns d1) = true) by (apply Hm; simpl; tauto).
  assert (M4 : mem "date_joined" (columns d1) = true)
    by (apply Hm; simpl; tauto).
  destruct (mem_getitem "email" d1 M1) as (e & He1 & _).
  destruct (mem_getitem "phone" d1 M2) as (p & Hp1 & _).
  destruct (mem_getitem "salary" d1 M3) as (s & Hs1 & _).
  destruct (mem_getitem "date_joined" d1 M4) as (t & Ht1 & _).
  exists e, p, s, t. repeat (split; [assumption|]).
  intros out Hout.
  unfold clean_data. rewrite He, Hmiss. cbv zeta.
  change (if flag then drop_duplicates (normalize_columns df)
          else normalize_columns df) with d1.
  rewrite He1. cbn [bind].
  rewrite getitem_assign_other, Hp1 by (discriminate || present).
  cbn [bind].
  rewrite !getitem_assign_other, Hs1 by (discriminate || present).
  cbn [bind].
  rewrite !getitem_assign_other, Ht1 by (discriminate || present).
  cbn [bind].
  rewrite (column_mask fix_email d1 "email" e Ha1 He1).
  rewrite (column_mask normalize_phone d1 "phone" p Ha1 Hp1).
  rewrite (column_mask clean_numeric d1 "salary" s Ha1 Hs1).
  rewrite (column_mask clean_date d1 "date_joined" t Ha1 Ht1).
  assert (EM : mask_not
                 (mask_or
                    (mask_or
                       (mask_or
                          (mask_or (repeat false (len d1))
                             (map (fun i => is_none (fix_email (cell d1 "email" i)))
                                  (seq 0 (len d1))))
                          (map (fun i => is_none (normalize_phone (cell d1 "phone" i)))
                               (seq 0 (len d1))))
                       (map (fun i => is_none (clean_numeric (cell d1 "salary" i)))
                            (seq 0 (len d1))))
                    (map (fun i => is_none (clean_date (cell d1 "date_joined" i)))
                         (seq 0 (len d1))))
               = map (fun i => negb (row_invalid d1 i)) (seq 0 (len d1))).
  { unfold mask_not.
    rewrite <- (length_seq (len d1) 0) at 1.
    rewrite (repeat_false_map (seq 0 (len d1))).
    rewrite !mask_or_map, map_map. reflexivity. }
  rewrite EM, Hout. cbn [bind except_cleaning]. eexists. reflexivity.
Qed.

Lemma nth_map_lt {A B : Type} (f : A -> B) (l : list A) (d : A) (d' : B)
    (i : nat) :
  i < List.length l -> nth i (map f l) d' = f (nth i l d).
Proof.
  intros Hi. rewrite (nth_indep _ d' (f d)) by now rewrite length_map.
  apply map_nth.
Qed.

Lemma optional_not_validated (c : string) :
  mem c OPTIONAL_COLUMNS = true ->
  String.eqb c "email" = false /\ String.eqb c "phone" = false
  /\ String.eqb c "salary" = false /\ String.eqb c "date_joined" = false.
Proof.
  intros H. apply mem_In in H. unfold OPTIONAL_COLUMNS in H. simpl in H.
  repeat (destruct H as [<-|H]; [repeat split; reflexivity|]).
  destruct H.
Qed.

(** The four validated columns after the four assignments, and the
    other columns, which the assignments leave alone. *)
Lemma validated_cells (d1 : DataFrame) (e p s t : Series) :
  aligned d1 ->
  getitem d1 "email" = Ok e -> getitem d1 "phone" = Ok p ->
  getitem d1 "salary" = Ok s -> getitem d1 "date_joined" = Ok t ->
  forall c, mem c (columns d1) = true ->
  exists s4,
    getitem
      (assign_applied
         (assign_applied
            (assign_applied
               (assign_applied d1 "email" PStr (apply fix_email e))
               "phone" PStr (apply normalize_phone p))
            "salary" PNum (apply clean_numeric s))
         "date_joined" PTimestamp (apply clean_date t)) c = Ok s4
    /\ List.length (cells s4) = len d1
    /\ forall i, i < len d1 ->
         nth i (cells s4) PNone =
         if String.eqb c "email" then cell_of PStr (fix_email (cell d1 c i))
         else if String.eqb c "phone"
         then cell_of PStr (normalize_phone (cell d1 c i))
         else if String.eqb c "salary"
         then cell_of PNum (clean_numeric (cell d1 c i))
         else if String.eqb c "date_joined"
         then cell_of PTimestamp (clean_date (cell d1 c i))
         else cell d1 c i.
Proof.
  intros Ha He Hp Hs Ht c Hc.
  pose proof (proj1 (getitem_mem _ _ _ He)) as M1.
  pose proof (proj1 (getitem_mem _ _ _ Hp)) as M2.
  pose proof (proj1 (getitem_mem _ _ _ Hs)) as M3.
  pose proof (proj1 (getitem_mem _ _ _ Ht)) as M4.
  pose proof (aligned_getitem _ _ _ Ha He) as Le.
  pose proof (aligned_getitem _ _ _ Ha Hp) as Lp.
  pose proof (aligned_getitem _ _ _ Ha Hs) as Ls.
  pose proof (aligned_getitem _ _ _ Ha Ht) as Lt.
  destruct (String.eqb c "email") eqn:E1.
  { apply String.eqb_eq in E1. subst c.
    rewrite !getitem_assign_other by (discriminate || present).
    destruct (getitem_assign_same d1 "email" PStr (apply fix_email e) M1)
      as (dt & ->).
    eexists. split; [reflexivity|]. cbn [cells]. unfold apply.
    split; [now rewrite !length_map|].
    intros i Hi. rewrite map_map.
    rewrite (nth_map_lt _ _ PNone) by lia.
    unfold cell. now rewrite He. }
  destruct (String.eqb c "phone") eqn:E2.
  { apply String.eqb_eq in E2. subst c.
    rewrite !getitem_assign_other by (discriminate || present).
    destruct (getitem_assign_same
                (assign_applied d1 "email" PStr (apply fix_email e))
                "phone" PStr (apply normalize_phone p)) as (dt & ->);
      [present|].
    eexists. split; [reflexivity|]. cbn [cells]. unfold apply.
    split; [now rewrite !length_map|].
    intros i Hi. rewrite map_map.
    rewrite (nth_map_lt _ _ PNone) by lia.
    unfold cell. now rewrite Hp. }
  destruct (String.eqb c "salary") eqn:E3.
  { apply String.eqb_eq in E3. subst c.
    rewrite !getitem_assign_other by (discriminate || present).
    destruct (getitem_assign_same
                (assign_applied
                   (assign_applied d1 "email" PStr (apply fix_email e))
                   "phone" PStr (apply normalize_phone p))
                "salary" PNum (apply clean_numeric s)) as (dt & ->);
      [present|].
    eexists. split; [reflexivity|]. cbn [cells]. unfold apply.
    split; [now rewrite !length_map|].
    intros i Hi. rewrite map_map.
    rewrite (nth_map_lt _ _ PNone) by lia.
    unfold cell. now rewrite Hs. }
  destruct (String.eqb c "date_joined") eqn:E4.
  { apply String.eqb_eq in E4. subst c.
    destruct (getitem_assign_same
                (assign_applied
                   (assign_applied
                      (assign_applied d1 "email" PStr (apply fix_email e))
                      "phone" PStr (apply normalize_phone p))
                   "salary" PNum (apply clean_numeric s))
                "date_joined" PTimestamp (apply clean_date t)) as (dt & ->);
      [present|].
    eexists. split; [reflexivity|]. cbn [cells]. unfold apply.
    split; [now rewrite !length_map|].
    intros i Hi. rewrite map_map.
    rewrite (nth_map_lt _ _ PNone) by lia.
    unfold cell. now rewrite Ht. }
  apply String.eqb_neq in E1, E2, E3, E4.
  rewrite !getitem_assign_other by (congruence || present).
  destruct (mem_getitem c d1 Hc) as (s0 & Hs0 & _).
  exists s0. split; [exact Hs0|].
  split; [exact (aligned_getitem _ _ _ Ha Hs0)|].
  intros i _. unfold cell. now rewrite Hs0.
Qed.

(** The cleaned table, cell by cell. *)
Lemma clean_data_cells (df : DataFrame) (flag : bool)
    (rc : option (list string)) :
  empty df = false ->
  aligned df ->
  sorted (set_diff (required_or_default rc) (columns (normalize_columns df)))
  = [] ->
  (forall c, In c validated_columns ->
             mem c (columns (normalize_columns df)) = true) ->
  let d1 := deduplicated flag df in
  exists out rep,
    clean_data df flag rc = Ok (out, rep)
    /\ index out = map (fun i => nth i (index d1) 0) (valid_positions d1)
    /\ columns out = columns d1
    /\ forall c k, mem c (columns d1) = true -> k < len out ->
         cell out c k
         = clean_cell c (cell d1 c (nth k (valid_positions d1) 0)).
Proof.
  intros He Ha Hmiss Hcols d1.
  destruct (clean_data_unfold df flag rc He Ha Hmiss Hcols)
    as (e & p & s & t & He1 & Hp1 & Hs1 & Ht1 & Hrun).
  fold d1 in He1, Hp1, Hs1, Ht1, Hrun.
  assert (Ha1 : aligned d1) by now apply aligned_deduplicated.
  set (d4 := assign_applied
               (assign_applied
                  (assign_applied
                     (assign_applied d1 "email" PStr (apply fix_email e))
                     "phone" PStr (apply normalize_phone p))
                  "salary" PNum (apply clean_numeric s))
               "date_joined" PTimestamp (apply clean_date t)) in *.
  set (M := map (fun i => negb (row_invalid d1 i)) (seq 0 (len d1))) in *.
  assert (LM : List.length M = len d1)
    by (unfold M; now rewrite length_map, length_seq).
  assert (KM : kept M = valid_positions d1) by apply kept_map_seq.
  destruct (clean_optional_spec OPTIONAL_COLUMNS (loc M d4)
              NoDup_OPTIONAL_COLUMNS) as (out & Hout & Hidx & Hcol & Hget).
  destruct (Hrun out Hout) as (rep & Hrep).
  pose proof (proj1 (getitem_mem _ _ _ He1)) as M1.
  pose proof (proj1 (getitem_mem _ _ _ Hp1)) as M2.
  pose proof (proj1 (getitem_mem _ _ _ Hs1)) as M3.
  pose proof (proj1 (getitem_mem _ _ _ Ht1)) as M4.
  assert (Ei : index out = map (fun i => nth i (index d1) 0)
                               (valid_positions d1)).
  { rewrite Hidx. unfold loc. cbn [index]. unfold d4.
    rewrite !index_assign_applied. rewrite <- KM. now apply select_kept. }
  exists out, rep. split; [exact Hrep|]. split; [exact Ei|]. split.
  { rewrite Hcol, columns_loc. unfold d4.
    now rewrite !columns_assign_applied by present. }
  intros c k Hc Hk. unfold len in Hk. rewrite Ei, length_map in Hk.
  assert (Hpos : nth k (valid_positions d1) 0 < len d1).
  { assert (Hin : In (nth k (valid_positions d1) 0) (valid_positions d1))
      by now apply nth_In.
    set (v := nth k (valid_positions d1) 0) in *.
    unfold valid_positions in Hin. apply filter_In in Hin as [Hin _].
    apply in_seq in Hin. lia. }
  destruct (validated_cells d1 e p s t Ha1 He1 Hp1 Hs1 Ht1 c Hc)
    as (s4 & Hs4 & Ls4 & Hcells).
  fold d4 in Hs4.
  assert (HL : getitem (loc M d4) c
               = Ok (mkSeries (name s4) (dtype_of s4)
                       (map (fun i => nth i (cells s4) PNone)
                            (valid_positions d1)))).
  { rewrite getitem_loc, Hs4. rewrite <- KM.
    now rewrite (select_kept M (cells s4) PNone) by congruence. }
  unfold clean_cell. destruct (mem c OPTIONAL_COLUMNS) eqn:Eo.
  - destruct (optional_not_validated c Eo) as (E1 & E2 & E3 & E4).
    rewrite E1, E2, E3, E4 in *.
    destruct (proj2 (Hget c) Eo _ HL) as (dt & Hg).
    unfold cell at 1. rewrite Hg. unfold apply. cbn [cells]. rewrite map_map.
    rewrite (nth_map_lt _ _ PNone) by now rewrite length_map.
    rewrite (nth_map_lt _ _ 0) by exact Hk.
    now rewrite Hcells.
  - unfold cell at 1. rewrite (proj1 (Hget c) Eo), HL.
    cbn [cells]. rewrite (nth_map_lt _ _ 0) by exact Hk.
    rewrite Hcells by exact Hpos.
    destruct (String.eqb c "email"); [reflexivity|].
    destruct (String.eqb c "phone"); [reflexivity|].
    destruct (String.eqb c "salary"); [reflexivity|].
    destruct (String.eqb c "date_joined"); reflexivity.
Qed.



End CleanedCells.

(* ===================================================================== *)
(** * The counts of the cleaning report *)
(* ===================================================================== *)

Section ReportCounts.
Import Py Pandas Cleaner Spec CleanerSpec.
Context {rt : PyRuntime}.






(** X13. Whatever the arguments, a report that [clean_data] returns has no
    more final rows than original rows and no more original rows than
    the table has, and its list of missing required columns is empty:
    when columns are missing the function raises and returns no report.
    For a table with at least one column the two counts are the numbers
    of rows of the returned table and of the table. *)
Theorem returned_report_rows (df : DataFrame) (flag : bool)
    (rc : option (list string)) (out : DataFrame) (rep : CleaningReport) :
  clean_data df flag rc = Ok (out, rep) ->
  final_rows rep <= original_rows rep
  /\ original_rows rep <= len df
  /\ missing_required_columns rep = []
  /\ (series df <> [] ->
      original_rows rep = len df /\ final_rows rep = len out).
Proof.
  intros H. destruct (empty df) eqn:He.
  - unfold clean_data in H. rewrite He in H. injection H as <- <-.
    cbn. repeat split; try lia.
    + unfold empty in He. apply orb_true_iff in He as [He|He];
        apply Nat.eqb_eq in He; [congruence|].
      destruct (series df); [congruence | discriminate].
    + unfold empty in He. apply orb_true_iff in He as [He|He];
        apply Nat.eqb_eq in He; [congruence|].
      destruct (series df); [congruence | discriminate].
  - destruct (clean_data_report_rows df flag rc out rep He H)
      as (Ho & Hf & Hle).
    rewrite Ho, Hf. repeat split; try lia.
    unfold clean_data in H. rewrite He in H.
    apply except_cleaning_ok in H.
    destruct (sorted _) in H; [|discriminate]. cbv zeta in H.
    destruct (getitem _ "email") in H; [|discriminate]. cbn [bind] in H.
    destruct (getitem _ "phone") in H; [|discriminate]. cbn [bind] in H.
    destruct (getitem _ "salary") in H; [|discriminate]. cbn [bind] in H.
    destruct (getitem _ "date_joined") in H; [|discriminate].
    cbn [bind] in H.
    destruct (clean_optional _ _) in H; [|discriminate].
    cbn [bind] in H. injection H as <- <-. reflexivity.
Qed.

End ReportCounts.

(* ===================================================================== *)
(** * The metadata and statistics of the analysis *)
(* ===================================================================== *)

Section AnalysisContents.
Import Py Pandas Analyzer Spec.
Context {rt : PyRuntime}.

(** What a returned analysis of a table with rows and columns holds. *)
Lemma analyze_data_ok_inv (df : DataFrame) (nc : option (list string))
    (r : Analysis) :
  empty df = false ->
  analyze_data df nc = Ok r ->
  let numeric_df := numeric_frame df nc in
  missing_numeric df nc = []
  /\ meta r = Some (mkMeta (len df) (List.length (columns df))
                           (columns numeric_df) (isna_counts df) "1.0")
  /\ statistics r
     = (if (List.length (series numeric_df) =? 0)%nat then None
        else Some (mkStatistics (aggregate_dict Mean numeric_df)
                                (aggregate_dict Min numeric_df)
                                (aggregate_dict Max numeric_df)
                                (aggregate_dict Sum numeric_df))).
Proof.
  intros He Hr. cbv zeta.
  destruct (missing_numeric df nc) as [|x xs] eqn:Em.
  - rewrite (analyze_data_nonempty df nc He Em) in Hr. injection Hr as <-.
    split; [reflexivity|].
    destruct (_ =? 0)%nat; [|destruct (_ && _)]; split; reflexivity.
  - rewrite (analyze_data_missing_allowlist df nc He) in Hr by congruence.
    discriminate.
Qed.


Lemma numeric_frame_series (df : DataFrame) (nc : option (list string))
    (s : Series) :
  In s (series (numeric_frame df nc)) <->
  In s (series df) /\ is_number_dtype (dtype_of s) = true
  /\ match nc with
     | Some (x :: l) => In (name s) (x :: l)
     | _ => True
     end.
Proof.
  unfold numeric_frame, select_dtypes_number, getitems.
  destruct nc as [[|x l]|]; cbn [series]; rewrite filter_In.
  - tauto.
  - rewrite in_flat_map. split.
    + intros [(c & Hc & Hs) Hd]. apply filter_In in Hs as [Hs E].
      apply String.eqb_eq in E. subst c. auto.
    + intros (Hs & Hd & Hc). split; [|exact Hd].
      exists (name s). split; [exact Hc|].
      apply filter_In. split; [exact Hs | apply String.eqb_refl].
  - tauto.
Qed.

(** X15. The numeric columns a returned analysis lists are the columns of the
    table of an integer or float dtype, restricted to the allowlist when
    a non-empty one is given; an empty allowlist restricts nothing. *)
Theorem numeric_columns_listed (df : DataFrame) (nc : option (list string))
    (r : Analysis) :
  empty df = false ->
  analyze_data df nc = Ok r ->
  exists m,
    meta r = Some m
    /\ forall c,
         In c (numeric_columns m) <->
         (exists s, In s (series df) /\ name s = c
                    /\ is_number_dtype (dtype_of s) = true)
         /\ match nc with
            | Some (x :: l) => In c (x :: l)
            | _ => True
            end.
Proof.
  intros He Hr.
  destruct (analyze_data_ok_inv df nc r He Hr) as (_ & Hm & _).
  eexists. split; [exact Hm|]. cbn [numeric_columns]. intros c.
  unfold columns. rewrite in_map_iff. split.
  - intros (s & <- & Hs). apply numeric_frame_series in Hs as (H1 & H2 & H3).
    split; [now exists s | exact H3].
  - intros [(s & Hs & <- & Hd) Hl]. exists s. split; [reflexivity|].
    apply numeric_frame_series. auto.
Qed.


End AnalysisContents.

(* ===================================================================== *)
(** * Subject line, environment and email errors *)
(* ===================================================================== *)

Section SubjectFacts.
Import Grader Main.
Open Scope Q_scope.


End SubjectFacts.

Section EnvironmentFacts.
Import Py Env Emailer Main.

Lemma filter_nil_iff {A : Type} (p : A -> bool) (l : list A) :
  filter p l = [] <-> forall x, In x l -> p x = false.
Proof.
  induction l as [|y l IH]; simpl; [tauto|].
  destruct (p y) eqn:E.
  - split; [discriminate|]. intros H. specialize (H y (or_introl eq_refl)).
    congruence.
  - rewrite IH. split.
    + intros H x [<-|Hx]; auto.
    + intros H x Hx. apply H. now right.
Qed.

Lemma validate_env_ok (env : environ) :
  validate_env env = Ok tt <->
  forall k, In k ["SMTP_SERVER"; "SMTP_PORT"; "SMTP_USER"; "SMTP_PASSWORD";
                  "RECIPIENT_EMAIL"; "DATA_FILE"] -> unset env k = false.
Proof.
  unfold validate_env. cbv zeta. rewrite <- filter_nil_iff.
  destruct (filter _ _); split; congruence.
Qed.

Lemma email_config_ok (env : environ) :
  _validate_email_config env = Ok tt <->
  forall k, In k REQUIRED_ENV_VARS -> unset env k = false.
Proof.
  unfold _validate_email_config. cbv zeta. rewrite <- filter_nil_iff.
  destruct (filter _ _); split; congruence.
Qed.

(** X18. The check of the environment at the start of a run does not cover
    the sender address: in an environment it accepts, the configuration
    check made when the email is sent passes exactly when [SENDER_EMAIL]
    is set and not empty, and otherwise fails naming that one variable. *)
Theorem env_check_leaves_sender (env : environ) :
  validate_env env = Ok tt ->
  (_validate_email_config env = Ok tt <-> unset env "SENDER_EMAIL" = false)
  /\ (unset env "SENDER_EMAIL" = true ->
      _validate_email_config env
      = Raise (Exn EmailError
                 "Missing email configuration variables: ['SENDER_EMAIL']")).
Proof.
  intros H. rewrite validate_env_ok in H.
  assert (H1 : unset env "SMTP_SERVER" = false) by (apply H; simpl; tauto).
  assert (H2 : unset env "SMTP_PORT" = false) by (apply H; simpl; tauto).
  assert (H3 : unset env "SMTP_USER" = false) by (apply H; simpl; tauto).
  assert (H4 : unset env "SMTP_PASSWORD" = false) by (apply H; simpl; tauto).
  split.
  - rewrite email_config_ok. unfold REQUIRED_ENV_VARS. split.
    + intros Hc. apply Hc. simpl. tauto.
    + intros Hs k Hk. simpl in Hk.
      repeat (destruct Hk as [<-|Hk]; [assumption|]). destruct Hk.
  - intros Hs. unfold _validate_email_config, REQUIRED_ENV_VARS.
    cbn [filter]. now rewrite H1, H2, H3, H4, Hs.
Qed.

End EnvironmentFacts.

Section EmailerFacts.
Import Py Env Emailer.
Variable env : environ.
Variable path_exists : string -> bool.
Variable st_size : string -> nat.
Variable read_bytes : string -> result unit.
Variable int_of_str : string -> option Z.
Variable smtp_session : Z -> string -> string -> string -> result unit.

Lemma except_email_class {A : Type} (body : result A) (e : exn) :
  except_email body = Raise e -> exn_cls e = EmailError.
Proof.
  destruct body as [a|x]; simpl; [discriminate|].
  destruct (exn_cls x) eqn:E; intros H; injection H as <-; auto.
Qed.

(** X19. Whatever the files, the port text and the SMTP session do, an
    exception that leaves [send_email] is an email error. *)
Theorem send_email_raises_email_error (recipient subject body : string)
    (attachment_path : option string) (attachment_required : bool) (e : exn) :
  send_email env path_exists st_size read_bytes int_of_str smtp_session
    recipient subject body attachment_path attachment_required = Raise e ->
  exn_cls e = EmailError.
Proof.
  unfold send_email.
  destruct (String.eqb recipient "" || negb (has_at recipient)).
  - intros H. injection H as <-. reflexivity.
  - unfold _validate_email_config.
    destruct (filter (unset env) REQUIRED_ENV_VARS); cbn [bind].
    + apply except_email_class.
    + intros H. injection H as <-. reflexivity.
Qed.

(** X20. The email errors raised while the message is built leave
    [send_email] as they are, not wrapped: with a valid recipient and a
    complete configuration, a missing attachment, an empty one and a
    required attachment that was not given are each reported by name,
    before any connection is made. *)
Theorem send_email_attachment_errors (recipient subject body : string)
    (attachment_path : option string) (attachment_required : bool) :
  String.eqb recipient "" || negb (has_at recipient) = false ->
  _validate_email_config env = Ok tt ->
  let run :=
    send_email env path_exists st_size read_bytes int_of_str smtp_session
      recipient subject body attachment_path attachment_required in
  match attachment_path with
  | Some (String c p) =>
      (path_exists (String c p) = false ->
       run = Raise (Exn EmailError ("Attachment not found: " ++ String c p)))
      /\ (path_exists (String c p) = true -> st_size (String c p) = 0 ->
          run = Raise (Exn EmailError ("Attachment is empty: " ++ String c p)))
  | _ =>
      attachment_required = true ->
      run = Raise (Exn EmailError "Attachment required but not provided.")
  end.
Proof.
  intros Hr Hc. cbv zeta. unfold send_email. rewrite Hr, Hc. cbn [bind].
  destruct attachment_path as [[|c p]|].
  - intros ->. reflexivity.
  - split.
    + intros ->. reflexivity.
    + intros -> ->. reflexivity.
  - intros ->. reflexivity.
Qed.

End EmailerFacts.

(* ===================================================================== *)
(** * Sending with retries *)
(* ===================================================================== *)

Section BackoffFacts.
Import Main.
Variable send : nat -> result unit.

(** The loop from attempt [a] on, [n] attempts being left. *)
Lemma backoff_loop_invariant (M a n : nat) :
  a + n = M -> a <= 3 ->
  let r := backoff_loop send M (seq a n) in
  calls r <= n
  /\ (0 < n -> 0 < calls r)
  /\ a + calls r <= 4
  /\ sleeps r = firstn (calls r - 1) (skipn a delays)
  /\ (0 < n -> ending r = Returned -> send (a + calls r - 1) = Ok tt)
  /\ (forall e, ending r = Raised e -> send (a + calls r - 1) = Raise e)
  /\ (ending r = IndexError -> a + calls r = 4 /\ 5 <= M).
Proof.
  revert a. induction n as [|n IH]; intros a Ha Ha3; cbn zeta.
  - cbn. repeat split; try lia; discriminate.
  - cbn [seq backoff_loop].
    assert (Hstop : forall e0 : backoff_end,
              (e0 = Returned -> send a = Ok tt) ->
              (forall e, e0 = Raised e -> send a = Raise e) ->
              (e0 = IndexError -> a = 3 /\ 5 <= M) ->
              let r0 := mkRun e0 1 [] in
              calls r0 <= S n
              /\ (0 < S n -> 0 < calls r0)
              /\ a + calls r0 <= 4
              /\ sleeps r0 = firstn (calls r0 - 1) (skipn a delays)
              /\ (0 < S n -> ending r0 = Returned ->
                  send (a + calls r0 - 1) = Ok tt)
              /\ (forall e, ending r0 = Raised e ->
                  send (a + calls r0 - 1) = Raise e)
              /\ (ending r0 = IndexError -> a + calls r0 = 4 /\ 5 <= M)).
    { intros e0 H1 H2 H3. cbn. replace (a + 1 - 1) with a by lia.
      repeat split; intros; auto; try lia;
        match goal with E : e0 = IndexError |- _ => destruct (H3 E); lia end. }
    case_eq (send a); [intros [] Es | intros exc Es].
    + apply Hstop; [intros _; exact Es | discriminate | discriminate].
    + assert (Hraise : forall e, Raised exc = Raised e -> send a = Raise e)
        by (intros e E; injection E as <-; exact Es).
      destruct (exn_cls exc);
        try (apply Hstop; [discriminate | exact Hraise | discriminate]).
      destruct (a =? M - 1)%nat eqn:Elast;
        [apply Hstop; [discriminate | exact Hraise | discriminate]|].
      apply Nat.eqb_neq in Elast.
      destruct (nth_error delays a) as [wait|] eqn:Ed.
      * assert (Ha2 : a <= 2).
        { assert (H : a < List.length delays)
            by (apply nth_error_Some; congruence).
          cbn in H. lia. }
        specialize (IH (S a) ltac:(lia) ltac:(lia)). cbv zeta in IH.
        set (r := backoff_loop send M (seq (S a) n)) in *.
        destruct IH as (I1 & I2 & I3 & I4 & I5 & I6 & I7).
        assert (Hn : 0 < n) by lia. specialize (I2 Hn).
        cbn [calls sleeps ending].
        replace (a + S (calls r) - 1) with (S a + calls r - 1) by lia.
        repeat split; intros; auto; try lia;
          try match goal with E : ending r = IndexError |- _ =>
                destruct (I7 E); lia end.
        -- rewrite I4.
           replace (S (calls r) - 1) with (S (calls r - 1)) by lia.
           assert (Hs : skipn a delays = wait :: skipn (S a) delays).
           { clear - Ed Ha2. unfold delays in *.
             destruct a as [|[|[|a]]]; [| | | lia];
               cbn in Ed; injection Ed as <-; reflexivity. }
           rewrite Hs. reflexivity.
      * apply Hstop; [discriminate | discriminate |].
        intros _. apply nth_error_None in Ed. cbn in Ed. lia.
Qed.

(** X21. Whatever [send_email] does and whatever the number of retries,
    [send_with_backoff] calls it at most that many times and at most four
    times, and it has slept, between the calls, the first delays of
    1, 5, 10 seconds in that order. With no retry allowed it returns
    without a call. When it returns after a call, that call succeeded;
    when an exception of [send_email] leaves it, it is the one of its
    last call; an index error on the delays means four failed calls and
    at least five retries allowed. *)
Theorem send_with_backoff_invariant (max_retries : nat) :
  let r := send_with_backoff send max_retries in
  calls r <= max_retries
  /\ calls r <= 4
  /\ sleeps r = firstn (calls r - 1) delays
  /\ (max_retries = 0 -> r = mkRun Returned 0 [])
  /\ (0 < max_retries -> ending r = Returned ->
      send (calls r - 1) = Ok tt)
  /\ (forall e, ending r = Raised e -> send (calls r - 1) = Raise e)
  /\ (ending r = IndexError -> calls r = 4 /\ 5 <= max_retries).
Proof.
  cbv zeta. unfold send_with_backoff.
  destruct (backoff_loop_invariant max_retries 0 max_retries eq_refl
              ltac:(lia)) as (I1 & I2 & I3 & I4 & I5 & I6 & I7).
  cbn [Nat.add skipn] in *.
  repeat split; intros; subst; auto; try lia;
    match goal with E : ending _ = IndexError |- _ =>
      destruct (I7 E); lia end.
Qed.

(** The loop delivers when an attempt that is left succeeds and the
    failures before it are email errors. *)
Lemma backoff_loop_delivers (M a n k : nat) :
  a + n = M -> M <= 4 ->
  a <= k < M -> send k = Ok tt ->
  (forall j e, j < k -> send j = Raise e -> exn_cls e = EmailError) ->
  ending (backoff_loop send M (seq a n)) = Returned.
Proof.
  revert a. induction n as [|n IH]; intros a Ha HM Hk Hok Herr; [lia|].
  cbn [seq backoff_loop].
  destruct (send a) as [[]|exc] eqn:Es; [reflexivity|].
  assert (Hak : a < k).
  { destruct (Nat.eq_dec a k) as [->|]; [congruence | lia]. }
  rewrite (Herr a exc Hak Es).
  assert (Elast : (a =? M - 1)%nat = false) by (apply Nat.eqb_neq; lia).
  rewrite Elast.
  destruct (nth_error delays a) as [wait|] eqn:Ed.
  - cbn [ending]. apply IH; auto; lia.
  - apply nth_error_None in Ed. cbn in Ed. lia.
Qed.

(** X22. With one to four retries allowed and a [send_email] that fails with
    email errors only, [send_with_backoff] returns exactly when one of
    the allowed attempts succeeds. *)
Theorem send_with_backoff_returns_iff (max_retries : nat) :
  1 <= max_retries <= 4 ->
  (forall j e, send j = Raise e -> exn_cls e = EmailError) ->
  (ending (send_with_backoff send max_retries) = Returned
   <-> exists k, k < max_retries /\ send k = Ok tt).
Proof.
  intros HM Herr. split.
  - intros H.
    destruct (backoff_loop_invariant max_retries 0 max_retries eq_refl
                ltac:(lia)) as (I1 & I2 & _ & _ & I5 & _).
    fold (send_with_backoff send max_retries) in *.
    exists (calls (send_with_backoff send max_retries) - 1).
    split; [specialize (I2 ltac:(lia)); lia|].
    apply I5; [lia | exact H].
  - intros (k & Hk & Hok). unfold send_with_backoff.
    apply (backoff_loop_delivers max_retries 0 max_retries k);
      auto; try lia.
    intros j e _. apply Herr.
Qed.

(** X23. With five or more retries allowed, four email errors in a row end
    [send_with_backoff] with an index error on the list of delays, after
    four calls and the waits of 1, 5 and 10 seconds: the fifth attempt is
    never made. *)
Theorem send_with_backoff_index_error (max_retries : nat) :
  5 <= max_retries ->
  (forall j, j < 4 -> exists e, send j = Raise e /\ exn_cls e = EmailError) ->
  send_with_backoff send max_retries = mkRun IndexError 4 [1; 5; 10].
Proof.
  intros HM Herr. unfold send_with_backoff.
  destruct max_retries as [|[|[|[|[|m]]]]]; try lia.
  cbn [seq backoff_loop].
  destruct (Herr 0 ltac:(lia)) as (e0 & -> & ->).
  destruct (Herr 1 ltac:(lia)) as (e1 & -> & ->).
  destruct (Herr 2 ltac:(lia)) as (e2 & -> & ->).
  destruct (Herr 3 ltac:(lia)) as (e3 & -> & ->).
  reflexivity.
Qed.

End BackoffFacts.

(* ===================================================================== *)
(** * The loader: column names and errors *)
(* ===================================================================== *)

Section LoaderFacts.
Import Py Pandas Exceptions Env Loader LoaderSpec.

Lemma dict_get_set (k v c : string) (d : list (string * string)) :
  dict_get c (dict_set k v d)
  = if String.eqb k c then Some v else dict_get c d.
Proof.
  unfold dict_get, dict_set. cbn [find fst].
  destruct (String.eqb k c) eqn:E; [reflexivity|].
  f_equal. induction d as [|[k' v'] d IH]; [reflexivity|].
  cbn [filter find fst].
  destruct (String.eqb k' k) eqn:E1; cbn [negb].
  - apply String.eqb_eq in E1. subst k'. rewrite E. exact IH.
  - cbn [find fst]. now rewrite IH.
Qed.

(** The inner loop, over the aliases of one expected name. *)
Lemma dict_get_aliases (cols : list string) (expected c : string)
    (aliases : list string) (m : list (string * string)) :
  dict_get c
    (fold_left
       (fun m alias =>
          if mem (lower alias) cols then dict_set (lower alias) expected m
          else m) aliases m)
  = if mem c cols && mem c (map lower aliases) then Some expected
    else dict_get c m.
Proof.
  revert m. induction aliases as [|a l IH]; intros m; cbn [fold_left map].
  - now rewrite andb_false_r.
  - rewrite IH.
    change (mem c (lower a :: map lower l))
      with (String.eqb c (lower a) || mem c (map lower l)).
    destruct (String.eqb c (lower a)) eqn:E.
    + apply String.eqb_eq in E. subst c. cbn [orb].
      destruct (mem (lower a) cols); cbn [andb]; [|reflexivity].
      rewrite dict_get_set, String.eqb_refl.
      now destruct (mem (lower a) (map lower l)).
    + cbn [orb].
      assert (G : dict_get c (if mem (lower a) cols
                              then dict_set (lower a) expected m else m)
                  = dict_get c m).
      { destruct (mem (lower a) cols); [|reflexivity].
        now rewrite dict_get_set, String.eqb_sym, E. }
      now rewrite G.
Qed.

Lemma find_append {A : Type} (p : A -> bool) (l1 l2 : list A) :
  find p (l1 ++ l2)%list
  = match find p l1 with Some x => Some x | None => find p l2 end.
Proof.
  induction l1 as [|x l IH]; cbn [app find]; [reflexivity|].
  destruct (p x); [reflexivity | exact IH].
Qed.

(** The outer loop: the last entry with a matching alias wins. *)
Lemma dict_get_entries (cols : list string) (c : string)
    (entries : list (string * list string)) (m : list (string * string)) :
  mem c cols = true ->
  dict_get c
    (fold_left
       (fun m entry =>
          fold_left
            (fun m alias =>
               if mem (lower alias) cols
               then dict_set (lower alias) (fst entry) m else m)
            (snd entry) m)
       entries m)
  = match find (fun entry => mem c (map lower (snd entry))) (rev entries) with
    | Some entry => Some (fst entry)
    | None => dict_get c m
    end.
Proof.
  intros Hc. revert m.
  induction entries as [|e l IH]; intros m; cbn [fold_left rev];
    [reflexivity|].
  rewrite IH, find_append.
  destruct (find (fun entry => mem c (map lower (snd entry))) (rev l));
    [reflexivity|].
  cbn [find]. rewrite dict_get_aliases, Hc. cbn [andb].
  destruct (mem c (map lower (snd e))); reflexivity.
Qed.

(** No alias belongs to two expected names: the order of the entries
    does not matter. *)
Lemma find_alias_rev (c : string) :
  option_map fst
    (find (fun entry => mem c (map lower (snd entry))) (rev COLUMN_ALIASES))
  = option_map fst
      (find (fun entry => mem c (map lower (snd entry))) COLUMN_ALIASES).
Proof.
  unfold COLUMN_ALIASES, mem. cbn.
  repeat match goal with
         | |- context [String.eqb c ?a] =>
             destruct (String.eqb_spec c a) as [->|_]; [reflexivity|]
         end.
  reflexivity.
Qed.

Lemma rename_map_get (cols : list string) (c : string) :
  mem c cols = true ->
  match dict_get c (rename_map cols) with
  | Some expected => expected
  | None => c
  end = expected_name c.
Proof.
  intros Hc. unfold rename_map, expected_name.
  rewrite (dict_get_entries cols c COLUMN_ALIASES [] Hc).
  pose proof (find_alias_rev c) as H.
  destruct (find _ (rev COLUMN_ALIASES)) as [e|];
    destruct (find _ COLUMN_ALIASES) as [e'|]; cbn in H;
    try discriminate; [congruence | reflexivity].
Qed.

Lemma normalize_columns_set_columns (df : DataFrame) :
  Loader.normalize_columns df = set_columns loaded_name df.
Proof.
  unfold Loader.normalize_columns, rename, set_columns.
  cbn [index series]. f_equal. rewrite map_map. cbn [name dtype_of cells].
  apply map_ext_in. intros s Hs. f_equal.
  apply rename_map_get. apply mem_In.
  unfold columns. cbn [series]. rewrite map_map. cbn [name].
  now apply (in_map (fun x => lower (strip (name x)))).
Qed.

Lemma expected_name_cases (c : string) :
  expected_name c = c \/ In (expected_name c) (map fst COLUMN_ALIASES).
Proof.
  unfold expected_name.
  destruct (find _ COLUMN_ALIASES) as [e|] eqn:E; [|now left].
  right. apply find_some in E. apply in_map. tauto.
Qed.

Lemma loaded_name_idem (c : string) :
  loaded_name (loaded_name c) = loaded_name c.
Proof.
  unfold loaded_name.
  destruct (expected_name_cases (lower (strip c))) as [E|H].
  - rewrite E. now rewrite strip_lower, strip_idem, lower_idem, E.
  - revert H. generalize (expected_name (lower (strip c))). intros e H.
    cbn in H.
    repeat (destruct H as [<-|H]; [reflexivity|]). destruct H.
Qed.

Lemma normalize_columns_idem (df : DataFrame) :
  Loader.normalize_columns (Loader.normalize_columns df)
  = Loader.normalize_columns df.
Proof.
  rewrite !normalize_columns_set_columns. unfold set_columns.
  cbn [index series]. f_equal. rewrite map_map. cbn [name dtype_of cells].
  apply map_ext. intros s. now rewrite loaded_name_idem.
Qed.

(** X24. [loader.normalize_columns] renames column by column and touches
    nothing else: a column gets the expected name of its name stripped
    and in lower case, whatever the other columns are; the index, the
    cells and the dtypes stay. Normalizing a second time changes
    nothing. *)
Theorem loader_normalize_columns_names (df : DataFrame) :
  let out := Loader.normalize_columns df in
  columns out = map loaded_name (columns df)
  /\ index out = index df
  /\ map cells (series out) = map cells (series df)
  /\ map dtype_of (series out) = map dtype_of (series df)
  /\ Loader.normalize_columns out = out.
Proof.
  cbv zeta. rewrite normalize_columns_idem.
  rewrite normalize_columns_set_columns.
  unfold columns, set_columns. cbn [series index].
  now rewrite !map_map.
Qed.

Lemma set_diff_nil_iff (a b : list string) :
  set_diff a b = [] <-> forall c, In c a -> In c b.
Proof.
  split.
  - intros E c Hc. destruct (mem c b) eqn:M; [now apply mem_In|].
    assert (H : In c (set_diff a b))
      by (apply set_diff_In; split; [exact Hc | now apply mem_false]).
    rewrite E in H. destruct H.
  - intros H. destruct (set_diff a b) as [|x l] eqn:E; [reflexivity|].
    assert (Hx : In x (set_diff a b)) by (rewrite E; now left).
    apply set_diff_In in Hx. destruct Hx as [Hx Hn]. now apply H in Hx.
Qed.

(** X25. With the file there and read, [load_csv] returns exactly when every
    name of the variable REQUIRED_COLUMNS (split at the commas, stripped,
    in lower case, the empty ones left out) is a column after the names
    were normalized; it returns the table with the normalized names. *)
Theorem load_csv_returns_iff (env : environ) (df df' : DataFrame)
    (filepath : string) :
  load_csv env true (Ok df) filepath = Ok df'
  <-> df' = Loader.normalize_columns df
      /\ forall c, In c (required_from_env env) ->
                   In c (columns (Loader.normalize_columns df)).
Proof.
  unfold load_csv. cbn [negb bind except_load].
  destruct (required_from_env env) as [|r l] eqn:Er.
  - cbn [except_load]. split.
    + intros E. injection E as <-. split; [reflexivity | intros c []].
    + intros [-> _]. reflexivity.
  - destruct (set_diff (r :: l) (columns (Loader.normalize_columns df)))
      as [|x m] eqn:Ed.
    + cbn [except_load]. split.
      * intros E. injection E as <-. split; [reflexivity|].
        now apply set_diff_nil_iff.
      * intros [-> _]. reflexivity.
    + cbn [except_load]. split; [discriminate|].
      intros [_ H]. apply set_diff_nil_iff in H. congruence.
Qed.

(** X26. A required column that the file lacks stops [load_csv] with the
    general error LOAD_GENERIC_ERROR: the error that lists the missing
    columns, with the code LOAD_MISSING_COLUMNS, is caught by the
    function's own handler and is only the cause of the one raised. *)
Theorem load_csv_missing_columns_wrapped (env : environ) (df : DataFrame)
    (filepath c : string) :
  In c (required_from_env env) ->
  ~ In c (columns (Loader.normalize_columns df)) ->
  exists missing,
    load_csv env true (Ok df) filepath
    = Raise (ExnFrom DataLoadError
               ("[LOAD_GENERIC_ERROR] Failed to load CSV file " ++ filepath)
               (Exn DataLoadError
                  ("[LOAD_MISSING_COLUMNS] Missing required columns: "
                   ++ repr_set missing ++ " | Context: {'required_columns': "
                   ++ repr_list (required_from_env env) ++ "}")))
    /\ NoDup missing
    /\ forall x, In x missing <->
                 In x (required_from_env env)
                 /\ ~ In x (columns (Loader.normalize_columns df)).
Proof.
  intros Hc Hn.
  exists (set_diff (required_from_env env)
            (columns (Loader.normalize_columns df))).
  split; [|split; [apply set_diff_NoDup | intros x; apply set_diff_In]].
  unfold load_csv. cbn [negb bind].
  destruct (required_from_env env) as [|r l] eqn:Er; [destruct Hc|].
  destruct (set_diff (r :: l) (columns (Loader.normalize_columns df)))
    as [|x m] eqn:Ed.
  - exfalso. apply Hn. now apply (proj1 (set_diff_nil_iff _ _) Ed).
  - cbn [except_load]. unfold error_str.
    cbn [append]. reflexivity.
Qed.

(** X27. Whatever goes wrong, [load_csv] raises a [DataLoadError], with one of
    two codes: LOAD_FILE_NOT_FOUND exactly when the file is not there,
    LOAD_GENERIC_ERROR otherwise, and then with a cause. *)
Theorem load_csv_error_codes (env : environ) (path_exists : bool)
    (read_csv : result DataFrame) (filepath : string) (e : exn) :
  load_csv env path_exists read_csv filepath = Raise e ->
  exn_cls e = DataLoadError
  /\ (path_exists = false ->
      e = Exn DataLoadError
            ("[LOAD_FILE_NOT_FOUND] CSV file not found: " ++ filepath))
  /\ (path_exists = true ->
      exists cause,
        e = ExnFrom DataLoadError
              ("[LOAD_GENERIC_ERROR] Failed to load CSV file " ++ filepath)
              cause
        /\ (read_csv = Raise cause \/ exn_cls cause = DataLoadError)).
Proof.
  unfold load_csv. destruct path_exists; cbn [negb].
  - intros H.
    assert (G : exists cause,
              e = ExnFrom DataLoadError
                    ("[LOAD_GENERIC_ERROR] Failed to load CSV file "
                     ++ filepath) cause
              /\ (read_csv = Raise cause \/ exn_cls cause = DataLoadError)).
    { destruct read_csv as [df|e0]; cbn [bind] in H.
      - destruct (required_from_env env) as [|r l];
          [discriminate|].
        destruct (set_diff (r :: l) (columns (Loader.normalize_columns df)));
          [discriminate|].
        cbn [except_load] in H. injection H as <-.
        eexists. split; [reflexivity | right; reflexivity].
      - cbn [except_load] in H. injection H as <-.
        eexists. split; [reflexivity | left; reflexivity]. }
    destruct G as (cause & -> & G).
    split; [reflexivity|]. split; [discriminate|].
    intros _. exists cause. split; [reflexivity | exact G].
  - intros H. injection H as <-. split; [reflexivity|].
    split; [reflexivity | discriminate].
Qed.

End LoaderFacts.

(* ===================================================================== *)
(** * Schema drift *)
(* ===================================================================== *)

Section DriftFacts.
Import Py Pandas Main.

Lemma mem_app (c : string) (l1 l2 : list string) :
  mem c (l1 ++ l2)%list = mem c l1 || mem c l2.
Proof. unfold mem. apply existsb_app. Qed.

Lemma filter_all {A : Type} (p : A -> bool) (l : list A) :
  (forall x, In x l -> p x = true) -> filter p l = l.
Proof.
  induction l as [|x l IH]; intros H; cbn [filter]; [reflexivity|].
  rewrite (H x) by now left. f_equal. apply IH. intros y Hy. apply H. now right.
Qed.

Lemma add_none_absent (df : DataFrame) (c : string) :
  mem c (columns df) = false ->
  add_none_column df c
  = mkDataFrame (index df)
      (series df ++ [mkSeries c DObject (repeat PNone (len df))])%list.
Proof. intros H. unfold add_none_column, setitem. now rewrite H. Qed.

(** The loop over the missing required columns. *)
Lemma fold_add_none (l : list string) (df : DataFrame) :
  NoDup l -> (forall c, In c l -> ~ In c (columns df)) ->
  fold_left add_none_column l df
  = mkDataFrame (index df)
      (series df
       ++ map (fun c => mkSeries c DObject (repeat PNone (len df))) l)%list.
Proof.
  revert df. induction l as [|a l IH]; intros df Hl Hn; cbn [fold_left map].
  - rewrite app_nil_r. now destruct df.
  - rewrite add_none_absent by (apply mem_false, Hn; now left).
    inversion Hl as [|? ? Ha Hl']; subst.
    rewrite IH; [| exact Hl' |].
    + cbn [index series]. unfold len. cbn [index].
      now rewrite <- app_assoc.
    + intros c Hc. unfold columns. cbn [series].
      rewrite map_app, in_app_iff. cbn [map name In].
      intros [H|[H|[]]]; [apply (Hn c); [now right | exact H]|].
      subst. contradiction.
Qed.

(** The loop over the optional columns. *)
Lemma fold_add_optional (l : list string) (df : DataFrame) :
  NoDup l ->
  fold_left
    (fun df col => if negb (mem col (columns df))
                   then add_none_column df col else df) l df
  = mkDataFrame (index df)
      (series df
       ++ map (fun c => mkSeries c DObject (repeat PNone (len df)))
              (filter (fun c => negb (mem c (columns df))) l))%list.
Proof.
  revert df. induction l as [|a l IH]; intros df Hl; cbn [fold_left filter].
  - cbn [map]. rewrite app_nil_r. now destruct df.
  - inversion Hl as [|? ? Ha Hl']; subst.
    destruct (mem a (columns df)) eqn:M; cbn [negb]; [now apply IH|].
    rewrite add_none_absent by exact M. rewrite IH by exact Hl'.
    cbn [index series map]. unfold len. cbn [index].
    rewrite <- app_assoc. cbn [app].
    rewrite (filter_ext_in
               (fun c => negb (mem c (columns
                  {| index := index df;
                     series := (series df ++
                       [mkSeries a DObject
                          (repeat PNone (List.length (index df)))])%list |})))
               (fun c => negb (mem c (columns df)))); [reflexivity|].
    intros c Hc. f_equal.
    unfold columns. cbn [series]. rewrite map_app, mem_app.
    cbn [map name]. unfold mem at 2. cbn [existsb].
    destruct (String.eqb_spec c a) as [->|_]; [contradiction|].
    now rewrite !orb_false_r.
Qed.

Lemma find_none_series (n : nat) (c : string) (l : list string) :
  find (fun s => String.eqb (name s) c)
       (map (fun c => mkSeries c DObject (repeat PNone n)) l)
  = if mem c l then Some (mkSeries c DObject (repeat PNone n)) else None.
Proof.
  induction l as [|a l IH]; [reflexivity|].
  cbn [map find name]. unfold mem. cbn [existsb]. fold (mem c l).
  rewrite String.eqb_sym.
  destruct (String.eqb_spec c a) as [->|_]; [reflexivity | exact IH].
Qed.

Lemma find_name_absent (c : string) (l : list Series) :
  ~ In c (map name l) -> find (fun s => String.eqb (name s) c) l = None.
Proof.
  induction l as [|s l IH]; intros H; [reflexivity|].
  cbn [find]. destruct (String.eqb_spec (name s) c) as [E|_].
  - exfalso. apply H. now left.
  - apply IH. intros Hc. apply H. now right.
Qed.

(** With distinct names, a name selects one column: the one [df[c]] finds. *)
Lemma filter_name_unique (c : string) (l : list Series) :
  NoDup (map name l) -> In c (map name l) ->
  exists s, filter (fun s => String.eqb (name s) c) l = [s]
            /\ find (fun s => String.eqb (name s) c) l = Some s
            /\ name s = c.
Proof.
  induction l as [|s l IH]; intros Hn Hc; [destruct Hc|].
  cbn [map] in Hn. inversion Hn as [|? ? Hs Hl]; subst.
  cbn [filter find]. destruct (String.eqb_spec (name s) c) as [E|E].
  - exists s. split; [|split; [reflexivity | exact E]].
    f_equal. rewrite <- E in *.
    clear - Hs. induction l as [|t l IH]; [reflexivity|].
    cbn [filter]. destruct (String.eqb_spec (name t) (name s)) as [E|_].
    + exfalso. apply Hs. left. exact E.
    + apply IH. intros H. apply Hs. now right.
  - destruct Hc as [Hc|Hc]; [contradiction|]. now apply IH.
Qed.

(** [df[cols]] when the names of [df] are distinct and has them all. *)
Lemma getitems_present (d : DataFrame) (cs : list string) :
  NoDup (columns d) -> (forall c, In c cs -> In c (columns d)) ->
  columns (getitems d cs) = cs
  /\ forall c, In c cs -> getitem (getitems d cs) c = getitem d c.
Proof.
  intros Hn. unfold columns, getitems, getitem. cbn [series].
  induction cs as [|c0 cs IH]; intros Hc; [split; [reflexivity | intros c []]|].
  destruct (filter_name_unique c0 (series d) Hn (Hc c0 (or_introl eq_refl)))
    as (s0 & Ef & Es & En).
  destruct IH as [IH1 IH2]; [intros c H; apply Hc; now right|].
  cbn [flat_map]. rewrite Ef. cbn [app map]. split.
  - now rewrite IH1, En.
  - intros c Hin. cbn [find]. destruct (String.eqb_spec (name s0) c) as [E|E].
    + assert (Ec : c = c0) by congruence. rewrite Ec. now rewrite Es.
    + destruct Hin as [Hin|Hin]; [congruence | now apply IH2].
Qed.

Lemma NoDup_EXPECTED_COLUMNS : NoDup EXPECTED_COLUMNS.
Proof. apply NoDup_strings. reflexivity. Qed.

(** The table before the final selection: the columns of [df], then the
    missing required ones, then the missing optional ones. *)
Lemma handle_schema_drift_unfold (df : DataFrame) :
  handle_schema_drift df
  = let none := fun c => mkSeries c DObject (repeat PNone (len df)) in
    let d2 :=
      mkDataFrame (index df)
        (series df
         ++ map none (set_diff REQUIRED_COLUMNS (columns df))
         ++ map none
              (filter (fun c => negb (mem c (columns df))) OPTIONAL_COLUMNS))
        %list in
    getitems d2 (filter (fun col => mem col (columns d2)) EXPECTED_COLUMNS).
Proof.
  unfold handle_schema_drift. cbv zeta.
  rewrite (fold_add_none (set_diff REQUIRED_COLUMNS (columns df)) df)
    by (try apply set_diff_NoDup; intros c Hc; now apply set_diff_In in Hc).
  set (d1 := mkDataFrame (index df)
               (series df
                ++ map (fun c => mkSeries c DObject (repeat PNone (len df)))
                       (set_diff REQUIRED_COLUMNS (columns df)))%list).
  rewrite fold_add_optional by (apply NoDup_strings; reflexivity).
  change (len d1) with (len df). change (index d1) with (index df).
  assert (E : filter (fun c => negb (mem c (columns d1))) OPTIONAL_COLUMNS
              = filter (fun c => negb (mem c (columns df))) OPTIONAL_COLUMNS).
  { apply filter_ext_in. intros c Hc. f_equal.
    unfold columns at 1, d1. cbn [series]. rewrite map_app, mem_app, map_map.
    cbn [name]. rewrite map_id. fold (columns df).
    destruct (mem c (set_diff REQUIRED_COLUMNS (columns df))) eqn:M;
      [|now rewrite orb_false_r].
    exfalso. apply mem_In, set_diff_In in M. destruct M as [M _].
    revert Hc M. clear. intros Hc M.
    assert (N : forallb (fun x => negb (mem x REQUIRED_COLUMNS))
                  OPTIONAL_COLUMNS = true) by reflexivity.
    rewrite forallb_forall in N. specialize (N c Hc).
    apply negb_true_iff, mem_false in N. contradiction. }
  rewrite E. unfold d1. cbn [series]. rewrite <- app_assoc. reflexivity.
Qed.

Lemma required_not_optional (c : string) :
  In c REQUIRED_COLUMNS -> In c OPTIONAL_COLUMNS -> False.
Proof.
  intros Hr Ho.
  assert (N : forallb (fun x => negb (mem x REQUIRED_COLUMNS))
                OPTIONAL_COLUMNS = true) by reflexivity.
  rewrite forallb_forall in N. specialize (N c Ho).
  apply negb_true_iff, mem_false in N. contradiction.
Qed.

Lemma names_none_series (n : nat) (l : list string) :
  map name (map (fun c => mkSeries c DObject (repeat PNone n)) l) = l.
Proof. rewrite map_map. cbn [name]. apply map_id. Qed.

(** The names of the table before the selection are distinct and
    comprise the expected ones. *)
Lemma drift_frame (df : DataFrame) :
  NoDup (columns df) ->
  let none := fun c => mkSeries c DObject (repeat PNone (len df)) in
  let d2 :=
    mkDataFrame (index df)
      (series df
       ++ map none (set_diff REQUIRED_COLUMNS (columns df))
       ++ map none
            (filter (fun c => negb (mem c (columns df))) OPTIONAL_COLUMNS))
      %list in
  NoDup (columns d2) /\ forall c, In c EXPECTED_COLUMNS -> In c (columns d2).
Proof.
  intros Hn none d2.
  assert (Ec : columns d2
               = (columns df ++ set_diff REQUIRED_COLUMNS (columns df)
                  ++ filter (fun c => negb (mem c (columns df)))
                       OPTIONAL_COLUMNS)%list).
  { unfold columns at 1, d2, none. cbn [series].
    now rewrite !map_app, !names_none_series. }
  rewrite Ec. split.
  - apply NoDup_app; [exact Hn | apply NoDup_app |].
    + apply set_diff_NoDup.
    + apply NoDup_filter, NoDup_strings. reflexivity.
    + intros a Ha Hb. apply set_diff_In in Ha. apply filter_In in Hb.
      apply (required_not_optional a); tauto.
    + intros a Ha Hb. apply in_app_iff in Hb. destruct Hb as [Hb|Hb].
      * apply set_diff_In in Hb. tauto.
      * apply filter_In in Hb. destruct Hb as [_ Hb].
        apply negb_true_iff, mem_false in Hb. contradiction.
  - intros c Hc. unfold EXPECTED_COLUMNS in Hc.
    rewrite !in_app_iff. apply in_app_iff in Hc.
    destruct (mem c (columns df)) eqn:M; [left; now apply mem_In|].
    right. destruct Hc as [Hc|Hc].
    + left. apply set_diff_In. split; [exact Hc | now apply mem_false].
    + right. apply filter_In. split; [exact Hc | now rewrite M].
Qed.

Lemma handle_schema_drift_spec (df : DataFrame) :
  NoDup (columns df) ->
  let out := handle_schema_drift df in
  columns out = EXPECTED_COLUMNS
  /\ index out = index df
  /\ forall c, In c EXPECTED_COLUMNS ->
       getitem out c
       = if mem c (columns df) then getitem df c
         else Ok (mkSeries c DObject (repeat PNone (len df))).
Proof.
  intros Hn. cbv zeta. rewrite handle_schema_drift_unfold. cbv zeta.
  destruct (drift_frame df Hn) as [Hd Hin]. cbv zeta in Hd, Hin.
  set (d2 := mkDataFrame _ _) in *.
  rewrite filter_all by (intros c Hc; now apply mem_In, Hin).
  destruct (getitems_present d2 EXPECTED_COLUMNS Hd Hin) as [C G].
  split; [exact C|]. split; [reflexivity|].
  intros c Hc. rewrite (G c Hc).
  unfold getitem at 1. unfold d2. cbn [series]. rewrite !find_append.
  destruct (mem c (columns df)) eqn:M.
  - destruct (mem_getitem c df M) as (s & Es & _).
    unfold getitem in *.
    destruct (find (fun s0 => String.eqb (name s0) c) (series df));
      [reflexivity | discriminate].
  - rewrite (find_name_absent c (series df))
      by (fold (columns df); now apply mem_false).
    rewrite !find_none_series.
    destruct (mem c (set_diff REQUIRED_COLUMNS (columns df))) eqn:Mr;
      [reflexivity|].
    assert (Mo : mem c (filter (fun c => negb (mem c (columns df)))
                          OPTIONAL_COLUMNS) = true).
    { apply mem_In, filter_In. rewrite M. split; [|reflexivity].
      unfold EXPECTED_COLUMNS in Hc. apply in_app_iff in Hc.
      destruct Hc as [Hc|Hc]; [|exact Hc].
      exfalso. apply mem_false in Mr. apply Mr, set_diff_In.
      split; [exact Hc | now apply mem_false]. }
    now rewrite Mo.
Qed.

(** X28. On a table with distinct column names, [handle_schema_drift] returns
    a table with exactly the expected columns, in their fixed order, over
    the same index: a column the table had comes with its cells, the other
    ones hold [None] in every row, and the columns that are not expected
    are gone. *)
Theorem handle_schema_drift_columns (df : DataFrame) :
  NoDup (columns df) ->
  let out := handle_schema_drift df in
  columns out = EXPECTED_COLUMNS
  /\ index out = index df
  /\ forall c, In c EXPECTED_COLUMNS ->
       getitem out c
       = if mem c (columns df) then getitem df c
         else Ok (mkSeries c DObject (repeat PNone (len df))).
Proof. exact (handle_schema_drift_spec df). Qed.

Lemma len_handle_schema_drift (df : DataFrame) :
  len (handle_schema_drift df) = len df.
Proof. now rewrite handle_schema_drift_unfold. Qed.

Lemma aligned_handle_schema_drift (df : DataFrame) :
  Spec.aligned df -> Spec.aligned (handle_schema_drift df).
Proof.
  intros Ha. unfold Spec.aligned. rewrite len_handle_schema_drift.
  rewrite handle_schema_drift_unfold. cbv zeta. unfold getitems.
  cbn [series]. apply Forall_flat_map, Forall_forall. intros c _.
  apply Forall_forall. intros s Hs. apply filter_In in Hs.
  destruct Hs as [Hs _]. apply in_app_iff in Hs. destruct Hs as [Hs|Hs].
  - unfold Spec.aligned in Ha. rewrite Forall_forall in Ha. now apply Ha.
  - rewrite <- map_app in Hs. apply in_map_iff in Hs. destruct Hs as (x & <- & _). cbn [cells].
    apply repeat_length.
Qed.

End DriftFacts.

(* ===================================================================== *)
(** * Schema drift, then cleaning *)
(* ===================================================================== *)

Section DriftPipeline.
Import Py Pandas Cleaner Analyzer Grader Spec CleanerSpec.
Context {rt : PyRuntime}.
Variable render : Analysis -> DataFrame -> CleaningReport -> result string.

(** The cleaner's own normalization leaves the expected names. *)
Lemma normalize_expected (d : DataFrame) :
  columns d = Main.EXPECTED_COLUMNS -> normalize_columns d = d.
Proof.
  intros E. unfold normalize_columns. destruct d as [ix ss].
  cbn [index series]. f_equal. unfold columns in E. cbn [series] in E.
  assert (H : forall s, In s ss -> normalize_column (name s) = name s).
  { intros s Hs. apply (in_map name) in Hs. rewrite E in Hs.
    revert Hs. generalize (name s). intros c Hc. cbn in Hc.
    repeat (destruct Hc as [<-|Hc]; [reflexivity|]). destruct Hc. }
  clear E. induction ss as [|s ss IH]; [reflexivity|]. cbn [map].
  rewrite (H s) by now left. rewrite IH by (intros t Ht; apply H; now right).
  now destruct s.
Qed.

Lemma nth_select_none (m : list bool) (n i : nat) :
  nth i (select m (repeat PNone n)) PNone = PNone.
Proof.
  destruct (nth_in_or_default i (select m (repeat PNone n)) PNone) as [H|H];
    [|exact H].
  revert H. generalize (nth i (select m (repeat PNone n)) PNone). intros v.
  generalize (repeat_spec n PNone). generalize (repeat PNone n).
  intros l Hl. revert l Hl.
  induction m as [|b m IH]; intros [|x l] Hl H; cbn [select] in H;
    try destruct H.
  - destruct b.
    + destruct H as [<-|H]; [apply Hl; now left|].
      apply (IH l); [intros y Hy; apply Hl; now right | exact H].
    + apply (IH l); [intros y Hy; apply Hl; now right | exact H].
Qed.

(** What the cleaner makes of a table with the expected columns. *)
Lemma expected_clean_ready (d : DataFrame) :
  columns d = Main.EXPECTED_COLUMNS -> 0 < len d ->
  empty d = false
  /\ normalize_columns d = d
  /\ sorted (set_diff (required_or_default None)
               (columns (normalize_columns d))) = []
  /\ (forall c, In c validated_columns ->
                mem c (columns (normalize_columns d)) = true)
  /\ sorted (set_diff (set_diff (columns (normalize_columns d))
                                (required_or_default None))
                      OPTIONAL_COLUMNS) = [].
Proof.
  intros C Hl.
  assert (En : normalize_columns d = d) by now apply normalize_expected.
  split; [|split; [exact En|]].
  - unfold empty.
    assert (Hs : List.length (series d) = 16).
    { pose proof (f_equal (@List.length string) C) as Hs.
      unfold columns in Hs. rewrite length_map in Hs. exact Hs. }
    rewrite Hs. destruct (len d); [lia | reflexivity].
  - rewrite En, C. split; [reflexivity|]. split; [|reflexivity].
    intros c Hc. cbn in Hc.
    repeat (destruct Hc as [<-|Hc]; [reflexivity|]). destruct Hc.
Qed.

Lemma expected_clean_run (d : DataFrame) (flag : bool) :
  columns d = Main.EXPECTED_COLUMNS -> aligned d -> 0 < len d ->
  let d1 := deduplicated flag d in
  exists out rep,
    clean_data d flag None = Ok (out, rep)
    /\ index out = map (fun i => nth i (index d1) 0) (valid_positions d1)
    /\ columns out = Main.EXPECTED_COLUMNS
    /\ original_rows rep = len d
    /\ final_rows rep = len out
    /\ extra_columns rep = []
    /\ missing_required_columns rep = [].
Proof.
  intros C Had Hl d1.
  destruct (expected_clean_ready d C Hl) as (He & En & Hmiss & Hcols & Hx).
  destruct (clean_data_cells d flag None He Had Hmiss Hcols)
    as (out & rep & Hrun & Hix & Hc & _).
  destruct (clean_data_run d flag None He Had Hmiss Hcols)
    as (out' & Hrun' & _).
  exists out, rep. rewrite Hrun in Hrun'. injection Hrun' as <- ->.
  split; [exact Hrun|]. split; [exact Hix|].
  split; [rewrite Hc; unfold d1; rewrite columns_deduplicated;
          now rewrite En|].
  cbn [original_rows final_rows extra_columns missing_required_columns].
  repeat split. exact Hx.
Qed.

(** A column of [None] fails its validator in every row. *)
Lemma none_column_invalid (d : DataFrame) (flag : bool) (c : string)
    (n : nat) :
  columns d = Main.EXPECTED_COLUMNS ->
  getitem d c = Ok (mkSeries c DObject (repeat PNone n)) ->
  In c ["email"; "phone"; "salary"] ->
  valid_positions (deduplicated flag d) = [].
Proof.
  intros C Hget Hc.
  assert (En : normalize_columns d = d) by now apply normalize_expected.
  assert (Hcell : forall i, cell (deduplicated flag d) c i = PNone).
  { intros i. unfold deduplicated. rewrite En. unfold cell.
    destruct flag.
    - unfold drop_duplicates. rewrite getitem_loc, Hget. cbn [cells].
      apply nth_select_none.
    - rewrite Hget. cbn [cells].
      destruct (nth_in_or_default i (repeat PNone n) PNone) as [H|H];
        [now apply repeat_spec in H | exact H]. }
  unfold valid_positions.
  apply (proj2 (filter_nil_iff _ _)). intros i _.
  apply negb_false_iff.
  unfold row_invalid, email_fails, phone_fails, salary_fails.
  cbn [In] in Hc. destruct Hc as [<-|[<-|[<-|[]]]]; rewrite Hcell.
  - reflexivity.
  - cbn [normalize_phone is_none]. now rewrite orb_true_r.
  - unfold clean_numeric. cbn [isna is_none]. now rewrite !orb_true_r.
Qed.

(** X29. After [handle_schema_drift], on a table with distinct column names
    and at least one row, [clean_data] never raises: no required column
    is missing and every column it reads is there. It returns the expected
    columns, counts the rows of the table as the original ones and reports
    no extra column, whatever columns the file had. *)
Theorem schema_drift_then_clean (df : DataFrame) (flag : bool) :
  NoDup (columns df) -> aligned df -> 0 < len df ->
  exists out rep,
    clean_data (Main.handle_schema_drift df) flag None = Ok (out, rep)
    /\ columns out = Main.EXPECTED_COLUMNS
    /\ original_rows rep = len df
    /\ final_rows rep = len out
    /\ extra_columns rep = []
    /\ missing_required_columns rep = [].
Proof.
  intros Hn Ha Hl.
  destruct (handle_schema_drift_spec df Hn) as (C & _ & _).
  pose proof (aligned_handle_schema_drift df Ha) as Had.
  pose proof (len_handle_schema_drift df) as L.
  revert C Had L. generalize (Main.handle_schema_drift df). intros d C Had L.
  destruct (expected_clean_run d flag C Had ltac:(lia))
    as (out & rep & Hrun & _ & Hc & O & F & X & M).
  exists out, rep. rewrite <- L. repeat split; assumption.
Qed.

(** X30. A file without an email, a phone or a salary column does not stop
    the run at the cleaning stage: the column is added with [None] in
    every row, every row fails that field and is dropped, and the run
    ends at the report stage with the error for empty analysis results. *)
Theorem absent_field_column_drops_all (df : DataFrame) (c : string) :
  NoDup (columns df) -> aligned df -> 0 < len df ->
  In c ["email"; "phone"; "salary"] -> ~ In c (columns df) ->
  (exists out rep,
     clean_data (Main.handle_schema_drift df) true None = Ok (out, rep)
     /\ len out = 0 /\ final_rows rep = 0 /\ original_rows rep = len df)
  /\ run_to_grading render (Main.handle_schema_drift df)
     = Raise (Exn ReportError "No analysis results to write.").
Proof.
  intros Hn Ha Hl Hc Habs.
  destruct (handle_schema_drift_spec df Hn) as (C & _ & G).
  pose proof (aligned_handle_schema_drift df Ha) as Had.
  pose proof (len_handle_schema_drift df) as L.
  assert (Hget : getitem (Main.handle_schema_drift df) c
                 = Ok (mkSeries c DObject (repeat PNone (len df)))).
  { rewrite G.
    - apply mem_false in Habs. now rewrite Habs.
    - cbn [In] in Hc. unfold Main.EXPECTED_COLUMNS. apply in_app_iff. left.
      cbn. tauto. }
  clear G. revert C Had L Hget.
  generalize (Main.handle_schema_drift df). intros d C Had L Hget.
  destruct (expected_clean_run d true C Had ltac:(lia))
    as (out & rep & Hrun & Hix & _ & O & F & _).
  rewrite (none_column_invalid d true c (len df) C Hget Hc) in Hix.
  cbn [map] in Hix.
  assert (L0 : len out = 0) by (unfold len; now rewrite Hix).
  split.
  - exists out, rep. rewrite <- L. repeat split; try assumption.
    now rewrite F.
  - unfold run_to_grading. rewrite Hrun. cbn [bind].
    assert (He : empty out = true) by (unfold empty; now rewrite L0).
    now rewrite (analyze_data_empty out None He).
Qed.

End DriftPipeline.

(* ===================================================================== *)
(** * Runs of the properties on the samples *)
(* ===================================================================== *)

Section ScenarioRuns.
Import Py Pandas Cleaner Analyzer Grader Spec CleanerSpec Env Sample Scenario.

Lemma aligned_two_numeric : aligned two_numeric.
Proof. repeat constructor. Qed.

Lemma clean_numeric_nonnegative_witness :
  (0 <= 1000 # 1)%Q /\ isna (PStr "$1,000") = false.
Proof.
  apply (clean_numeric_nonnegative (rt := sample_runtime) (PStr "$1,000")).
  reflexivity.
Defined.

Lemma clean_data_missing_required_witness :
  exists missing,
    clean_data two_numeric true None
    = Raise (Exn CleaningError
               ("Missing required columns: " ++ repr_list missing))
    /\ missing <> []
    /\ NoDup missing
    /\ StronglySorted (fun a b => String.leb a b = true) missing
    /\ forall c, In c missing <->
                 In c (required_or_default None)
                 /\ ~ In c (columns (normalize_columns two_numeric)).
Proof.
  apply (clean_data_missing_required (rt := sample_runtime)
           two_numeric true None).
  - reflexivity.
  - vm_compute. discriminate.
Defined.







Lemma returned_report_rows_witness :
  final_rows (snd four_rows_cleaned) <= original_rows (snd four_rows_cleaned)
  /\ original_rows (snd four_rows_cleaned) <= len four_rows
  /\ missing_required_columns (snd four_rows_cleaned) = []
  /\ (series four_rows <> [] ->
      original_rows (snd four_rows_cleaned) = len four_rows
      /\ final_rows (snd four_rows_cleaned) = len (fst four_rows_cleaned)).
Proof.
  apply (returned_report_rows (rt := sample_runtime) four_rows true None
           (fst four_rows_cleaned) (snd four_rows_cleaned)).
  vm_compute. reflexivity.
Defined.


Lemma numeric_columns_listed_witness :
  exists m,
    meta two_numeric_analysis = Some m
    /\ forall c,
         In c (numeric_columns m) <->
         (exists s, In s (series two_numeric) /\ name s = c
                    /\ is_number_dtype (dtype_of s) = true)
         /\ True.
Proof.
  apply (numeric_columns_listed (rt := sample_runtime) two_numeric None
           two_numeric_analysis).
  - reflexivity.
  - vm_compute. reflexivity.
Defined.


Lemma env_check_leaves_sender_witness :
  (Emailer._validate_email_config smtp_env = Ok tt
   <-> unset smtp_env "SENDER_EMAIL" = false)
  /\ (unset smtp_env "SENDER_EMAIL" = true ->
      Emailer._validate_email_config smtp_env
      = Raise (Exn EmailError
                 "Missing email configuration variables: ['SENDER_EMAIL']")).
Proof.
  apply (env_check_leaves_sender smtp_env). reflexivity.
Defined.

Lemma send_email_raises_email_error_witness :
  exn_cls (Exn EmailError
             "Missing email configuration variables: ['SENDER_EMAIL']")
  = EmailError.
Proof.
  apply (send_email_raises_email_error smtp_env
           (fun _ => true) (fun _ => 1) (fun _ => Ok tt) (fun _ => Some 587%Z)
           (fun _ _ _ _ => Ok tt)
           "ops@corp.io" "Data Quality Report: Clean Run" "body"
           (Some "report.xlsx") true).
  reflexivity.
Defined.

Lemma send_email_attachment_errors_witness :
  Emailer.send_email full_env
    (fun _ => true) (fun _ => 1) (fun _ => Ok tt) (fun _ => Some 587%Z)
    (fun _ _ _ _ => Ok tt)
    "ops@corp.io" "Data Quality Report: Clean Run" "body" None true
  = Raise (Exn EmailError "Attachment required but not provided.").
Proof.
  apply (send_email_attachment_errors full_env
           (fun _ => true) (fun _ => 1) (fun _ => Ok tt) (fun _ => Some 587%Z)
           (fun _ _ _ _ => Ok tt)
           "ops@corp.io" "Data Quality Report: Clean Run" "body" None true);
    reflexivity.
Defined.

Lemma send_with_backoff_returns_iff_witness :
  Main.ending (Main.send_with_backoff flaky_send 3) = Main.Returned
  <-> exists k, k < 3 /\ flaky_send k = Ok tt.
Proof.
  apply (send_with_backoff_returns_iff flaky_send 3).
  - lia.
  - intros j e. unfold flaky_send. destruct (j =? 1)%nat; [discriminate|].
    intros H. injection H as <-. reflexivity.
Defined.

Lemma send_with_backoff_index_error_witness :
  Main.send_with_backoff failing_send 5 = Main.mkRun Main.IndexError 4 [1; 5; 10].
Proof.
  apply (send_with_backoff_index_error failing_send 5).
  - lia.
  - intros j _. eexists. split; reflexivity.
Defined.

Lemma load_csv_missing_columns_wrapped_witness :
  exists missing,
    Loader.load_csv full_env true (Ok two_numeric) "data/raw/staff.csv"
    = Raise (ExnFrom DataLoadError
               ("[LOAD_GENERIC_ERROR] Failed to load CSV file "
                ++ "data/raw/staff.csv")
               (Exn DataLoadError
                  ("[LOAD_MISSING_COLUMNS] Missing required columns: "
                   ++ repr_set missing ++ " | Context: {'required_columns': "
                   ++ repr_list (Loader.required_from_env full_env) ++ "}")))
    /\ NoDup missing
    /\ forall x, In x missing <->
                 In x (Loader.required_from_env full_env)
                 /\ ~ In x (columns (Loader.normalize_columns two_numeric)).
Proof.
  apply (load_csv_missing_columns_wrapped full_env two_numeric
           "data/raw/staff.csv" "bonus").
  - vm_compute. tauto.
  - vm_compute. intuition discriminate.
Defined.

Lemma load_csv_error_codes_witness :
  exn_cls (Exn DataLoadError
             "[LOAD_FILE_NOT_FOUND] CSV file not found: data/raw/staff.csv")
  = DataLoadError
  /\ (false = false ->
      Exn DataLoadError
        "[LOAD_FILE_NOT_FOUND] CSV file not found: data/raw/staff.csv"
      = Exn DataLoadError
          ("[LOAD_FILE_NOT_FOUND] CSV file not found: "
           ++ "data/raw/staff.csv"))
  /\ (false = true ->
      exists cause,
        Exn DataLoadError
          "[LOAD_FILE_NOT_FOUND] CSV file not found: data/raw/staff.csv"
        = ExnFrom DataLoadError
            ("[LOAD_GENERIC_ERROR] Failed to load CSV file "
             ++ "data/raw/staff.csv") cause
        /\ (Ok two_numeric = Raise cause \/ exn_cls cause = DataLoadError)).
Proof.
  apply (load_csv_error_codes full_env false (Ok two_numeric)
           "data/raw/staff.csv").
  reflexivity.
Defined.

Lemma handle_schema_drift_columns_witness :
  let out := Main.handle_schema_drift two_numeric in
  columns out = Main.EXPECTED_COLUMNS
  /\ index out = index two_numeric
  /\ forall c, In c Main.EXPECTED_COLUMNS ->
       getitem out c
       = if mem c (columns two_numeric) then getitem two_numeric c
         else Ok (mkSeries c DObject (repeat PNone (len two_numeric))).
Proof.
  apply (handle_schema_drift_columns two_numeric).
  apply NoDup_strings. reflexivity.
Defined.

Lemma schema_drift_then_clean_witness :
  exists out rep,
    clean_data (Main.handle_schema_drift ten_rows) true None = Ok (out, rep)
    /\ columns out = Main.EXPECTED_COLUMNS
    /\ original_rows rep = len ten_rows
    /\ final_rows rep = len out
    /\ extra_columns rep = []
    /\ missing_required_columns rep = [].
Proof.
  apply (schema_drift_then_clean (rt := sample_runtime) ten_rows true).
  - apply NoDup_strings. reflexivity.
  - exact aligned_ten_rows.
  - cbn. lia.
Defined.

Lemma absent_field_column_drops_all_witness :
  (exists out rep,
     clean_data (Main.handle_schema_drift two_numeric) true None
     = Ok (out, rep)
     /\ len out = 0 /\ final_rows rep = 0
     /\ original_rows rep = len two_numeric)
  /\ run_to_grading (fun _ _ _ => Ok "reports/analysis_report.xlsx")
       (Main.handle_schema_drift two_numeric)
     = Raise (Exn ReportError "No analysis results to write.").
Proof.
  apply (absent_field_column_drops_all (rt := sample_runtime)
           (fun _ _ _ => Ok "reports/analysis_report.xlsx")
           two_numeric "email").
  - apply NoDup_strings. reflexivity.
  - exact aligned_two_numeric.
  - cbn. lia.
  - cbn. tauto.
  - cbn. intuition discriminate.
Defined.

End ScenarioRuns.
